(** * generate_life_calendar: a shallow embedding of the week-grid program

    The development follows [generate_life_calendar.py]:

    - [PyDatetime]: the part of Python's [datetime] module the program
      calls (proleptic Gregorian ordinals, construction with range checks,
      day arithmetic, comparison, [weekday]);
    - [PyStr], [Strptime]: text, [str.strip], [os.path.splitext] and the
      regular expression [datetime.strptime] builds for a format;
    - [LifeCalendar]: the program itself, with the canvas and the standard
      output as explicit state and exceptions as explicit results;
    - the theorems about it. *)

From Stdlib Require Import ZArith List String Ascii Bool Lia.
Import ListNotations.

Local Open Scope string_scope.
Local Open Scope list_scope.
Local Open Scope Z_scope.

(* ================================================================== *)
(** ** Exceptions and results *)

Inductive exn : Type :=
| ValueError (msg : string)
| OverflowError (msg : string)
| LocaleError (msg : string).

(** A computation that either raises or returns. *)
Inductive result (A : Type) : Type :=
| Raise (e : exn)
| Ok (a : A).
Arguments Raise {A} e.
Arguments Ok {A} a.

Definition rbind {A B} (r : result A) (k : A -> result B) : result B :=
  match r with
  | Raise e => Raise e
  | Ok a => k a
  end.

Declare Scope result_scope.
Delimit Scope result_scope with result.
Notation "'let?' x ':=' r 'in' k" :=
  (rbind r (fun x => k))
    (at level 10, x name, r at level 100, k at level 200) : result_scope.

Definition is_ok {A} (r : result A) : bool :=
  match r with Ok _ => true | Raise _ => false end.

(* ================================================================== *)
(** ** Python's [datetime], as far as the program uses it *)

Module PyDatetime.

Definition MINYEAR : Z := 1.
Definition MAXYEAR : Z := 9999.
(** [date.max.toordinal()] *)
Definition MAXORDINAL : Z := 3652059.

(** [_DAYS_IN_MONTH], index 0 is a placeholder. *)
Definition DAYS_IN_MONTH (month : Z) : Z :=
  nth (Z.to_nat month) [-1; 31; 28; 31; 30; 31; 30; 31; 31; 30; 31; 30; 31] 0.

(** [_DAYS_BEFORE_MONTH], index 0 is a placeholder. *)
Definition DAYS_BEFORE_MONTH (month : Z) : Z :=
  nth (Z.to_nat month)
      [-1; 0; 31; 59; 90; 120; 151; 181; 212; 243; 273; 304; 334] 0.

(** [year % 4 == 0 and (year % 100 != 0 or year % 400 == 0)] *)
Definition is_leap (year : Z) : bool :=
  (year mod 4 =? 0) && (negb (year mod 100 =? 0) || (year mod 400 =? 0)).

Definition b2z (b : bool) : Z := if b then 1 else 0.

(** number of days before January 1st of [year] *)
Definition days_before_year (year : Z) : Z :=
  let y := year - 1 in
  y * 365 + y / 4 - y / 100 + y / 400.

Definition days_in_month (year month : Z) : Z :=
  if (month =? 2) && is_leap year then 29 else DAYS_IN_MONTH month.

Definition days_before_month (year month : Z) : Z :=
  DAYS_BEFORE_MONTH month + b2z ((month >? 2) && is_leap year).

(** [_ymd2ord]: 0001-01-01 is day 1. *)
Definition ymd2ord (year month day : Z) : Z :=
  days_before_year year + days_before_month year month + day.

Definition DI400Y : Z := 146097.
Definition DI100Y : Z := 36524.
Definition DI4Y : Z := 1461.

(** [_ord2ymd]: the inverse, by 400-, 100-, 4- and 1-year cycles and an
    estimate of the month that is corrected when it is one too large. *)
Definition ord2ymd (n : Z) : Z * Z * Z :=
  let n := n - 1 in
  let n400 := n / DI400Y in
  let n := n mod DI400Y in
  let year := n400 * 400 + 1 in
  let n100 := n / DI100Y in
  let n := n mod DI100Y in
  let n4 := n / DI4Y in
  let n := n mod DI4Y in
  let n1 := n / 365 in
  let n := n mod 365 in
  let year := year + (n100 * 100 + n4 * 4 + n1) in
  if (n1 =? 4) || (n100 =? 4) then (year - 1, 12, 31)
  else
    let leapyear := (n1 =? 3) && (negb (n4 =? 24) || (n100 =? 3)) in
    let month := Z.shiftr (n + 50) 5 in
    let preceding := DAYS_BEFORE_MONTH month + b2z ((month >? 2) && leapyear) in
    if preceding >? n then
      let month := month - 1 in
      let preceding :=
        preceding - (DAYS_IN_MONTH month + b2z ((month =? 2) && leapyear)) in
      (year, month, n - preceding + 1)
    else (year, month, n - preceding + 1).

(** A [datetime] whose time of day is midnight: [strptime] with a date-only
    format, [datetime(y, m, d)] and sums with whole days or weeks produce
    no other, so the time fields are left out. *)
Record datetime : Type := mkdt { year : Z; month : Z; day : Z }.

(** [_check_date_fields] *)
Definition check_date_fields (y m d : Z) : result unit :=
  if negb ((MINYEAR <=? y) && (y <=? MAXYEAR))
  then Raise (ValueError "year is out of range")
  else if negb ((1 <=? m) && (m <=? 12))
  then Raise (ValueError "month must be in 1..12")
  else if negb ((1 <=? d) && (d <=? days_in_month y m))
  then Raise (ValueError "day is out of range for month")
  else Ok tt.

(** [datetime.datetime(y, m, d)] *)
Definition new (y m d : Z) : result datetime :=
  match check_date_fields y m d with
  | Raise e => Raise e
  | Ok _ => Ok (mkdt y m d)
  end.

(** the dates a [datetime] object can hold *)
Definition valid (dt : datetime) : Prop :=
  MINYEAR <= year dt <= MAXYEAR /\ 1 <= month dt <= 12 /\
  1 <= day dt <= days_in_month (year dt) (month dt).

Definition toordinal (dt : datetime) : Z :=
  ymd2ord (year dt) (month dt) (day dt).

Definition fromordinal (n : Z) : datetime :=
  let '(y, m, d) := ord2ymd n in mkdt y m d.

(** [(self.toordinal() + 6) % 7]: Monday is 0. *)
Definition weekday (dt : datetime) : Z := (toordinal dt + 6) mod 7.

(** [dt + timedelta(days=k)], also for negative [k] *)
Definition add_days (dt : datetime) (k : Z) : result datetime :=
  let o := toordinal dt + k in
  if (0 <? o) && (o <=? MAXORDINAL) then Ok (fromordinal o)
  else Raise (OverflowError "date value out of range").

(** [dt + timedelta(weeks=k)] *)
Definition add_weeks (dt : datetime) (k : Z) : result datetime :=
  add_days dt (7 * k).

(** Comparison is that of the tuples (year, month, day). *)
Definition cmp (a b : datetime) : comparison :=
  match year a ?= year b with
  | Eq => match month a ?= month b with
          | Eq => day a ?= day b
          | c => c
          end
  | c => c
  end.

Definition ltb (a b : datetime) : bool :=
  match cmp a b with Lt => true | _ => false end.
Definition leb (a b : datetime) : bool :=
  match cmp a b with Gt => false | _ => true end.

End PyDatetime.

Import PyDatetime.

(* ================================================================== *)
(** ** Text: [str] methods, [int], [os.path.splitext] *)

Module PyStr.

(** A character is its code point; the model has the code points 0..255. *)
Definition code (c : ascii) : Z := Z.of_N (N_of_ascii c).

(** [str.isspace] on one character *)
Definition isspace (c : ascii) : bool :=
  let n := code c in
  ((9 <=? n) && (n <=? 13)) || ((28 <=? n) && (n <=? 32))
  || (n =? 133) || (n =? 160).

Definition isdigit (c : ascii) : bool :=
  (48 <=? code c) && (code c <=? 57).

Definition digit_value (c : ascii) : Z := code c - 48.

Fixpoint lstrip (s : string) : string :=
  match s with
  | String c s' => if isspace c then lstrip s' else s
  | EmptyString => EmptyString
  end.

Fixpoint rstrip (s : string) : string :=
  match s with
  | EmptyString => EmptyString
  | String c s' =>
      match rstrip s' with
      | EmptyString => if isspace c then EmptyString else String c EmptyString
      | r => String c r
      end
  end.

(** [s.strip()] *)
Definition strip (s : string) : string := rstrip (lstrip s).

Fixpoint int_digits (acc : Z) (s : string) : option Z :=
  match s with
  | EmptyString => Some acc
  | String c s' =>
      if isdigit c then int_digits (10 * acc + digit_value c) s' else None
  end.

(** [int(s)] for the texts the date groups can capture: decimal digits,
    surrounding whitespace ignored. *)
Definition int (s : string) : result Z :=
  match strip s with
  | EmptyString => Raise (ValueError "invalid literal for int()")
  | t => match int_digits 0 t with
         | Some n => Ok n
         | None => Raise (ValueError "invalid literal for int()")
         end
  end.

(** [s.rfind(c)]: the highest index of [c], or -1 *)
Fixpoint rfind_from (i : Z) (c : ascii) (s : string) : Z :=
  match s with
  | EmptyString => -1
  | String c' s' =>
      let r := rfind_from (i + 1) c s' in
      if 0 <=? r then r else if Ascii.eqb c c' then i else -1
  end.
Definition rfind (c : ascii) (s : string) : Z := rfind_from 0 c s.

(** [s[i:j]] for [0 <= i] *)
Definition slice (s : string) (i j : Z) : string :=
  substring (Z.to_nat i) (Z.to_nat (j - i)) s.

Fixpoint has_non_dot (s : string) : bool :=
  match s with
  | EmptyString => false
  | String c s' => if Ascii.eqb c "." then has_non_dot s' else true
  end.

(** [os.path.splitext] of [posixpath]: the extension starts at the last
    dot after the last slash, unless only dots precede it in the name. *)
Definition splitext (p : string) : string * string :=
  let sepIndex := rfind "/" p in
  let dotIndex := rfind "." p in
  if (dotIndex >? sepIndex)
     && has_non_dot (slice p (sepIndex + 1) dotIndex)
  then (slice p 0 dotIndex, slice p dotIndex (Z.of_nat (String.length p)))
  else (p, EmptyString).

End PyStr.

(* ================================================================== *)
(** ** [datetime.strptime] for the directives [%d], [%m] and [%Y] *)

Module Strptime.

(** One position of a regular expression: a character, a range [[a-b]]
    or [\d]. *)
Inductive cclass : Type :=
| CChar (c : ascii)
| CRange (lo hi : ascii)
| CDigit.

Definition cclass_matches (k : cclass) (c : ascii) : bool :=
  match k with
  | CChar a => Ascii.eqb a c
  | CRange lo hi => (PyStr.code lo <=? PyStr.code c) && (PyStr.code c <=? PyStr.code hi)
  | CDigit => PyStr.isdigit c
  end.

(** An alternative of a group is a sequence of positions; a pattern is a
    sequence of literal characters and named groups of alternatives. *)
Definition alt : Type := list cclass.

Inductive item : Type :=
| ILit (c : ascii)
| IGroup (name : ascii) (alts : list alt).

(** [(?P<d>3[0-1]|[1-2]\d|0[1-9]|[1-9]| [1-9])] *)
Definition re_d : item :=
  IGroup "d" [ [CChar "3"; CRange "0" "1"];
               [CRange "1" "2"; CDigit];
               [CChar "0"; CRange "1" "9"];
               [CRange "1" "9"];
               [CChar " "; CRange "1" "9"] ].

(** [(?P<m>1[0-2]|0[1-9]|[1-9])] *)
Definition re_m : item :=
  IGroup "m" [ [CChar "1"; CRange "0" "2"];
               [CChar "0"; CRange "1" "9"];
               [CRange "1" "9"] ].

(** [(?P<Y>\d\d\d\d)] *)
Definition re_Y : item :=
  IGroup "Y" [ [CDigit; CDigit; CDigit; CDigit] ].

(** [TimeRE.pattern]: a directive becomes its group, any other character
    stands for itself.  Directives other than the three above are not
    modelled and are reported as bad directives. *)
Fixpoint pattern (format : string) : result (list item) :=
  match format with
  | EmptyString => Ok []
  | String "%" (String c rest) =>
      let g :=
        if Ascii.eqb c "d" then Some re_d
        else if Ascii.eqb c "m" then Some re_m
        else if Ascii.eqb c "Y" then Some re_Y
        else None in
      match g with
      | None => Raise (ValueError "bad directive in format")
      | Some it =>
          match pattern rest with
          | Raise e => Raise e
          | Ok its => Ok (it :: its)
          end
      end
  | String "%" EmptyString => Raise (ValueError "stray % in format")
  | String c rest =>
      match pattern rest with
      | Raise e => Raise e
      | Ok its => Ok (ILit c :: its)
      end
  end.

(** Match one alternative at the start of [s]: the matched text and the
    rest. *)
Fixpoint match_alt (a : alt) (s : string) : option (string * string) :=
  match a with
  | [] => Some (EmptyString, s)
  | k :: a' =>
      match s with
      | EmptyString => None
      | String c s' =>
          if cclass_matches k c then
            match match_alt a' s' with
            | Some (txt, rest) => Some (String c txt, rest)
            | None => None
            end
          else None
      end
  end.

(** [re.match]: the pattern at the start of [s], alternatives tried from
    the left, the next one when the rest of the pattern fails after it.
    Returns the named groups and the text after the match. *)
Fixpoint match_items (its : list item) (s : string)
  : option (list (ascii * string) * string) :=
  match its with
  | [] => Some ([], s)
  | ILit c :: its' =>
      match s with
      | EmptyString => None
      | String c' s' => if Ascii.eqb c c' then match_items its' s' else None
      end
  | IGroup name alts :: its' =>
      (fix try_alts (alts : list alt) :=
         match alts with
         | [] => None
         | a :: alts' =>
             match match_alt a s with
             | Some (txt, rest) =>
                 match match_items its' rest with
                 | Some (caps, r) => Some ((name, txt) :: caps, r)
                 | None => try_alts alts'
                 end
             | None => try_alts alts'
             end
         end) alts
  end.

Fixpoint group (name : ascii) (caps : list (ascii * string)) : option string :=
  match caps with
  | [] => None
  | (n, txt) :: caps' => if Ascii.eqb n name then Some txt else group name caps'
  end.

(** The value of a group, or the default when the format has not got it. *)
Definition group_int (name : ascii) (default : Z)
           (caps : list (ascii * string)) : result Z :=
  match group name caps with
  | None => Ok default
  | Some txt => PyStr.int txt
  end.

(** [datetime.datetime.strptime(data_string, format)] *)
Definition strptime (data_string format : string) : result datetime :=
  (let? re := pattern format in
   match match_items re data_string with
   | None => Raise (ValueError "time data does not match format")
   | Some (caps, rest) =>
       match rest with
       | String _ _ => Raise (ValueError "unconverted data remains")
       | EmptyString =>
           let? y := group_int "Y" 1900 caps in
           let? m := group_int "m" 1 caps in
           let? d := group_int "d" 1 caps in
           PyDatetime.new y m d
       end
   end)%result.

End Strptime.

(* ================================================================== *)
(** ** The program *)

Module LifeCalendar.

Import Strptime.

Definition DOC_NAME : string := "life_calendar.pdf".
Definition MAX_TITLE_SIZE : nat := 30.
Definition DEFAULT_TITLE : string := "CALENDARIO DELLA VITA".
Definition NUM_ROWS : Z := 88.
Definition NUM_COLUMNS : nat := 52.

(** Fill colours, in hundredths of the full intensity. *)
Definition colour : Type := (Z * Z * Z)%type.
Definition WHITE : colour := (100, 100, 100).
Definition LIVED_COLOUR : colour := (88, 88, 88).
Definition BIRTHDAY_COLOUR : colour := (55, 55, 55).
Definition NEWYEAR_COLOUR : colour := (80, 80, 80).

(** What is shown as text: a literal, a label looked up in the
    translation table, a number, or a date in the locale's format
    ['%d %b, %Y']. *)
Inductive text : Type :=
| Str (s : string)
| Translated (key : string)
| Number (n : Z)
| DateLabel (d : datetime).

(** The drawing calls on the page, without their coordinates and font
    settings (floating-point layout that no date or text depends on). *)
Inductive cairo_op : Type :=
| FillBackground
| ShowText (t : text)
| DrawSquare (fillcolour : colour)
| ShowPage.

(** What the process has written to its standard output. *)
Inductive output : Type :=
| PdfBytes (page : list cairo_op)
| PrintLine (s : string).

(** The state the program acts on: the drawing calls made on the surface,
    the standard output, the files by path, and the time locale in force. *)
Record world : Type := mkWorld {
  page : list cairo_op;
  stdout : list output;
  files : list (string * output);
  lc_time : string
}.

(** What the program reads from its environment: the current date and
    the locales the system supports. *)
Record env : Type := mkEnv {
  today : datetime;
  locale_available : string -> bool
}.

(** Stateful, fallible computations; the state survives an exception. *)
Definition M (A : Type) : Type := world -> result A * world.

Definition ret {A} (a : A) : M A := fun w => (Ok a, w).
Definition bind {A B} (m : M A) (k : A -> M B) : M B :=
  fun w => match m w with
           | (Ok a, w') => k a w'
           | (Raise e, w') => (Raise e, w')
           end.
Definition lift {A} (r : result A) : M A := fun w => (r, w).
Definition raise {A} (e : exn) : M A := fun w => (Raise e, w).
(** [try: m except Exception as e: h e] *)
Definition try_except {A} (m : M A) (h : exn -> M A) : M A :=
  fun w => match m w with
           | (Ok a, w') => (Ok a, w')
           | (Raise e, w') => h e w'
           end.

Declare Scope prog_scope.
Delimit Scope prog_scope with prog.
Notation "x <- m ;; k" := (bind m (fun x => k))
  (at level 61, m at next level, right associativity) : prog_scope.
Notation "m ;; k" := (bind m (fun _ => k))
  (at level 61, right associativity) : prog_scope.
Local Open Scope prog_scope.

Definition emit (op : cairo_op) : M unit :=
  fun w => (Ok tt, mkWorld (page w ++ [op]) (stdout w) (files w) (lc_time w)).

Definition write_stdout (o : output) : M unit :=
  fun w => (Ok tt, mkWorld (page w) (stdout w ++ [o]) (files w) (lc_time w)).

(** [cairo.PDFSurface(out, w, h)] and its context: a fresh, empty page *)
Definition new_surface : M unit :=
  fun w => (Ok tt, mkWorld [] (stdout w) (files w) (lc_time w)).

(** [out.getvalue()] after [surface.finish()] *)
Definition getvalue : M (list cairo_op) := fun w => (Ok (page w), w).

Definition FORMAT_ERROR : exn :=
  ValueError "Incorrect date format: must be dd-mm-yyyy or dd/mm/yyyy".

Definition TITLE_ERROR : exn :=
  ValueError "Title can't be longer than 30 characters".

(** The loop of [parse_date] over [formats]. *)
Fixpoint parse_date_loop (formats : list string) (date : string)
  : result datetime :=
  match formats with
  | [] => Raise FORMAT_ERROR
  | f :: formats' =>
      match strptime date f with
      | Raise _ => parse_date_loop formats' date
      | Ok ret => Ok ret
      end
  end.

Definition parse_date (date : string) : result datetime :=
  let formats := ["%d/%m/%Y"; "%d-%m-%Y"] in
  let stripped := PyStr.strip date in
  parse_date_loop formats date.

Definition draw_square (fillcolour : colour) : M unit :=
  emit (DrawSquare fillcolour).

Definition is_current_week (now : datetime) (month day : Z) : result bool :=
  (let? end_ := add_weeks now 1 in
   let? date1 := PyDatetime.new (year now) month day in
   let? date2 := PyDatetime.new (year now + 1) month day in
   Ok ((leb now date1 && ltb date1 end_) || (leb now date2 && ltb date2 end_))
  )%result.

Definition is_week_in_past (e : env) (date : datetime) : result bool :=
  (let today := today e in
   let? last_monday := add_days today (- weekday today) in
   Ok (ltb date last_monday))%result.

(** The [if]/[elif] chain in the loop of [draw_row]: the fill of the
    square of the week that starts at [date]. *)
Definition cell_fill (e : env) (start_date date : datetime)
           (fill_lived : bool) : result colour :=
  (let? lived := (if fill_lived then is_week_in_past e date else Ok false) in
   if lived then Ok LIVED_COLOUR
   else
     let? birthday := is_current_week date (month start_date) (day start_date) in
     if birthday then Ok BIRTHDAY_COLOUR
     else
       let? newyear := is_current_week date 1 1 in
       if newyear then Ok NEWYEAR_COLOUR else Ok WHITE)%result.

(** [for i in range(n)] of [draw_row], [n] squares left to draw *)
Fixpoint draw_row_loop (e : env) (n : nat) (start_date date : datetime)
         (fill_lived : bool) : M unit :=
  match n with
  | O => ret tt
  | S n' =>
      fill <- lift (cell_fill e start_date date fill_lived) ;;
      draw_square fill ;;
      date' <- lift (add_weeks date 1) ;;
      draw_row_loop e n' start_date date' fill_lived
  end.

Definition draw_row (e : env) (start_date date : datetime)
           (fill_lived : bool) : M unit :=
  draw_row_loop e NUM_COLUMNS start_date date fill_lived.

Definition draw_key_item (desc : text) (colour : colour) : M unit :=
  draw_square colour ;;
  emit (ShowText desc).

(** the week numbers 1..52 above the top row *)
Fixpoint draw_headers (n : nat) (i : Z) : M unit :=
  match n with
  | O => ret tt
  | S n' => emit (ShowText (Number (i + 1))) ;; draw_headers n' (i + 1)
  end.

(** [for i in range(years)] of [draw_grid], [n] rows left to draw *)
Fixpoint draw_grid_loop (e : env) (n : nat) (start_date date : datetime)
         (fill_lived : bool) : M unit :=
  match n with
  | O => ret tt
  | S n' =>
      emit (ShowText (DateLabel date)) ;;
      draw_row e start_date date fill_lived ;;
      date' <- lift (add_weeks date 52) ;;
      draw_grid_loop e n' start_date date' fill_lived
  end.

Definition draw_grid (e : env) (date : datetime) (years : Z)
           (fill_lived : bool) : M unit :=
  let start_date := date in
  draw_key_item (Translated "Week of your birthday") BIRTHDAY_COLOUR ;;
  draw_key_item (Translated "First week of the new year") NEWYEAR_COLOUR ;;
  draw_key_item (Translated "Weeks lived") LIVED_COLOUR ;;
  draw_headers NUM_COLUMNS 0 ;;
  draw_grid_loop e (Z.to_nat years) start_date date fill_lived.

(** [while date.weekday() != 0: date -= timedelta(days=1)].  Every turn
    lowers the ordinal by one and the subtraction raises below ordinal 1,
    so the ordinal of the start bounds the number of turns: [fuel] is
    never used up (see [back_up_fuel_irrelevant]). *)
Fixpoint back_up_loop (fuel : nat) (date : datetime) : result datetime :=
  if weekday date =? 0 then Ok date
  else
    match fuel with
    | O => Raise (OverflowError "date value out of range")
    | S fuel' =>
        match add_days date (-1) with
        | Raise e => Raise e
        | Ok date' => back_up_loop fuel' date'
        end
    end.

Definition back_up_to_monday (start_date : datetime) : result datetime :=
  back_up_loop (Z.to_nat (toordinal start_date)) start_date.

Definition gen_calendar (e : env) (start_date : datetime) (title : string)
           (filename : option string) (years : Z) (fill_lived : bool)
  : M unit :=
  if (MAX_TITLE_SIZE <? String.length title)%nat then raise TITLE_ERROR
  else
    new_surface ;;
    emit FillBackground ;;
    emit (ShowText (Str title)) ;;
    date <- lift (back_up_to_monday start_date) ;;
    draw_grid e date years fill_lived ;;
    emit ShowPage ;;
    bytes <- getvalue ;;
    write_stdout (PdfBytes bytes).

(** The result of [argparse] on the command line. *)
Record args : Type := mkArgs {
  arg_date : string;
  arg_filename : string;
  arg_stdout : bool;
  arg_title : string;
  arg_years : Z;
  arg_locale : string;
  arg_fill_lived : bool
}.

(** [locale.setlocale(locale.LC_TIME, name)] *)
Definition setlocale (e : env) (name : string) : M unit :=
  fun w =>
    if locale_available e name
    then (Ok tt, mkWorld (page w) (stdout w) (files w) name)
    else (Raise (LocaleError "unsupported locale setting"), w).

(** [print("Error: %s" % e)] *)
Definition exn_message (e : exn) : string :=
  match e with
  | ValueError m | OverflowError m | LocaleError m => m
  end.
Definition print_error (e : exn) : M unit :=
  write_stdout (PrintLine ("Error: " ++ exn_message e)%string).

Definition main (e : env) (a : args) : M unit :=
  setlocale e (arg_locale a) ;;
  parsed <- try_except (d <- lift (parse_date (arg_date a)) ;; ret (Some d))
                       (fun err => print_error err ;; ret None) ;;
  match parsed with
  | None => ret tt
  | Some start_date =>
      let doc_name :=
        if arg_stdout a then None
        else Some (fst (PyStr.splitext (arg_filename a)) ++ ".pdf")%string in
      let years := Z.max 1 (Z.min 88 (arg_years a)) in
      try_except
        (gen_calendar e start_date (arg_title a) doc_name years
                      (arg_fill_lived a))
        print_error
  end.

End LifeCalendar.

Import LifeCalendar.

(* ================================================================== *)
(** ** Reading the page back, and the reference definitions *)

(** The dates of the row labels on a page, top to bottom. *)
Fixpoint row_labels (ops : list cairo_op) : list datetime :=
  match ops with
  | [] => []
  | ShowText (DateLabel d) :: ops' => d :: row_labels ops'
  | _ :: ops' => row_labels ops'
  end.

(** The fills of the squares on a page, in drawing order. *)
Fixpoint squares (ops : list cairo_op) : list colour :=
  match ops with
  | [] => []
  | DrawSquare c :: ops' => c :: squares ops'
  | _ :: ops' => squares ops'
  end.

(** The fill of the grid square in [row] and [col] (from 0): the grid
    follows the three squares of the key. *)
Definition grid_square (ops : list cairo_op) (row col : nat) : option colour :=
  nth_error (squares ops) (3 + 52 * row + col).

(** The four states of a week and their fills. *)
Inductive cell_state : Type := LIVED | BIRTHDAY | NEW_YEAR | DEFAULT.

Definition state_colour (s : cell_state) : colour :=
  match s with
  | LIVED => LIVED_COLOUR
  | BIRTHDAY => BIRTHDAY_COLOUR
  | NEW_YEAR => NEWYEAR_COLOUR
  | DEFAULT => WHITE
  end.

(** The ordinal of the Monday of the week of [dt]. *)
Definition monday_ordinal (dt : datetime) : Z := toordinal dt - weekday dt.

(** Reference: the week that starts at [d] contains the day [dd] of month
    [m] of year [y], when there is such a day:
    [d <= target < d + 1 week]. *)
Definition span_contains (d : datetime) (y m dd : Z) : bool :=
  is_ok (PyDatetime.new y m dd)
  && (toordinal d <=? ymd2ord y m dd) && (ymd2ord y m dd <? toordinal d + 7).

(** Reference: the four steps of the week classifier, for the cell that
    starts at [d], the birth date [b] and the current date [today]. *)
Definition reference_state (today b d : datetime) (fill_lived : bool)
  : cell_state :=
  if fill_lived && (toordinal d <? monday_ordinal today) then LIVED
  else if span_contains d (year d) (month b) (day b)
          || span_contains d (year d + 1) (month b) (day b) then BIRTHDAY
  else if span_contains d (year d) 1 1
          || span_contains d (year d + 1) 1 1 then NEW_YEAR
  else DEFAULT.

Definition digit_char (n : Z) : ascii := ascii_of_N (Z.to_N (48 + n)).

(** [n] in two and in four decimal digits, zero-padded *)
Definition pad2 (n : Z) : string :=
  String (digit_char (n / 10)) (String (digit_char (n mod 10)) EmptyString).
Definition pad4 (n : Z) : string :=
  String (digit_char (n / 1000))
    (String (digit_char (n / 100 mod 10))
       (String (digit_char (n / 10 mod 10))
          (String (digit_char (n mod 10)) EmptyString))).

(** Modelled from the spec: the program has no formatter for its input
    patterns; this one writes a date in the accepted pattern dd/mm/yyyy
    or dd-mm-yyyy, [sep] being the separator. *)
Definition format_date (sep : ascii) (dt : datetime) : string :=
  (pad2 (day dt) ++ String sep (pad2 (month dt) ++ String sep (pad4 (year dt))))%string.

(** The tail of [ord2ymd]: month and day of the day with index [n]
    (from 0) in a year. *)
Definition month_day (n : Z) (leapyear : bool) : Z * Z :=
  let month := Z.shiftr (n + 50) 5 in
  let preceding := DAYS_BEFORE_MONTH month + b2z ((month >? 2) && leapyear) in
  if preceding >? n then
    let month := month - 1 in
    let preceding :=
      preceding - (DAYS_IN_MONTH month + b2z ((month =? 2) && leapyear)) in
    (month, n - preceding + 1)
  else (month, n - preceding + 1).

(** [month_day] is right for the day with index [k]. *)
Definition month_day_ok (leapyear : bool) (k : nat) : bool :=
  let n := Z.of_nat k in
  let '(m, d) := month_day n leapyear in
  (1 <=? m) && (m <=? 12) && (1 <=? d)
  && (d <=? (if (m =? 2) && leapyear then 29 else DAYS_IN_MONTH m))
  && (DAYS_BEFORE_MONTH m + b2z ((m >? 2) && leapyear) + d =? n + 1).

(* ================================================================== *)
(** ** Notions the statements use *)

(** The state after the drawing calls [ops]. *)
Definition with_page (w : world) (ops : list cairo_op) : world :=
  mkWorld (page w ++ ops) (stdout w) (files w) (lc_time w).

(** A 29 February. *)
Definition leap_day (dt : datetime) : bool := (month dt =? 2) && (day dt =? 29).

(** The Monday that [start_date] is backed up to is a 29 February. *)
Definition anchor_is_leap_day (start_date : datetime) : bool :=
  match back_up_to_monday start_date with
  | Ok a => leap_day a
  | Raise _ => false
  end.

(** The last ordinal whose week ends, and whose next year begins, within
    the range of dates: 7 days before 1 January 9999. *)
Definition SAFE_ORDINAL : Z := 3651687.

(** A month and day that exist in every year. *)
Definition every_year (m d : Z) : Prop :=
  1 <= m <= 12 /\ 1 <= d <= DAYS_IN_MONTH m.

(** The exceptions of the date arithmetic. *)
Definition date_error (x : exn) : Prop :=
  x = OverflowError "date value out of range" \/
  x = ValueError "year is out of range" \/
  x = ValueError "month must be in 1..12" \/
  x = ValueError "day is out of range for month".

(** [m] raises no exception outside [P]. *)
Definition raises_only {A} (P : exn -> Prop) (m : M A) : Prop :=
  forall w x w', m w = (Raise x, w') -> P x.

(** [m] only adds drawing calls to the page. *)
Definition page_extends {A} (m : M A) : Prop :=
  forall w, exists ops, page (snd (m w)) = page w ++ ops.

(** The drawing calls of the key. *)
Definition KEY_OPS : list cairo_op :=
  [DrawSquare BIRTHDAY_COLOUR;
   ShowText (Translated "Week of your birthday");
   DrawSquare NEWYEAR_COLOUR;
   ShowText (Translated "First week of the new year");
   DrawSquare LIVED_COLOUR;
   ShowText (Translated "Weeks lived")].

(** Command lines of the examples. *)
Definition args_1990 : args :=
  mkArgs "15/03/1990" DOC_NAME false DEFAULT_TITLE 4 "it_IT" false.
Definition args_out : args :=
  mkArgs "15/03/1990" "out.txt" false DEFAULT_TITLE 1 "it_IT" false.
Definition args_leap : args :=
  mkArgs "29/02/1988" DOC_NAME false DEFAULT_TITLE 80 "it_IT" false.
Definition args_years (years : Z) : args :=
  mkArgs "15/03/1990" DOC_NAME true DEFAULT_TITLE years "it_IT" false.
Definition TITLE_30 : string := "ABCDEFGHIJKLMNOPQRSTUVWXYZ1234".
Definition TITLE_31 : string := "ABCDEFGHIJKLMNOPQRSTUVWXYZ12345".

(** [m] leaves the part [f] of the state as it was. *)
Definition preserves {A T} (f : world -> T) (m : M A) : Prop :=
  forall w, f (snd (m w)) = f w.

(** A part of the state that does not depend on the page. *)
Definition drawing_frame {T} (f : world -> T) : Prop :=
  forall pg out fs lc pg', f (mkWorld pg out fs lc) = f (mkWorld pg' out fs lc).

(** The state and the environment of the examples: nothing drawn or
    written yet, 1 January 2024, every locale available. *)
Definition w0 : world := mkWorld [] [] [] "C".
Definition env_2024 : env := mkEnv (mkdt 2024 1 1) (fun _ => true).

(** The drawing calls of the numbers 1 to 52 of the weeks, above the top
    row. *)
Definition HEADER_OPS : list cairo_op :=
  map (fun k => ShowText (Number (Z.of_nat k + 1))) (seq 0 NUM_COLUMNS).
(** The date of the week in [row] and [col] of the grid (from 0) that is
    drawn from [anchor]: [draw_grid] moves on by 52 weeks a row,
    [draw_row] by one week a square. *)
Definition cell_date (anchor : datetime) (row col : nat) : datetime :=
  fromordinal (toordinal anchor + 364 * Z.of_nat row + 7 * Z.of_nat col).

(** [n] in decimal without a leading zero, for [0 <= n < 100]: a day or
    a month as one types it. *)
Definition unpadded (n : Z) : string :=
  if n <? 10 then String (digit_char n) EmptyString else pad2 n.

(** The match of a pattern that begins with the group [name] holding
    [txt], from the match [r] of the rest of the pattern. *)
Definition capture (name : ascii) (txt : string)
           (r : option (list (ascii * string) * string))
  : option (list (ascii * string) * string) :=
  match r with
  | Some (caps, rest) => Some ((name, txt) :: caps, rest)
  | None => None
  end.

Local Open Scope prog_scope.

(* ================================================================== *)
(** * Tactics *)

(** the cases [n = lo], ..., [n = hi] of an integer known to lie between *)
Ltac small_cases n lo hi :=
  let rec go k :=
    lazymatch eval vm_compute in (k <=? hi) with
    | true =>
        let k' := eval vm_compute in (k + 1) in
        destruct (Z.eq_dec n k) as [-> | ?]; [ | go k' ]
    | false => exfalso; lia
    end in
  go lo.

(** a literal date is a date *)
Ltac valid_date := repeat split; vm_compute; discriminate.

(** evaluate the month tables at literal months *)
Ltac tables :=
  repeat match goal with
    | |- context [DAYS_BEFORE_MONTH ?m] =>
        let v := eval vm_compute in (DAYS_BEFORE_MONTH m) in
        change (DAYS_BEFORE_MONTH m) with v
    | |- context [DAYS_IN_MONTH ?m] =>
        let v := eval vm_compute in (DAYS_IN_MONTH m) in
        change (DAYS_IN_MONTH m) with v
    | H : context [DAYS_BEFORE_MONTH ?m] |- _ =>
        let v := eval vm_compute in (DAYS_BEFORE_MONTH m) in
        change (DAYS_BEFORE_MONTH m) with v in H
    | H : context [DAYS_IN_MONTH ?m] |- _ =>
        let v := eval vm_compute in (DAYS_IN_MONTH m) in
        change (DAYS_IN_MONTH m) with v in H
    end; cbn [Z.gtb Z.eqb Z.compare Pos.compare Pos.compare_cont Pos.eqb
              andb orb negb b2z] in *.

Ltac month_cases m := small_cases m 1 12.

(* ================================================================== *)
(** * Facts about the calendar arithmetic *)

Lemma days_before_year_succ (y : Z) :
  days_before_year (y + 1) = days_before_year y + 365 + b2z (is_leap y).
Proof.
  unfold days_before_year, is_leap, b2z.
  replace (y + 1 - 1) with y by lia.
  destruct (Z.eqb_spec (y mod 4) 0), (Z.eqb_spec (y mod 100) 0),
    (Z.eqb_spec (y mod 400) 0); cbn [andb orb negb];
    Z.div_mod_to_equations; lia.
Qed.

Lemma days_before_year_mono (y1 y2 : Z) :
  y1 < y2 -> days_before_year (y1 + 1) <= days_before_year y2.
Proof.
  unfold days_before_year. intros H.
  replace (y1 + 1 - 1) with y1 by lia.
  Z.div_mod_to_equations; lia.
Qed.

Lemma month_day_table (leapyear : bool) :
  forallb (month_day_ok leapyear) (seq 0 (365 + Nat.b2n leapyear)) = true.
Proof. destruct leapyear; vm_compute; reflexivity. Qed.

Lemma month_day_spec (n : Z) (leapyear : bool) :
  0 <= n < 365 + b2z leapyear ->
  let '(m, d) := month_day n leapyear in
  1 <= m <= 12 /\
  1 <= d <= (if (m =? 2) && leapyear then 29 else DAYS_IN_MONTH m) /\
  DAYS_BEFORE_MONTH m + b2z ((m >? 2) && leapyear) + d = n + 1.
Proof.
  intros Hn.
  pose proof (month_day_table leapyear) as T.
  rewrite forallb_forall in T.
  specialize (T (Z.to_nat n)).
  unfold month_day_ok in T. rewrite Z2Nat.id in T by lia.
  destruct (month_day n leapyear) as [m d].
  assert (In (Z.to_nat n) (seq 0 (365 + Nat.b2n leapyear))) as Hin.
  { apply in_seq. destruct leapyear; cbn [b2z Nat.b2n] in *; lia. }
  specialize (T Hin).
  repeat rewrite andb_true_iff in T.
  destruct T as [[[[T1 T2] T3] T4] T5].
  lia.
Qed.

Lemma ord2ymd_cycles (n : Z) :
  1 <= n ->
  let n0 := n - 1 in
  let n400 := n0 / DI400Y in
  let r400 := n0 mod DI400Y in
  let n100 := r400 / DI100Y in
  let r100 := r400 mod DI100Y in
  let n4 := r100 / DI4Y in
  let r4 := r100 mod DI4Y in
  let n1 := r4 / 365 in
  let r1 := r4 mod 365 in
  let y := n400 * 400 + 1 + (n100 * 100 + n4 * 4 + n1) in
  if (n1 =? 4) || (n100 =? 4)
  then is_leap (y - 1) = true /\ 1 <= y - 1 /\
       days_before_year (y - 1) + 365 = n0
  else is_leap y = (n1 =? 3) && (negb (n4 =? 24) || (n100 =? 3)) /\
       1 <= y /\ days_before_year y + r1 = n0 /\
       0 <= r1 < 365 + b2z (is_leap y).
Proof.
  intros Hn. cbv zeta. unfold DI400Y, DI100Y, DI4Y, days_before_year, is_leap.
  set (n0 := n - 1).
  assert (0 <= n0) by (unfold n0; lia).
  clearbody n0. clear Hn n.
  pose proof (Z.div_mod n0 146097 ltac:(lia)) as E1.
  pose proof (Z.mod_pos_bound n0 146097 ltac:(lia)) as B1.
  set (n400 := n0 / 146097) in *. set (r400 := n0 mod 146097) in *.
  assert (0 <= n400) by (unfold n400; apply Z.div_pos; lia).
  clearbody n400 r400.
  pose proof (Z.div_mod r400 36524 ltac:(lia)) as E2.
  pose proof (Z.mod_pos_bound r400 36524 ltac:(lia)) as B2.
  set (n100 := r400 / 36524) in *. set (r100 := r400 mod 36524) in *.
  assert (0 <= n100 <= 4) by lia.
  clearbody n100 r100.
  pose proof (Z.div_mod r100 1461 ltac:(lia)) as E3.
  pose proof (Z.mod_pos_bound r100 1461 ltac:(lia)) as B3.
  set (n4 := r100 / 1461) in *. set (r4 := r100 mod 1461) in *.
  assert (0 <= n4 <= 24) by lia.
  clearbody n4 r4.
  pose proof (Z.div_mod r4 365 ltac:(lia)) as E4.
  pose proof (Z.mod_pos_bound r4 365 ltac:(lia)) as B4.
  set (n1 := r4 / 365) in *. set (r1 := r4 mod 365) in *.
  assert (0 <= n1 <= 4) by lia.
  clearbody n1 r1.
  destruct (Z.eqb_spec n1 4) as [N1|N1], (Z.eqb_spec n100 4) as [N100|N100];
    cbn [orb].
  all: repeat match goal with
       | |- context [Z.eqb ?a ?b] => destruct (Z.eqb_spec a b)
       end; cbn [andb orb negb b2z]; repeat split; try reflexivity;
       try (Z.div_mod_to_equations; lia).
Qed.

Lemma ord2ymd_month_day (n : Z) :
  ord2ymd n =
  let n0 := n - 1 in
  let n400 := n0 / DI400Y in
  let r400 := n0 mod DI400Y in
  let n100 := r400 / DI100Y in
  let r100 := r400 mod DI100Y in
  let n4 := r100 / DI4Y in
  let r4 := r100 mod DI4Y in
  let n1 := r4 / 365 in
  let r1 := r4 mod 365 in
  let y := n400 * 400 + 1 + (n100 * 100 + n4 * 4 + n1) in
  if (n1 =? 4) || (n100 =? 4) then (y - 1, 12, 31)
  else
    let '(m, d) :=
      month_day r1 ((n1 =? 3) && (negb (n4 =? 24) || (n100 =? 3))) in
    (y, m, d).
Proof.
  unfold ord2ymd, month_day. cbv zeta.
  destruct (_ || _); [reflexivity|].
  destruct (_ >? _); reflexivity.
Qed.

Lemma ord2ymd_spec (n : Z) :
  1 <= n ->
  let '(y, m, d) := ord2ymd n in
  1 <= y /\ 1 <= m <= 12 /\ 1 <= d <= days_in_month y m /\ ymd2ord y m d = n.
Proof.
  intros Hn. rewrite ord2ymd_month_day.
  pose proof (ord2ymd_cycles n Hn) as C. cbv zeta in *.
  destruct (_ || _).
  - destruct C as (L & Hy & E).
    unfold ymd2ord, days_in_month, days_before_month. rewrite L.
    tables. lia.
  - destruct C as (L & Hy & E & B). rewrite <- L.
    pose proof (month_day_spec _ _ B) as S.
    destruct (month_day _ _) as [m d].
    destruct S as (Hm & Hd & E').
    unfold ymd2ord, days_in_month, days_before_month.
    repeat split; try lia.
Qed.

Lemma ymd2ord_lower (y m d : Z) :
  1 <= m <= 12 -> 1 <= d -> days_before_year y < ymd2ord y m d.
Proof.
  intros Hm Hd. unfold ymd2ord, days_before_month.
  month_cases m; destruct (is_leap y); tables; lia.
Qed.

Lemma ymd2ord_upper (y m d : Z) :
  1 <= m <= 12 -> d <= days_in_month y m ->
  ymd2ord y m d <= days_before_year (y + 1).
Proof.
  intros Hm Hd. rewrite days_before_year_succ.
  unfold ymd2ord, days_before_month, days_in_month in *.
  month_cases m; destruct (is_leap y); tables; lia.
Qed.

Lemma days_before_month_mono (y m1 m2 : Z) :
  1 <= m1 -> m1 < m2 -> m2 <= 12 ->
  days_before_month y m1 + days_in_month y m1 <= days_before_month y m2.
Proof.
  intros H1 H2 H3. unfold days_before_month, days_in_month.
  month_cases m1; month_cases m2; try lia; destruct (is_leap y); tables; lia.
Qed.

Lemma days_before_year_le (y1 y2 : Z) :
  y1 <= y2 -> days_before_year y1 <= days_before_year y2.
Proof.
  intros H. destruct (Z.eq_dec y1 y2) as [->|]; [lia|].
  pose proof (days_before_year_mono y1 y2 ltac:(lia)).
  pose proof (days_before_year_succ y1). destruct (is_leap y1); cbn in *; lia.
Qed.

Lemma ord2ymd_year_max (n : Z) :
  1 <= n <= MAXORDINAL -> fst (fst (ord2ymd n)) <= MAXYEAR.
Proof.
  intros [H1 H2]. pose proof (ord2ymd_spec n H1) as S.
  destruct (ord2ymd n) as [[y m] d]. cbn.
  destruct S as (Hy & Hm & Hd & E).
  pose proof (ymd2ord_lower y m d Hm ltac:(lia)).
  destruct (Z_le_gt_dec y MAXYEAR); [assumption|].
  pose proof (days_before_year_le 10000 y ltac:(unfold MAXYEAR in *; lia)).
  change (days_before_year 10000) with 3652059 in *.
  unfold MAXORDINAL in *. lia.
Qed.

Lemma fromordinal_valid (n : Z) :
  1 <= n <= MAXORDINAL -> valid (fromordinal n).
Proof.
  intros H. pose proof (ord2ymd_year_max n H) as Y.
  pose proof (ord2ymd_spec n (proj1 H)) as S.
  unfold fromordinal, valid.
  destruct (ord2ymd n) as [[y m] d]. cbn in *. unfold MINYEAR. lia.
Qed.

Lemma toordinal_fromordinal (n : Z) :
  1 <= n -> toordinal (fromordinal n) = n.
Proof.
  intros H. pose proof (ord2ymd_spec n H) as S.
  unfold fromordinal, toordinal.
  destruct (ord2ymd n) as [[y m] d]. cbn. tauto.
Qed.

Lemma toordinal_range (dt : datetime) :
  valid dt -> 1 <= toordinal dt <= MAXORDINAL.
Proof.
  intros (Hy & Hm & Hd). unfold toordinal.
  pose proof (ymd2ord_lower (year dt) (month dt) (day dt) Hm ltac:(lia)).
  pose proof (ymd2ord_upper (year dt) (month dt) (day dt) Hm ltac:(lia)).
  pose proof (days_before_year_le 1 (year dt) ltac:(unfold MINYEAR in *; lia)).
  pose proof (days_before_year_le (year dt + 1) 10000
                ltac:(unfold MAXYEAR in *; lia)).
  change (days_before_year 1) with 0 in *.
  change (days_before_year 10000) with 3652059 in *.
  unfold MAXORDINAL. lia.
Qed.

(** Tuple order and day count agree on dates. *)
Lemma cmp_toordinal (a b : datetime) :
  valid a -> valid b -> cmp a b = (toordinal a ?= toordinal b).
Proof.
  intros (Hya & Hma & Hda) (Hyb & Hmb & Hdb).
  unfold cmp, toordinal. symmetry.
  destruct (Z.compare_spec (year a) (year b)) as [Ey | Ly | Ly].
  - rewrite <- Ey in *.
    destruct (Z.compare_spec (month a) (month b)) as [Em | Lm | Lm].
    + rewrite <- Em. unfold ymd2ord.
      destruct (Z.compare_spec (day a) (day b)); 
        [apply Z.compare_eq_iff | apply Z.compare_lt_iff | apply Z.compare_gt_iff]; lia.
    + apply Z.compare_lt_iff. unfold ymd2ord.
      pose proof (days_before_month_mono (year a) (month a) (month b)). lia.
    + apply Z.compare_gt_iff. unfold ymd2ord.
      pose proof (days_before_month_mono (year a) (month b) (month a)). lia.
  - apply Z.compare_lt_iff.
    pose proof (ymd2ord_upper (year a) (month a) (day a) Hma ltac:(lia)).
    pose proof (ymd2ord_lower (year b) (month b) (day b) Hmb ltac:(lia)).
    pose proof (days_before_year_le (year a + 1) (year b)). lia.
  - apply Z.compare_gt_iff.
    pose proof (ymd2ord_upper (year b) (month b) (day b) Hmb ltac:(lia)).
    pose proof (ymd2ord_lower (year a) (month a) (day a) Hma ltac:(lia)).
    pose proof (days_before_year_le (year b + 1) (year a)). lia.
Qed.

Lemma cmp_eq (a b : datetime) : cmp a b = Eq -> a = b.
Proof.
  unfold cmp. destruct a as [ya ma da], b as [yb mb db]. cbn.
  destruct (Z.compare_spec ya yb); try discriminate.
  destruct (Z.compare_spec ma mb); try discriminate.
  destruct (Z.compare_spec da db); try discriminate.
  intros _. congruence.
Qed.

Lemma toordinal_inj (a b : datetime) :
  valid a -> valid b -> toordinal a = toordinal b -> a = b.
Proof.
  intros Ha Hb E. apply cmp_eq. rewrite cmp_toordinal by assumption.
  apply Z.compare_eq_iff. assumption.
Qed.

Lemma fromordinal_toordinal (dt : datetime) :
  valid dt -> fromordinal (toordinal dt) = dt.
Proof.
  intros H. pose proof (toordinal_range dt H).
  apply toordinal_inj; [apply fromordinal_valid; assumption | assumption |].
  apply toordinal_fromordinal. lia.
Qed.

Lemma ltb_toordinal (a b : datetime) :
  valid a -> valid b -> ltb a b = (toordinal a <? toordinal b).
Proof.
  intros Ha Hb. unfold ltb, Z.ltb. rewrite cmp_toordinal by assumption.
  reflexivity.
Qed.

Lemma leb_toordinal (a b : datetime) :
  valid a -> valid b -> leb a b = (toordinal a <=? toordinal b).
Proof.
  intros Ha Hb. unfold leb, Z.leb. rewrite cmp_toordinal by assumption.
  reflexivity.
Qed.

Lemma add_days_ok (dt : datetime) (k : Z) :
  valid dt -> 1 <= toordinal dt + k <= MAXORDINAL ->
  exists dt', add_days dt k = Ok dt' /\ valid dt' /\
              toordinal dt' = toordinal dt + k.
Proof.
  intros Hv Hr. unfold add_days.
  replace (0 <? toordinal dt + k) with true by (symmetry; apply Z.ltb_lt; lia).
  replace (toordinal dt + k <=? MAXORDINAL) with true
    by (symmetry; apply Z.leb_le; lia).
  cbn. eexists. split; [reflexivity|]. split.
  - apply fromordinal_valid. assumption.
  - apply toordinal_fromordinal. lia.
Qed.

Lemma add_days_inv (dt dt' : datetime) (k : Z) :
  add_days dt k = Ok dt' ->
  1 <= toordinal dt + k <= MAXORDINAL /\ valid dt' /\
  toordinal dt' = toordinal dt + k.
Proof.
  unfold add_days.
  destruct (Z.ltb_spec 0 (toordinal dt + k)); [|discriminate].
  destruct (Z.leb_spec (toordinal dt + k) MAXORDINAL); [|discriminate].
  cbn. intros [= <-]. split; [lia|]. split.
  - apply fromordinal_valid. lia.
  - apply toordinal_fromordinal. lia.
Qed.

Lemma new_ok (y m d : Z) :
  new y m d = Ok (mkdt y m d) <-> valid (mkdt y m d).
Proof.
  unfold new, check_date_fields, valid. cbn.
  destruct (Z.leb_spec MINYEAR y), (Z.leb_spec y MAXYEAR),
    (Z.leb_spec 1 m), (Z.leb_spec m 12), (Z.leb_spec 1 d),
    (Z.leb_spec d (days_in_month y m)); cbn;
    split; intros; try discriminate; try reflexivity; lia.
Qed.

Lemma new_inv (y m d : Z) (dt : datetime) :
  new y m d = Ok dt -> dt = mkdt y m d /\ valid dt.
Proof.
  intros H. assert (dt = mkdt y m d) as ->.
  { unfold new in H. destruct (check_date_fields y m d); congruence. }
  split; [reflexivity|]. apply new_ok. assumption.
Qed.

(* ================================================================== *)
(** * Backing up to the last Monday *)

Lemma weekday_range (dt : datetime) : 0 <= weekday dt < 7.
Proof. unfold weekday. apply Z.mod_pos_bound. lia. Qed.

Lemma monday_ordinal_range (dt : datetime) :
  valid dt -> 1 <= monday_ordinal dt <= toordinal dt.
Proof.
  intros H. pose proof (toordinal_range dt H).
  unfold monday_ordinal, weekday. Z.div_mod_to_equations. lia.
Qed.

Lemma back_up_loop_spec (fuel : nat) :
  forall date : datetime,
    valid date -> (Z.to_nat (weekday date) <= fuel)%nat ->
    exists a, back_up_loop fuel date = Ok a /\ valid a /\
              toordinal a = monday_ordinal date.
Proof.
  induction fuel as [|fuel IH]; intros date Hv Hf;
    pose proof (weekday_range date) as Hw; cbn [back_up_loop].
  - assert (weekday date = 0) as E by lia. rewrite E. cbn.
    exists date. unfold monday_ordinal. repeat split; try apply Hv; lia.
  - destruct (Z.eqb_spec (weekday date) 0) as [E | NE].
    + exists date. unfold monday_ordinal. repeat split; try apply Hv; lia.
    + pose proof (toordinal_range date Hv) as Hr.
      assert (2 <= toordinal date) as H2.
      { unfold weekday in NE. Z.div_mod_to_equations. lia. }
      destruct (add_days_ok date (-1) Hv ltac:(lia)) as (d' & Ed & Vd & Od).
      rewrite Ed.
      assert (weekday d' = weekday date - 1) as Wd.
      { unfold weekday in *. rewrite Od. Z.div_mod_to_equations. lia. }
      destruct (IH d' Vd ltac:(lia)) as (a & Ea & Va & Oa).
      exists a. repeat split; try apply Va; try assumption.
      rewrite Oa. unfold monday_ordinal. lia.
Qed.

Lemma back_up_to_monday_spec (start_date : datetime) :
  valid start_date ->
  exists a, back_up_to_monday start_date = Ok a /\ valid a /\
            toordinal a = monday_ordinal start_date.
Proof.
  intros Hv. apply back_up_loop_spec; [assumption|].
  pose proof (monday_ordinal_range _ Hv). pose proof (weekday_range start_date).
  unfold monday_ordinal in *. lia.
Qed.

Lemma back_up_fuel_irrelevant (fuel : nat) (date : datetime) :
  valid date -> (Z.to_nat (weekday date) <= fuel)%nat ->
  back_up_loop fuel date = back_up_to_monday date.
Proof.
  intros Hv Hf.
  destruct (back_up_loop_spec fuel date Hv Hf) as (a & Ea & Va & Oa).
  destruct (back_up_to_monday_spec date Hv) as (a' & Ea' & Va' & Oa').
  rewrite Ea, Ea'. f_equal. apply toordinal_inj; congruence.
Qed.

Lemma weekday_monday_ordinal (a dt : datetime) :
  toordinal a = monday_ordinal dt -> weekday a = 0.
Proof.
  unfold monday_ordinal, weekday. intros ->. Z.div_mod_to_equations. lia.
Qed.


(* ================================================================== *)
(** * Parsing dates *)

Import Strptime.

Lemma match_items_lit (c : ascii) (its : list item) (s : string) :
  match_items (ILit c :: its) (String c s) = match_items its s.
Proof. cbn. rewrite Ascii.eqb_refl. reflexivity. Qed.

Lemma match_items_lit_ne (c c' : ascii) (its : list item) (s : string) :
  Ascii.eqb c c' = false -> match_items (ILit c :: its) (String c' s) = None.
Proof. intros H. cbn. rewrite H. reflexivity. Qed.

Lemma match_items_alt_hit (name : ascii) (a : alt) (alts : list alt)
      (its : list item) (s txt rest r : string) (caps : list (ascii * string)) :
  match_alt a s = Some (txt, rest) ->
  match_items its rest = Some (caps, r) ->
  match_items (IGroup name (a :: alts) :: its) s = Some ((name, txt) :: caps, r).
Proof. intros H1 H2. cbn. rewrite H1, H2. reflexivity. Qed.

Lemma match_items_alt_miss (name : ascii) (a : alt) (alts : list alt)
      (its : list item) (s : string) :
  match_alt a s = None ->
  match_items (IGroup name (a :: alts) :: its) s
  = match_items (IGroup name alts :: its) s.
Proof. intros H. cbn. rewrite H. reflexivity. Qed.

Lemma match_items_alt_back (name : ascii) (a : alt) (alts : list alt)
      (its : list item) (s txt rest : string) :
  match_alt a s = Some (txt, rest) ->
  match_items its rest = None ->
  match_items (IGroup name (a :: alts) :: its) s
  = match_items (IGroup name alts :: its) s.
Proof. intros H1 H2. cbn. rewrite H1, H2. reflexivity. Qed.

Lemma match_items_no_alt (name : ascii) (its : list item) (s : string) :
  match_items (IGroup name [] :: its) s = None.
Proof. reflexivity. Qed.

Lemma isdigit_digit_char (n : Z) :
  0 <= n <= 9 -> PyStr.isdigit (digit_char n) = true /\
                 PyStr.digit_value (digit_char n) = n /\
                 PyStr.isspace (digit_char n) = false.
Proof. intros H. small_cases n 0 9; vm_compute; auto. Qed.

Lemma int_pad2 (n : Z) : 0 <= n <= 99 -> PyStr.int (pad2 n) = Ok n.
Proof.
  intros H. unfold pad2, PyStr.int, PyStr.strip.
  destruct (isdigit_digit_char (n / 10)) as (D1 & V1 & S1);
    [Z.div_mod_to_equations; lia|].
  destruct (isdigit_digit_char (n mod 10)) as (D0 & V0 & S0);
    [Z.div_mod_to_equations; lia|].
  cbn [PyStr.lstrip PyStr.rstrip]. rewrite S1. cbn [PyStr.rstrip]. rewrite S0.
  cbn [PyStr.int_digits]. rewrite D1, D0, V1, V0. f_equal.
  Z.div_mod_to_equations; lia.
Qed.

Lemma int_pad4 (n : Z) : 0 <= n <= 9999 -> PyStr.int (pad4 n) = Ok n.
Proof.
  intros H. unfold pad4, PyStr.int, PyStr.strip.
  destruct (isdigit_digit_char (n / 1000)) as (D3 & V3 & S3);
    [Z.div_mod_to_equations; lia|].
  destruct (isdigit_digit_char (n / 100 mod 10)) as (D2 & V2 & S2);
    [Z.div_mod_to_equations; lia|].
  destruct (isdigit_digit_char (n / 10 mod 10)) as (D1 & V1 & S1);
    [Z.div_mod_to_equations; lia|].
  destruct (isdigit_digit_char (n mod 10)) as (D0 & V0 & S0);
    [Z.div_mod_to_equations; lia|].
  cbn [PyStr.lstrip PyStr.rstrip]. rewrite S3. cbn [PyStr.rstrip].
  rewrite S0. cbn [PyStr.int_digits]. rewrite D3, D2, D1, D0, V3, V2, V1, V0.
  f_equal. Z.div_mod_to_equations; lia.
Qed.

Lemma match_year (y : Z) :
  0 <= y <= 9999 ->
  match_items [re_Y] (pad4 y) = Some ([("Y"%char, pad4 y)], EmptyString).
Proof.
  intros H. unfold pad4, re_Y.
  destruct (isdigit_digit_char (y / 1000)) as (D3 & _);
    [Z.div_mod_to_equations; lia|].
  destruct (isdigit_digit_char (y / 100 mod 10)) as (D2 & _);
    [Z.div_mod_to_equations; lia|].
  destruct (isdigit_digit_char (y / 10 mod 10)) as (D1 & _);
    [Z.div_mod_to_equations; lia|].
  destruct (isdigit_digit_char (y mod 10)) as (D0 & _);
    [Z.div_mod_to_equations; lia|].
  cbn [match_items match_alt cclass_matches]. rewrite D3, D2, D1, D0.
  reflexivity.
Qed.

(** one step of the search through the alternatives of a group *)
Ltac regex_step :=
  first
    [ rewrite match_items_no_alt
    | rewrite match_items_alt_miss by reflexivity
    | erewrite match_items_alt_back
        by (reflexivity || (apply match_items_lit_ne; reflexivity))
    | erewrite match_items_alt_hit;
      [reflexivity | reflexivity | rewrite match_items_lit; eassumption] ].

Lemma match_month (sep : ascii) (tail : list item) (rest r : string)
      (caps : list (ascii * string)) (m : Z) :
  1 <= m <= 12 -> sep = "/"%char \/ sep = "-"%char ->
  match_items tail rest = Some (caps, r) ->
  match_items (re_m :: ILit sep :: tail) (pad2 m ++ String sep rest)
  = Some (("m"%char, pad2 m) :: caps, r).
Proof.
  intros Hm Hs Ht. unfold re_m.
  small_cases m 1 12;
    destruct Hs as [-> | ->];
    match goal with
    | |- context [pad2 ?k] =>
        let v := eval vm_compute in (pad2 k) in change (pad2 k) with v
    end; cbn [String.append]; repeat regex_step.
Qed.

Lemma match_day (sep : ascii) (tail : list item) (rest r : string)
      (caps : list (ascii * string)) (d : Z) :
  1 <= d <= 31 -> sep = "/"%char \/ sep = "-"%char ->
  match_items tail rest = Some (caps, r) ->
  match_items (re_d :: ILit sep :: tail) (pad2 d ++ String sep rest)
  = Some (("d"%char, pad2 d) :: caps, r).
Proof.
  intros Hd Hs Ht. unfold re_d.
  small_cases d 1 31;
    destruct Hs as [-> | ->];
    match goal with
    | |- context [pad2 ?k] =>
        let v := eval vm_compute in (pad2 k) in change (pad2 k) with v
    end; cbn [String.append]; repeat regex_step.
Qed.

(** the slash pattern does not match a date written with dashes *)
Lemma match_day_slash_dash (tail : list item) (rest : string) (d : Z) :
  1 <= d <= 31 ->
  match_items (re_d :: ILit "/" :: tail) (pad2 d ++ String "-" rest) = None.
Proof.
  intros Hd. unfold re_d.
  small_cases d 1 31;
    match goal with
    | |- context [pad2 ?k] =>
        let v := eval vm_compute in (pad2 k) in change (pad2 k) with v
    end; cbn [String.append]; repeat regex_step; reflexivity.
Qed.

Lemma days_in_month_le_31 (y m : Z) : 1 <= m <= 12 -> days_in_month y m <= 31.
Proof.
  intros H. unfold days_in_month.
  small_cases m 1 12; destruct (is_leap y); vm_compute; discriminate.
Qed.

Lemma strptime_format (sep : ascii) (fmt : string) (dt : datetime) :
  valid dt ->
  sep = "/"%char /\ fmt = "%d/%m/%Y" \/ sep = "-"%char /\ fmt = "%d-%m-%Y" ->
  strptime (format_date sep dt) fmt = Ok dt.
Proof.
  intros Hv Hs. pose proof Hv as (Hy & Hm & Hd).
  pose proof (days_in_month_le_31 (year dt) _ Hm) as H31.
  unfold MINYEAR, MAXYEAR in *.
  assert (match_items [re_d; ILit sep; re_m; ILit sep; re_Y]
                      (format_date sep dt)
          = Some ([("d"%char, pad2 (day dt)); ("m"%char, pad2 (month dt));
                   ("Y"%char, pad4 (year dt))], EmptyString)) as M.
  { unfold format_date.
    apply match_day; [lia | destruct Hs as [[-> _] | [-> _]]; auto |].
    apply match_month; [lia | destruct Hs as [[-> _] | [-> _]]; auto |].
    apply match_year. lia. }
  unfold strptime.
  assert (pattern fmt = Ok [re_d; ILit sep; re_m; ILit sep; re_Y]) as P
      by (destruct Hs as [[-> ->] | [-> ->]]; reflexivity).
  rewrite P. cbn [rbind]. rewrite M.
  unfold group_int. cbn [group Ascii.eqb Bool.eqb andb].
  rewrite int_pad4, int_pad2, int_pad2 by lia. cbn [rbind].
  destruct dt as [y m d]. apply new_ok. assumption.
Qed.

Lemma strptime_slash_dash (dt : datetime) :
  valid dt ->
  exists x, strptime (format_date "-" dt) "%d/%m/%Y" = Raise x.
Proof.
  intros (Hy & Hm & Hd).
  pose proof (days_in_month_le_31 (year dt) _ Hm) as H31.
  unfold strptime.
  change (pattern "%d/%m/%Y") with (Ok [re_d; ILit "/"; re_m; ILit "/"; re_Y]).
  cbn [rbind]. unfold format_date.
  rewrite match_day_slash_dash by lia. eexists. reflexivity.
Qed.

Lemma strptime_valid (s fmt : string) (dt : datetime) :
  strptime s fmt = Ok dt -> valid dt.
Proof.
  unfold strptime. destruct (pattern fmt) as [|re]; [discriminate|].
  cbn [rbind]. destruct (match_items re s) as [[caps rest]|]; [|discriminate].
  destruct rest; [|discriminate].
  destruct (group_int "Y" 1900 caps); [discriminate|]. cbn [rbind].
  destruct (group_int "m" 1 caps); [discriminate|]. cbn [rbind].
  destruct (group_int "d" 1 caps); [discriminate|]. cbn [rbind].
  intros H. apply new_inv in H. tauto.
Qed.

Lemma parse_date_eq (date : string) :
  parse_date date =
  match strptime date "%d/%m/%Y" with
  | Ok ret => Ok ret
  | Raise _ =>
      match strptime date "%d-%m-%Y" with
      | Ok ret => Ok ret
      | Raise _ => Raise FORMAT_ERROR
      end
  end.
Proof. reflexivity. Qed.

Lemma parse_date_valid (s : string) (dt : datetime) :
  parse_date s = Ok dt -> valid dt.
Proof.
  rewrite parse_date_eq.
  destruct (strptime s "%d/%m/%Y") eqn:E1.
  - destruct (strptime s "%d-%m-%Y") eqn:E2; [discriminate|].
    intros [= <-]. eapply strptime_valid. eassumption.
  - intros [= <-]. eapply strptime_valid. eassumption.
Qed.


(* ================================================================== *)
(** * Classifying and drawing *)

Lemma with_page_nil (w : world) : with_page w [] = w.
Proof. destruct w. unfold with_page. cbn. rewrite app_nil_r. reflexivity. Qed.

Lemma with_page_app (w : world) (a b : list cairo_op) :
  with_page (with_page w a) b = with_page w (a ++ b).
Proof. unfold with_page. cbn. rewrite app_assoc. reflexivity. Qed.

Lemma bind_raise {A B} (m : M A) (k : A -> M B) (w w' : world) (e : exn) :
  m w = (Raise e, w') -> bind m k w = (Raise e, w').
Proof. intros H. unfold bind. rewrite H. reflexivity. Qed.

Lemma row_labels_app (a b : list cairo_op) :
  row_labels (a ++ b) = row_labels a ++ row_labels b.
Proof.
  induction a as [|op a IH]; [reflexivity|].
  destruct op as [|t| |]; cbn; try assumption.
  destruct t; cbn; try assumption. f_equal. assumption.
Qed.

Lemma squares_app (a b : list cairo_op) :
  squares (a ++ b) = squares a ++ squares b.
Proof.
  induction a as [|op a IH]; [reflexivity|].
  destruct op; cbn; try assumption. f_equal. assumption.
Qed.

Lemma row_labels_squares (fills : list colour) :
  row_labels (map DrawSquare fills) = [].
Proof. induction fills; cbn; auto. Qed.

Lemma squares_map (fills : list colour) :
  squares (map DrawSquare fills) = fills.
Proof. induction fills; cbn; congruence. Qed.

Lemma year_le_of_ordinal (dt : datetime) (y : Z) :
  valid dt -> toordinal dt <= days_before_year (y + 1) -> year dt <= y.
Proof.
  intros (Hy & Hm & Hd) H.
  pose proof (ymd2ord_lower (year dt) (month dt) (day dt) Hm ltac:(lia)) as L.
  fold (toordinal dt) in L.
  destruct (Z_le_gt_dec (year dt) y); [assumption|].
  pose proof (days_before_year_le (y + 1) (year dt) ltac:(lia)). lia.
Qed.

Lemma days_in_month_ge (y m : Z) : DAYS_IN_MONTH m <= days_in_month y m.
Proof.
  unfold days_in_month.
  destruct (Z.eqb_spec m 2) as [->|]; cbn [andb]; [|lia].
  destruct (is_leap y); [|lia]. vm_compute. discriminate.
Qed.

Lemma every_year_of_valid (dt : datetime) :
  valid dt -> leap_day dt = false -> every_year (month dt) (day dt).
Proof.
  intros (Hy & Hm & Hd) L. unfold every_year. split; [assumption|].
  split; [lia|]. unfold days_in_month, leap_day in *.
  destruct (Z.eqb_spec (month dt) 2) as [E|]; cbn [andb] in *; [|lia].
  destruct (is_leap (year dt)); [|lia].
  destruct (Z.eqb_spec (day dt) 29); [discriminate|].
  rewrite E. change (DAYS_IN_MONTH 2) with 28. lia.
Qed.

Lemma new_every_year (y m d : Z) :
  MINYEAR <= y <= MAXYEAR -> every_year m d ->
  new y m d = Ok (mkdt y m d).
Proof.
  intros Hy (Hm & Hd). apply new_ok. unfold valid. cbn.
  pose proof (days_in_month_ge y m). lia.
Qed.

Lemma is_current_week_ok (now : datetime) (m d : Z) :
  valid now -> toordinal now <= SAFE_ORDINAL -> every_year m d ->
  exists b, is_current_week now m d = Ok b.
Proof.
  intros Hv Hs He. pose proof (toordinal_range now Hv) as Hr.
  unfold SAFE_ORDINAL, MAXORDINAL in *.
  assert (year now <= 9998) as Hy.
  { apply year_le_of_ordinal; [assumption|].
    change (days_before_year (9998 + 1)) with 3651694. lia. }
  unfold is_current_week, add_weeks.
  destruct (add_days_ok now (7 * 1) Hv ltac:(unfold MAXORDINAL; lia))
    as (e & Ee & _).
  rewrite Ee. cbn [rbind].
  destruct Hv as (Hyr & _). unfold MINYEAR, MAXYEAR in *.
  rewrite (new_every_year (year now) m d) by (unfold MINYEAR, MAXYEAR; lia || assumption).
  rewrite (new_every_year (year now + 1) m d) by (unfold MINYEAR, MAXYEAR; lia || assumption).
  cbn [rbind]. eexists. reflexivity.
Qed.

Lemma every_year_jan1 : every_year 1 1.
Proof. unfold every_year. vm_compute. intuition discriminate. Qed.

Lemma emit_run (op : cairo_op) (w : world) :
  emit op w = (Ok tt, with_page w [op]).
Proof. reflexivity. Qed.

Lemma draw_headers_run (n : nat) :
  forall (i : Z) (w : world),
  exists ops, draw_headers n i w = (Ok tt, with_page w ops) /\
              row_labels ops = [] /\ squares ops = [].
Proof.
  induction n as [|n IH]; intros i w.
  - exists []. cbn. rewrite with_page_nil. repeat split; reflexivity.
  - cbn [draw_headers]. destruct (IH (i + 1) (with_page w [ShowText (Number (i + 1))]))
      as (ops & Eo & Lo & So).
    exists (ShowText (Number (i + 1)) :: ops). split; [|split].
    + unfold bind. rewrite emit_run, Eo, with_page_app. reflexivity.
    + cbn. assumption.
    + cbn. assumption.
Qed.

Lemma toordinal_year_bound (dt : datetime) (y : Z) :
  valid dt -> year dt <= y -> toordinal dt <= days_before_year (y + 1).
Proof.
  intros (Hy & Hm & Hd) H.
  pose proof (ymd2ord_upper (year dt) (month dt) (day dt) Hm ltac:(lia)) as U.
  fold (toordinal dt) in U.
  pose proof (days_before_year_le (year dt + 1) (y + 1) ltac:(lia)). lia.
Qed.

Lemma gen_calendar_title_too_long (e : env) (start_date : datetime)
      (title : string) (filename : option string) (years : Z)
      (fill_lived : bool) (w : world) :
  (MAX_TITLE_SIZE < String.length title)%nat ->
  gen_calendar e start_date title filename years fill_lived w
  = (Raise TITLE_ERROR, w).
Proof.
  intros H. unfold gen_calendar.
  replace (MAX_TITLE_SIZE <? String.length title)%nat with true
    by (symmetry; apply Nat.ltb_lt; assumption).
  reflexivity.
Qed.

Lemma raises_only_bind {A B} (P : exn -> Prop) (m : M A) (k : A -> M B) :
  raises_only P m -> (forall a, raises_only P (k a)) ->
  raises_only P (bind m k).
Proof.
  intros Hm Hk w x w' H. unfold bind in H.
  destruct (m w) as [[x0 | a] w1] eqn:E.
  - injection H as -> ->. eapply Hm. eassumption.
  - eapply Hk. eassumption.
Qed.

Lemma raises_only_lift {A} (P : exn -> Prop) (r : result A) :
  (forall x, r = Raise x -> P x) -> raises_only P (lift r).
Proof. intros H w x w' E. injection E as E _. auto. Qed.

Lemma raises_only_emit (P : exn -> Prop) (op : cairo_op) :
  raises_only P (emit op).
Proof. intros w x w' E. discriminate. Qed.

Lemma raises_only_ret {A} (P : exn -> Prop) (a : A) : raises_only P (ret a).
Proof. intros w x w' E. discriminate. Qed.

Lemma add_days_raises (dt : datetime) (k : Z) (x : exn) :
  add_days dt k = Raise x -> date_error x.
Proof.
  unfold add_days. destruct (_ && _); [discriminate|].
  intros [= <-]. left. reflexivity.
Qed.

Lemma new_raises (y m d : Z) (x : exn) :
  PyDatetime.new y m d = Raise x -> date_error x.
Proof.
  unfold PyDatetime.new, check_date_fields, date_error.
  repeat (destruct (negb _); [intros [= <-]; tauto|]). discriminate.
Qed.

Lemma is_current_week_raises (now : datetime) (m d : Z) (x : exn) :
  is_current_week now m d = Raise x -> date_error x.
Proof.
  unfold is_current_week, add_weeks.
  destruct (add_days now (7 * 1)) eqn:E1; cbn [rbind];
    [intros [= <-]; eapply add_days_raises; eassumption|].
  destruct (PyDatetime.new (year now) m d) eqn:E2; cbn [rbind];
    [intros [= <-]; eapply new_raises; eassumption|].
  destruct (PyDatetime.new (year now + 1) m d) eqn:E3; cbn [rbind];
    [intros [= <-]; eapply new_raises; eassumption|].
  discriminate.
Qed.

Lemma cell_fill_raises (e : env) (sd d : datetime) (fl : bool) (x : exn) :
  cell_fill e sd d fl = Raise x -> date_error x.
Proof.
  unfold cell_fill, is_week_in_past.
  assert (forall r : result bool,
             (r = (if fl then (let? last_monday :=
                                 add_days (today e) (- weekday (today e)) in
                               Ok (ltb d last_monday))%result
                   else Ok false)) ->
             forall y, r = Raise y -> date_error y) as Hl.
  { intros r -> y. destruct fl; [|discriminate].
    destruct (add_days _ _) eqn:E; cbn [rbind]; [|discriminate].
    intros [= <-]. eapply add_days_raises. eassumption. }
  specialize (Hl _ eq_refl). cbv zeta.
  destruct (if fl then _ else _) as [y | lived]; cbn [rbind];
    [intros [= <-]; apply Hl; reflexivity|].
  destruct lived; [discriminate|].
  destruct (is_current_week d _ _) as [y | b] eqn:E1; cbn [rbind];
    [intros [= <-]; eapply is_current_week_raises; eassumption|].
  destruct b; [discriminate|].
  destruct (is_current_week d 1 1) as [y | b] eqn:E2; cbn [rbind];
    [intros [= <-]; eapply is_current_week_raises; eassumption|].
  destruct b; discriminate.
Qed.

Lemma draw_row_loop_raises (e : env) (sd : datetime) (fl : bool) (n : nat) :
  forall d, raises_only date_error (draw_row_loop e n sd d fl).
Proof.
  induction n as [|n IH]; intros d; cbn [draw_row_loop].
  - apply raises_only_ret.
  - apply raises_only_bind;
      [apply raises_only_lift; apply cell_fill_raises|intros c].
    apply raises_only_bind; [apply raises_only_emit|intros _].
    apply raises_only_bind;
      [apply raises_only_lift; apply add_days_raises|intros d'].
    apply IH.
Qed.

Lemma draw_grid_loop_raises (e : env) (sd : datetime) (fl : bool) (n : nat) :
  forall d, raises_only date_error (draw_grid_loop e n sd d fl).
Proof.
  induction n as [|n IH]; intros d; cbn [draw_grid_loop].
  - apply raises_only_ret.
  - apply raises_only_bind; [apply raises_only_emit|intros _].
    apply raises_only_bind; [apply draw_row_loop_raises|intros _].
    apply raises_only_bind;
      [apply raises_only_lift; apply add_days_raises|intros d'].
    apply IH.
Qed.

Lemma draw_headers_raises (n : nat) :
  forall i, raises_only date_error (draw_headers n i).
Proof.
  induction n as [|n IH]; intros i; cbn [draw_headers].
  - apply raises_only_ret.
  - apply raises_only_bind; [apply raises_only_emit|intros _]. apply IH.
Qed.

Lemma draw_grid_raises (e : env) (d : datetime) (years : Z) (fl : bool) :
  raises_only date_error (draw_grid e d years fl).
Proof.
  unfold draw_grid, draw_key_item, draw_square.
  do 3 (apply raises_only_bind;
          [apply raises_only_bind; [apply raises_only_emit|intros _];
           apply raises_only_emit|intros _]).
  apply raises_only_bind; [apply draw_headers_raises|intros _].
  apply draw_grid_loop_raises.
Qed.

Lemma back_up_loop_raises (fuel : nat) :
  forall d x, back_up_loop fuel d = Raise x -> date_error x.
Proof.
  induction fuel as [|fuel IH]; intros d x; cbn [back_up_loop];
    destruct (weekday d =? 0); try discriminate.
  - intros [= <-]. left. reflexivity.
  - destruct (add_days d (-1)) eqn:E.
    + intros [= <-]. eapply add_days_raises. eassumption.
    + apply IH.
Qed.

Lemma title_error_not_date_error : ~ date_error TITLE_ERROR.
Proof. unfold date_error, TITLE_ERROR. intros [H|[H|[H|H]]]; discriminate. Qed.

Lemma gen_calendar_raises (e : env) (start_date : datetime) (title : string)
      (filename : option string) (years : Z) (fill_lived : bool) :
  raises_only (fun x => x = TITLE_ERROR /\
                        (MAX_TITLE_SIZE < String.length title)%nat
                        \/ date_error x /\
                           (String.length title <= MAX_TITLE_SIZE)%nat)
              (gen_calendar e start_date title filename years fill_lived).
Proof.
  unfold gen_calendar.
  destruct (Nat.ltb_spec MAX_TITLE_SIZE (String.length title)) as [L | L].
  - intros w x w' [= <- _]. left. auto.
  - assert (raises_only date_error
      (new_surface;;
       emit FillBackground;;
       emit (ShowText (Str title));;
       date <- lift (back_up_to_monday start_date);;
       draw_grid e date years fill_lived;;
       emit ShowPage;; bytes <- getvalue;; write_stdout (PdfBytes bytes)))
      as H.
    { apply raises_only_bind; [intros w x w' E; discriminate|intros _].
      apply raises_only_bind; [apply raises_only_emit|intros _].
      apply raises_only_bind; [apply raises_only_emit|intros _].
      apply raises_only_bind;
        [apply raises_only_lift; apply back_up_loop_raises|intros a].
      apply raises_only_bind; [apply draw_grid_raises|intros _].
      apply raises_only_bind; [apply raises_only_emit|intros _].
      apply raises_only_bind; intros w x w' E; discriminate. }
    intros w x w' E. right. split; [|assumption]. eapply H. eassumption.
Qed.

Lemma is_leap_succ (y : Z) : is_leap y = true -> is_leap (y + 1) = false.
Proof.
  unfold is_leap. intros H. apply andb_true_iff in H. destruct H as [H _].
  apply Z.eqb_eq in H.
  destruct (Z.eqb_spec ((y + 1) mod 4) 0) as [E|]; [|reflexivity].
  exfalso. Z.div_mod_to_equations. lia.
Qed.

Lemma new_leap_day (y : Z) :
  is_leap y = false -> exists x, PyDatetime.new y 2 29 = Raise x.
Proof.
  intros H. unfold PyDatetime.new, check_date_fields, days_in_month.
  rewrite H. cbn [Z.eqb Pos.eqb andb].
  change (DAYS_IN_MONTH 2) with 28.
  destruct (negb _); [eexists; reflexivity|].
  cbn. eexists; reflexivity.
Qed.

Lemma is_current_week_leap_day (now : datetime) :
  exists x, is_current_week now 2 29 = Raise x.
Proof.
  unfold is_current_week.
  destruct (add_weeks now 1); cbn [rbind]; [eexists; reflexivity|].
  destruct (is_leap (year now)) eqn:L.
  - destruct (new_leap_day (year now + 1) (is_leap_succ _ L)) as (x & E).
    destruct (PyDatetime.new (year now) 2 29); cbn [rbind];
      [eexists; reflexivity|].
    rewrite E. eexists; reflexivity.
  - destruct (new_leap_day (year now) L) as (x & E). rewrite E.
    eexists; reflexivity.
Qed.

Lemma is_current_week_inv (now : datetime) (m d : Z) (b : bool) :
  valid now -> is_current_week now m d = Ok b ->
  b = span_contains now (year now) m d
      || span_contains now (year now + 1) m d.
Proof.
  intros Hv. unfold is_current_week, add_weeks, span_contains.
  destruct (add_days now (7 * 1)) as [|end_] eqn:E0; [discriminate|].
  apply add_days_inv in E0. destruct E0 as (_ & Ve & Oe). cbn [rbind].
  destruct (PyDatetime.new (year now) m d) as [|date1] eqn:E1; [discriminate|].
  apply new_inv in E1. destruct E1 as (-> & V1). cbn [rbind].
  destruct (PyDatetime.new (year now + 1) m d) as [|date2] eqn:E2;
    [discriminate|].
  apply new_inv in E2. destruct E2 as (-> & V2). cbn [rbind is_ok andb].
  intros [= <-].
  rewrite !leb_toordinal, !ltb_toordinal by assumption. rewrite Oe.
  reflexivity.
Qed.

Lemma page_extends_bind {A B} (m : M A) (k : A -> M B) :
  page_extends m -> (forall a, page_extends (k a)) ->
  page_extends (bind m k).
Proof.
  intros Hm Hk w. unfold bind. destruct (Hm w) as (ops & E).
  destruct (m w) as [[x | a] w1]; cbn [snd] in *; [eauto|].
  destruct (Hk a w1) as (ops' & E'). exists (ops ++ ops').
  rewrite E', E, app_assoc. reflexivity.
Qed.

Lemma page_extends_same {A} (m : M A) :
  (forall w, page (snd (m w)) = page w) -> page_extends m.
Proof. intros H w. exists []. rewrite H, app_nil_r. reflexivity. Qed.

Lemma page_extends_emit (op : cairo_op) : page_extends (emit op).
Proof. intros w. exists [op]. reflexivity. Qed.

Lemma page_extends_draw_row_loop (e : env) (sd : datetime) (fl : bool)
      (n : nat) : forall d, page_extends (draw_row_loop e n sd d fl).
Proof.
  induction n as [|n IH]; intros d; cbn [draw_row_loop];
    [apply page_extends_same; reflexivity|].
  apply page_extends_bind; [apply page_extends_same; reflexivity|intros c].
  apply page_extends_bind; [apply page_extends_emit|intros _].
  apply page_extends_bind; [apply page_extends_same; reflexivity|intros d'].
  apply IH.
Qed.

Lemma page_extends_draw_grid_loop (e : env) (sd : datetime) (fl : bool)
      (n : nat) : forall d, page_extends (draw_grid_loop e n sd d fl).
Proof.
  induction n as [|n IH]; intros d; cbn [draw_grid_loop];
    [apply page_extends_same; reflexivity|].
  apply page_extends_bind; [apply page_extends_emit|intros _].
  apply page_extends_bind; [apply page_extends_draw_row_loop|intros _].
  apply page_extends_bind; [apply page_extends_same; reflexivity|intros d'].
  apply IH.
Qed.

(** Whatever the options and however the run ends, the first row label
    drawn is the date handed to [draw_grid]. *)
Lemma draw_grid_first_label (e : env) (date : datetime) (years : Z)
      (fill_lived : bool) (w : world) (k : M unit) :
  1 <= years -> row_labels (page w) = [] -> page_extends k ->
  hd_error (row_labels
              (page (snd (bind (draw_grid e date years fill_lived)
                               (fun _ => k) w))))
  = Some date.
Proof.
  intros Hy Hw Hk. unfold draw_grid, draw_key_item, draw_square.
  set (w1 := with_page w
               [DrawSquare BIRTHDAY_COLOUR;
                ShowText (Translated "Week of your birthday");
                DrawSquare NEWYEAR_COLOUR;
                ShowText (Translated "First week of the new year");
                DrawSquare LIVED_COLOUR;
                ShowText (Translated "Weeks lived")]).
  destruct (draw_headers_run NUM_COLUMNS 0 w1) as (hs & Eh & Lh & _).
  destruct (Z.to_nat years) as [|n] eqn:En; [lia|].
  cbn [draw_grid_loop].
  assert (page_extends
            (bind (bind (draw_row e date date fill_lived)
                     (fun _ => bind (lift (add_weeks date 52))
                        (fun date' => draw_grid_loop e n date date' fill_lived)))
                  (fun _ => k))) as Hrest.
  { apply page_extends_bind; [|intros _; assumption].
    apply page_extends_bind; [apply page_extends_draw_row_loop|intros _].
    apply page_extends_bind; [apply page_extends_same; reflexivity|intros d'].
    apply page_extends_draw_grid_loop. }
  destruct (Hrest (with_page (with_page w1 hs) [ShowText (DateLabel date)]))
    as (ops & Eo).
  unfold bind in *. repeat rewrite emit_run. repeat rewrite with_page_app.
  cbn [app]. fold w1. rewrite Eh. rewrite emit_run.
  match goal with
  | |- hd_error (row_labels (page (snd ?t))) = _ =>
      match type of Eo with
      | page (snd ?u) = _ => replace t with u
      end
  end.
  - rewrite Eo. unfold w1, with_page. cbn [page].
    rewrite !row_labels_app, Hw, Lh. reflexivity.
  - destruct (draw_row e date date fill_lived _) as [[x|[]] w2];
      [reflexivity|].
    destruct (add_weeks date 52); [reflexivity|].
    destruct (draw_grid_loop e n date a fill_lived w2) as [[x|[]] w3];
      reflexivity.
Qed.

Lemma gen_calendar_first_label (e : env) (start_date : datetime)
      (title : string) (filename : option string) (years : Z)
      (fill_lived : bool) (w : world) :
  valid start_date -> (String.length title <= MAX_TITLE_SIZE)%nat ->
  1 <= years ->
  exists a,
    back_up_to_monday start_date = Ok a /\
    hd_error (row_labels (page (snd (gen_calendar e start_date title filename
                                       years fill_lived w))))
    = Some a.
Proof.
  intros Hv Hlen Hy.
  destruct (back_up_to_monday_spec start_date Hv) as (a & Ea & _).
  exists a. split; [assumption|]. unfold gen_calendar.
  replace (MAX_TITLE_SIZE <? String.length title)%nat with false
    by (symmetry; apply Nat.ltb_ge; assumption).
  unfold bind at 1 2 3 4. unfold lift, new_surface, emit.
  cbn [page stdout files lc_time app]. rewrite Ea.
  apply draw_grid_first_label; [assumption | reflexivity |].
  apply page_extends_bind; [apply page_extends_emit|intros _].
  apply page_extends_bind; [apply page_extends_same; reflexivity|intros bytes].
  apply page_extends_same; reflexivity.
Qed.

Lemma draw_grid_run (e : env) (date : datetime) (years : Z)
      (fill_lived : bool) (w : world) :
  exists hs,
    row_labels hs = [] /\ squares hs = [] /\
    draw_grid e date years fill_lived w
    = draw_grid_loop e (Z.to_nat years) date date fill_lived
                     (with_page w (KEY_OPS ++ hs)).
Proof.
  destruct (draw_headers_run NUM_COLUMNS 0 (with_page w KEY_OPS))
    as (hs & Eh & Lh & Sh).
  exists hs. split; [assumption|]. split; [assumption|].
  unfold KEY_OPS in *.
  unfold draw_grid, draw_key_item, draw_square, bind.
  repeat rewrite emit_run. repeat rewrite with_page_app. cbn [app].
  rewrite Eh, with_page_app. reflexivity.
Qed.

Lemma gen_calendar_run (e : env) (start_date a : datetime)
      (title : string) (filename : option string) (years : Z)
      (fill_lived : bool) (w : world) :
  (String.length title <= MAX_TITLE_SIZE)%nat ->
  back_up_to_monday start_date = Ok a ->
  gen_calendar e start_date title filename years fill_lived w
  = bind (draw_grid e a years fill_lived)
         (fun _ => bind (emit ShowPage)
            (fun _ => bind getvalue
               (fun bytes => write_stdout (PdfBytes bytes))))
         (mkWorld [FillBackground; ShowText (Str title)]
                  (stdout w) (files w) (lc_time w)).
Proof.
  intros Hlen Ea. unfold gen_calendar.
  replace (MAX_TITLE_SIZE <? String.length title)%nat with false
    by (symmetry; apply Nat.ltb_ge; assumption).
  unfold bind at 1 2 3 4. unfold lift, new_surface, emit.
  cbn [page stdout files lc_time app]. rewrite Ea. reflexivity.
Qed.

Lemma preserves_bind {A B T} (f : world -> T) (m : M A) (k : A -> M B) :
  preserves f m -> (forall a, preserves f (k a)) -> preserves f (bind m k).
Proof.
  intros Hm Hk w. unfold bind. specialize (Hm w).
  destruct (m w) as [[x | a] w1]; cbn [snd] in *; [assumption|].
  rewrite Hk. assumption.
Qed.

Lemma preserves_try {A T} (f : world -> T) (m : M A) (h : exn -> M A) :
  preserves f m -> (forall x, preserves f (h x)) ->
  preserves f (try_except m h).
Proof.
  intros Hm Hh w. unfold try_except. specialize (Hm w).
  destruct (m w) as [[x | a] w1]; cbn [snd] in *; [|assumption].
  rewrite Hh. assumption.
Qed.

Lemma preserves_emit {T} (f : world -> T) (op : cairo_op) :
  drawing_frame f -> preserves f (emit op).
Proof. intros H [pg out fs lc]. apply H. Qed.

Lemma preserves_lift {A T} (f : world -> T) (r : result A) :
  preserves f (lift r).
Proof. intros w. reflexivity. Qed.

Lemma preserves_ret {A T} (f : world -> T) (a : A) : preserves f (ret a).
Proof. intros w. reflexivity. Qed.

Lemma preserves_draw_row_loop {T} (f : world -> T) (e : env) (sd : datetime)
      (fl : bool) (n : nat) :
  drawing_frame f -> forall d, preserves f (draw_row_loop e n sd d fl).
Proof.
  intros Hf. induction n as [|n IH]; intros d; cbn [draw_row_loop];
    [apply preserves_ret|].
  apply preserves_bind; [apply preserves_lift|intros c].
  apply preserves_bind; [apply preserves_emit; assumption|intros _].
  apply preserves_bind; [apply preserves_lift|intros d']. apply IH.
Qed.

Lemma preserves_draw_grid_loop {T} (f : world -> T) (e : env) (sd : datetime)
      (fl : bool) (n : nat) :
  drawing_frame f -> forall d, preserves f (draw_grid_loop e n sd d fl).
Proof.
  intros Hf. induction n as [|n IH]; intros d; cbn [draw_grid_loop];
    [apply preserves_ret|].
  apply preserves_bind; [apply preserves_emit; assumption|intros _].
  apply preserves_bind; [apply preserves_draw_row_loop; assumption|intros _].
  apply preserves_bind; [apply preserves_lift|intros d']. apply IH.
Qed.

Lemma preserves_draw_headers {T} (f : world -> T) (n : nat) :
  drawing_frame f -> forall i, preserves f (draw_headers n i).
Proof.
  intros Hf. induction n as [|n IH]; intros i; cbn [draw_headers];
    [apply preserves_ret|].
  apply preserves_bind; [apply preserves_emit; assumption|intros _].
  apply IH.
Qed.

Lemma preserves_draw_grid {T} (f : world -> T) (e : env) (d : datetime)
      (years : Z) (fl : bool) :
  drawing_frame f -> preserves f (draw_grid e d years fl).
Proof.
  intros Hf. unfold draw_grid, draw_key_item, draw_square.
  do 3 (apply preserves_bind;
        [apply preserves_bind; [apply preserves_emit; assumption|intros _];
         apply preserves_emit; assumption|intros _]).
  apply preserves_bind; [apply preserves_draw_headers; assumption|intros _].
  apply preserves_draw_grid_loop. assumption.
Qed.

Lemma drawing_frame_files : drawing_frame files.
Proof. intros pg out fs lc pg'. reflexivity. Qed.

Lemma drawing_frame_stdout : drawing_frame stdout.
Proof. intros pg out fs lc pg'. reflexivity. Qed.

Lemma preserves_files_gen_calendar (e : env) (sd : datetime) (title : string)
      (fn : option string) (years : Z) (fl : bool) :
  preserves files (gen_calendar e sd title fn years fl).
Proof.
  unfold gen_calendar. destruct (_ <? _)%nat; [intros w; reflexivity|].
  apply preserves_bind; [intros w; reflexivity | intros _].
  do 2 (apply preserves_bind;
        [apply preserves_emit, drawing_frame_files | intros _]).
  apply preserves_bind; [apply preserves_lift | intros a].
  apply preserves_bind;
    [apply preserves_draw_grid, drawing_frame_files | intros _].
  apply preserves_bind; [apply preserves_emit, drawing_frame_files | intros _].
  apply preserves_bind; [intros w; reflexivity | intros bytes].
  intros w; reflexivity.
Qed.

Lemma preserves_files_main (e : env) (a : args) : preserves files (main e a).
Proof.
  unfold main.
  apply preserves_bind.
  { intros w. unfold setlocale. destruct (locale_available e _); reflexivity. }
  intros _. apply preserves_bind.
  { apply preserves_try.
    - apply preserves_bind; [apply preserves_lift | intros d].
      apply preserves_ret.
    - intros x. apply preserves_bind; [intros w; reflexivity | intros _].
      apply preserves_ret. }
  intros [start_date|]; [|apply preserves_ret].
  apply preserves_try; [apply preserves_files_gen_calendar|].
  intros x w. reflexivity.
Qed.

Lemma parse_date_format (dt : datetime) :
  valid dt ->
  parse_date (format_date "/" dt) = Ok dt /\
  parse_date (format_date "-" dt) = Ok dt.
Proof.
  intros Hv. rewrite !parse_date_eq. split.
  - rewrite (strptime_format "/" "%d/%m/%Y" dt Hv) by auto. reflexivity.
  - destruct (strptime_slash_dash dt Hv) as (x & ->).
    rewrite (strptime_format "-" "%d-%m-%Y" dt Hv) by auto. reflexivity.
Qed.

Lemma valid_leap_day (y : Z) :
  1 <= y <= 9999 -> is_leap y = true -> valid (mkdt y 2 29).
Proof.
  intros Hy L. unfold valid, days_in_month, MINYEAR, MAXYEAR. cbn [year month day].
  rewrite L. cbn. lia.
Qed.

(* ================================================================== *)
(** * A run whose current date is a date *)

Section Render.

(** The environment of the run. *)
Variable e : env.
Hypothesis today_valid : valid (today e).

Lemma is_week_in_past_eq (date : datetime) :
  valid date ->
  is_week_in_past e date = Ok (toordinal date <? monday_ordinal (today e)).
Proof.
  intros Hd. unfold is_week_in_past.
  pose proof (monday_ordinal_range _ today_valid) as Hm.
  pose proof (toordinal_range _ today_valid) as Hr.
  destruct (add_days_ok (today e) (- weekday (today e)) today_valid
              ltac:(unfold monday_ordinal in Hm; lia)) as (lm & El & Vl & Ol).
  rewrite El. cbn [rbind]. rewrite ltb_toordinal by assumption.
  rewrite Ol. reflexivity.
Qed.

Lemma cell_fill_ok (start_date date : datetime) (fill_lived : bool) :
  valid date -> toordinal date <= SAFE_ORDINAL ->
  every_year (month start_date) (day start_date) ->
  exists c, cell_fill e start_date date fill_lived = Ok c.
Proof.
  intros Hd Hs He. unfold cell_fill.
  destruct (is_current_week_ok date _ _ Hd Hs He) as (b1 & E1).
  destruct (is_current_week_ok date 1 1 Hd Hs every_year_jan1) as (b2 & E2).
  rewrite E1, E2.
  destruct fill_lived; [rewrite is_week_in_past_eq by assumption|];
    cbn [rbind];
    repeat match goal with
      | |- context [if ?b then _ else _] => destruct b
      end; cbn [rbind]; eexists; reflexivity.
Qed.

Lemma draw_row_loop_ok (start_date : datetime) (fill_lived : bool)
      (n : nat) :
  every_year (month start_date) (day start_date) ->
  forall (date : datetime) (w : world),
    valid date -> toordinal date + 7 * Z.of_nat n <= SAFE_ORDINAL + 7 ->
    exists fills,
      draw_row_loop e n start_date date fill_lived w
      = (Ok tt, with_page w (map DrawSquare fills)) /\
      List.length fills = n.
Proof.
  intros He. induction n as [|n IH]; intros date w Hd Hs.
  - exists []. cbn. rewrite with_page_nil. split; reflexivity.
  - cbn [draw_row_loop].
    destruct (cell_fill_ok start_date date fill_lived Hd ltac:(lia) He)
      as (c & Ec).
    pose proof (toordinal_range date Hd) as Hr.
    destruct (add_days_ok date (7 * 1) Hd
                ltac:(unfold SAFE_ORDINAL, MAXORDINAL in *; lia))
      as (d' & Ed & Vd & Od).
    destruct (IH d' (with_page w [DrawSquare c]) Vd ltac:(lia))
      as (fills & Ef & Lf).
    exists (c :: fills). split; [|cbn; congruence].
    unfold bind, lift, draw_square. rewrite Ec, emit_run.
    unfold add_weeks. rewrite Ed, Ef, with_page_app. reflexivity.
Qed.

Lemma draw_grid_loop_ok (start_date : datetime) (fill_lived : bool)
      (n : nat) :
  every_year (month start_date) (day start_date) ->
  forall (date : datetime) (w : world),
    valid date -> toordinal date + 364 * Z.of_nat n <= SAFE_ORDINAL + 7 ->
    exists ops,
      draw_grid_loop e n start_date date fill_lived w
      = (Ok tt, with_page w ops) /\
      List.length (row_labels ops) = n /\
      List.length (squares ops) = (52 * n)%nat /\
      hd_error (row_labels ops) = match n with O => None | S _ => Some date end.
Proof.
  intros He. induction n as [|n IH]; intros date w Hd Hs.
  - exists []. cbn. rewrite with_page_nil. repeat split; reflexivity.
  - cbn [draw_grid_loop].
    destruct (draw_row_loop_ok start_date fill_lived 52 He date
                (with_page w [ShowText (DateLabel date)]) Hd ltac:(lia))
      as (fills & Ef & Lf).
    pose proof (toordinal_range date Hd) as Hr.
    destruct (add_days_ok date (7 * 52) Hd
                ltac:(unfold SAFE_ORDINAL, MAXORDINAL in *; lia))
      as (d' & Ed & Vd & Od).
    destruct (IH d' (with_page w ([ShowText (DateLabel date)]
                                    ++ map DrawSquare fills)) Vd ltac:(lia))
      as (ops & Eo & Lo & So & _).
    exists ([ShowText (DateLabel date)] ++ map DrawSquare fills ++ ops).
    split; [|split; [|split]].
    + unfold bind, lift, draw_row, NUM_COLUMNS. rewrite emit_run, Ef.
      unfold add_weeks. rewrite Ed, with_page_app, Eo, with_page_app.
      rewrite <- app_assoc. reflexivity.
    + cbn. rewrite row_labels_app, row_labels_squares. cbn. congruence.
    + cbn [app squares]. rewrite squares_app, squares_map, List.length_app, So. lia.
    + reflexivity.
Qed.

Lemma draw_grid_ok (date : datetime) (years : Z) (fill_lived : bool)
      (w : world) :
  valid date -> leap_day date = false ->
  toordinal date + 364 * Z.max 0 years <= SAFE_ORDINAL + 7 ->
  exists ops,
    draw_grid e date years fill_lived w = (Ok tt, with_page w ops) /\
    List.length (row_labels ops) = Z.to_nat years /\
    List.length (squares ops) = (3 + 52 * Z.to_nat years)%nat /\
    hd_error (row_labels ops)
    = match Z.to_nat years with O => None | S _ => Some date end.
Proof.
  intros Hd Hl Hs. unfold draw_grid, draw_key_item, draw_square.
  set (w1 := with_page w
               [DrawSquare BIRTHDAY_COLOUR;
                ShowText (Translated "Week of your birthday");
                DrawSquare NEWYEAR_COLOUR;
                ShowText (Translated "First week of the new year");
                DrawSquare LIVED_COLOUR;
                ShowText (Translated "Weeks lived")]).
  destruct (draw_headers_run NUM_COLUMNS 0 w1) as (hs & Eh & Lh & Sh).
  destruct (draw_grid_loop_ok date fill_lived (Z.to_nat years)
              (every_year_of_valid date Hd Hl) date (with_page w1 hs) Hd
              ltac:(lia)) as (ops & Eo & Lo & So & Ho).
  eexists. split; [|split; [|split]].
  - unfold bind. repeat rewrite emit_run. repeat rewrite with_page_app.
    cbn [app]. fold w1. rewrite Eh, Eo. unfold w1.
    repeat rewrite with_page_app. reflexivity.
  - cbn. rewrite row_labels_app, Lh. cbn. assumption.
  - cbn. rewrite squares_app, Sh. cbn. rewrite So. reflexivity.
  - cbn. rewrite row_labels_app, Lh. cbn. assumption.
Qed.

Lemma gen_calendar_ok (start_date : datetime) (title : string)
      (filename : option string) (years : Z) (fill_lived : bool) (w : world) :
  valid start_date -> year start_date <= 9900 ->
  anchor_is_leap_day start_date = false ->
  (String.length title <= MAX_TITLE_SIZE)%nat -> 0 <= years <= 88 ->
  exists pg a,
    gen_calendar e start_date title filename years fill_lived w
    = (Ok tt, mkWorld pg (stdout w ++ [PdfBytes pg]) (files w) (lc_time w)) /\
    back_up_to_monday start_date = Ok a /\
    List.length (row_labels pg) = Z.to_nat years /\
    List.length (squares pg) = (3 + 52 * Z.to_nat years)%nat /\
    hd_error (row_labels pg)
    = match Z.to_nat years with O => None | S _ => Some a end.
Proof.
  intros Hv Hy Hl Hlen Hyears.
  destruct (back_up_to_monday_spec start_date Hv) as (a & Ea & Va & Oa).
  unfold anchor_is_leap_day in Hl. rewrite Ea in Hl.
  pose proof (monday_ordinal_range _ Hv) as Hm.
  pose proof (toordinal_year_bound _ 9900 Hv Hy) as Hb.
  change (days_before_year (9900 + 1)) with 3615900 in Hb.
  set (w1 := mkWorld [FillBackground; ShowText (Str title)]
                     (stdout w) (files w) (lc_time w)).
  destruct (draw_grid_ok a years fill_lived w1 Va Hl
              ltac:(unfold SAFE_ORDINAL; lia)) as (ops & Eo & Lo & So & Ho).
  exists (page w1 ++ ops ++ [ShowPage]), a.
  split; [|split; [assumption|split; [|split]]].
  - unfold gen_calendar.
    replace (MAX_TITLE_SIZE <? String.length title)%nat with false
      by (symmetry; apply Nat.ltb_ge; assumption).
    unfold bind, lift, new_surface, emit, getvalue, write_stdout.
    cbn [page stdout files lc_time app]. rewrite Ea. fold w1. rewrite Eo.
    unfold with_page. cbn [page stdout files lc_time].
    rewrite <- app_assoc. reflexivity.
  - cbn. rewrite row_labels_app, List.length_app, Lo. cbn. lia.
  - cbn. rewrite squares_app, List.length_app, So. cbn. lia.
  - cbn. rewrite row_labels_app. cbn. rewrite app_nil_r. assumption.
Qed.

Lemma cell_fill_lived (start_date date : datetime) :
  valid date ->
  toordinal date < monday_ordinal (today e) ->
  cell_fill e start_date date true = Ok LIVED_COLOUR.
Proof.
  intros Hd H. unfold cell_fill.
  rewrite is_week_in_past_eq by assumption.
  replace (toordinal date <? monday_ordinal (today e)) with true
    by (symmetry; apply Z.ltb_lt; assumption).
  reflexivity.
Qed.

Lemma cell_fill_leap_day (start_date date : datetime)
      (fill_lived : bool) :
  valid date ->
  month start_date = 2 -> day start_date = 29 ->
  fill_lived && (toordinal date <? monday_ordinal (today e)) = false ->
  exists x, cell_fill e start_date date fill_lived = Raise x.
Proof.
  intros Hd Hm Hday Hl. unfold cell_fill. rewrite Hm, Hday.
  destruct (is_current_week_leap_day date) as (x & E). rewrite E.
  destruct fill_lived.
  - rewrite is_week_in_past_eq by assumption. cbn [andb] in Hl. rewrite Hl.
    cbn [rbind]. eexists; reflexivity.
  - cbn [rbind]. eexists; reflexivity.
Qed.

(** Whenever the chain of [draw_row] returns a fill, it is the fill of the
    reference state for the date handed to it as [start_date]. *)
Lemma cell_fill_reference (start_date date : datetime)
      (fill_lived : bool) (c : colour) :
  valid date ->
  cell_fill e start_date date fill_lived = Ok c ->
  c = state_colour (reference_state (today e) start_date date fill_lived).
Proof.
  intros Hd. unfold cell_fill, reference_state.
  assert ((if fill_lived then is_week_in_past e date else Ok false)
          = Ok (fill_lived && (toordinal date <? monday_ordinal (today e))))
    as -> by (destruct fill_lived;
              [apply is_week_in_past_eq; assumption | reflexivity]).
  cbn [rbind]. destruct (fill_lived && _); [intros [= <-]; reflexivity|].
  destruct (is_current_week date (month start_date) (day start_date))
    as [|b1] eqn:E1; [discriminate|].
  apply is_current_week_inv in E1; [|assumption]. rewrite <- E1.
  cbn [rbind]. destruct b1; [intros [= <-]; reflexivity|].
  destruct (is_current_week date 1 1) as [|b2] eqn:E2; [discriminate|].
  apply is_current_week_inv in E2; [|assumption]. rewrite <- E2.
  cbn [rbind]. destruct b2; intros [= <-]; reflexivity.
Qed.

Lemma main_ok (a : args) (w : world) (start_date : datetime) :
  locale_available e (arg_locale a) = true ->
  parse_date (arg_date a) = Ok start_date ->
  (String.length (arg_title a) <= MAX_TITLE_SIZE)%nat ->
  year start_date <= 9900 ->
  anchor_is_leap_day start_date = false ->
  exists pg anchor,
    main e a w
    = (Ok tt, mkWorld pg (stdout w ++ [PdfBytes pg]) (files w) (arg_locale a)) /\
    back_up_to_monday start_date = Ok anchor /\
    Z.of_nat (List.length (row_labels pg)) = Z.max 1 (Z.min 88 (arg_years a)) /\
    hd_error (row_labels pg) = Some anchor.
Proof.
  intros Hloc Hp Hlen Hy Hl.
  pose proof (parse_date_valid _ _ Hp) as Hv.
  set (w1 := mkWorld (page w) (stdout w) (files w) (arg_locale a)).
  destruct (gen_calendar_ok start_date (arg_title a)
              (if arg_stdout a then None
               else Some (fst (PyStr.splitext (arg_filename a)) ++ ".pdf")%string)
              (Z.max 1 (Z.min 88 (arg_years a))) (arg_fill_lived a) w1
              Hv Hy Hl Hlen ltac:(lia))
    as (pg & anchor & Eg & Ea & Lr & _ & Hh).
  exists pg, anchor. split; [|split; [assumption|split]].
  - unfold main, bind, try_except, setlocale, lift, ret. rewrite Hloc, Hp.
    fold w1. rewrite Eg. reflexivity.
  - rewrite Lr. lia.
  - rewrite Hh. destruct (Z.to_nat _) eqn:E; [lia|reflexivity].
Qed.

(** With a 29 February as [start_date], a row is drawn to its end only
    when every week of it is lived. *)
Lemma draw_row_loop_leap_day (start_date : datetime)
      (fill_lived : bool) (n : nat) :
  month start_date = 2 -> day start_date = 29 ->
  forall (date : datetime) (w w' : world),
    valid date ->
    draw_row_loop e (S n) start_date date fill_lived w = (Ok tt, w') ->
    fill_lived = true /\
    toordinal date + 7 * Z.of_nat n < monday_ordinal (today e).
Proof.
  intros Hm Hd. induction n as [|n IH]; intros date w w' Hv H.
  - cbn [draw_row_loop] in H. unfold bind, lift in H.
    destruct (fill_lived && (toordinal date <? monday_ordinal (today e)))
      eqn:L.
    + apply andb_true_iff in L. destruct L as [L1 L2].
      apply Z.ltb_lt in L2. split; [assumption|lia].
    + destruct (cell_fill_leap_day start_date date fill_lived Hv Hm Hd L)
        as (x & E). rewrite E in H. discriminate.
  - remember (S n) as k. cbn [draw_row_loop] in H. unfold bind, lift in H.
    destruct (cell_fill e start_date date fill_lived); [discriminate|].
    destruct (draw_square a w) as [[x|[]] w1]; [discriminate|].
    unfold add_weeks in H.
    destruct (add_days date (7 * 1)) as [|d'] eqn:Ed; [discriminate|].
    apply add_days_inv in Ed. destruct Ed as (_ & Vd & Od). subst k.
    destruct (IH d' w1 w' Vd H) as (F & L). split; [assumption|lia].
Qed.

Lemma draw_grid_loop_leap_day (start_date : datetime)
      (fill_lived : bool) (n : nat) :
  month start_date = 2 -> day start_date = 29 ->
  forall (date : datetime) (w w' : world),
    valid date ->
    draw_grid_loop e (S n) start_date date fill_lived w = (Ok tt, w') ->
    fill_lived = true /\
    toordinal date + 364 * Z.of_nat n + 357 < monday_ordinal (today e).
Proof.
  intros Hm Hd. induction n as [|n IH]; intros date w w' Hv H.
  - cbn [draw_grid_loop] in H. unfold bind in H. rewrite emit_run in H.
    unfold draw_row, NUM_COLUMNS in H.
    destruct (draw_row_loop e 52 start_date date fill_lived _)
      as [[x|[]] w1] eqn:Er; [discriminate|].
    apply (draw_row_loop_leap_day start_date fill_lived 51 Hm Hd) in Er;
      [|assumption].
    destruct Er as (F & L). split; [assumption|lia].
  - remember (S n) as k. cbn [draw_grid_loop] in H. unfold bind in H.
    rewrite emit_run in H. unfold draw_row, NUM_COLUMNS in H.
    destruct (draw_row_loop e 52 start_date date fill_lived _)
      as [[x|[]] w1]; [discriminate|].
    unfold lift, add_weeks in H.
    destruct (add_days date (7 * 52)) as [|d'] eqn:Ed; [discriminate|].
    apply add_days_inv in Ed. destruct Ed as (_ & Vd & Od). subst k.
    destruct (IH d' w1 w' Vd H) as (F & L). split; [assumption|lia].
Qed.

Lemma draw_grid_leap_day (a : datetime) (years : Z)
      (fill_lived : bool) (w w' : world) :
  valid a -> 1 <= years -> month a = 2 -> day a = 29 ->
  draw_grid e a years fill_lived w = (Ok tt, w') ->
  fill_lived = true /\
  toordinal a + 7 * (52 * years - 1) < monday_ordinal (today e).
Proof.
  intros Va Hy Hm Hd Eg.
  destruct (draw_grid_run e a years fill_lived w) as (hs & _ & _ & E).
  rewrite E in Eg.
  destruct (Z.to_nat years) as [|n] eqn:En; [lia|].
  apply (draw_grid_loop_leap_day a fill_lived n Hm Hd) in Eg;
    [|assumption].
  destruct Eg as (F & L). split; [assumption|]. lia.
Qed.

Lemma gen_calendar_leap_day_aborts (start_date a : datetime)
      (title : string) (filename : option string) (years : Z)
      (fill_lived : bool) (w : world) :
  valid start_date -> 1 <= years ->
  back_up_to_monday start_date = Ok a -> month a = 2 -> day a = 29 ->
  fill_lived && (toordinal a + 7 * (52 * years - 1)
                 <? monday_ordinal (today e)) = false ->
  exists x w',
    gen_calendar e start_date title filename years fill_lived w
    = (Raise x, w') /\ stdout w' = stdout w.
Proof.
  intros Hv Hy Ea Hm Hd Hl.
  destruct (Nat.ltb_spec MAX_TITLE_SIZE (String.length title)) as [L | L].
  - exists TITLE_ERROR, w. split; [|reflexivity].
    apply gen_calendar_title_too_long. assumption.
  - rewrite (gen_calendar_run e start_date a) by assumption.
    set (w1 := mkWorld _ _ _ _).
    pose proof (preserves_draw_grid stdout e a years fill_lived
                  drawing_frame_stdout w1) as Hs.
    destruct (draw_grid e a years fill_lived w1) as [[x | []] w2] eqn:Eg.
    + exists x, w2. split; [|assumption].
      apply bind_raise. assumption.
    + exfalso.
      destruct (back_up_to_monday_spec start_date Hv) as (a' & Ea' & Va & _).
      assert (a' = a) by congruence. subst a'.
      destruct (draw_grid_leap_day a years fill_lived w1 w2 Va Hy Hm Hd Eg)
        as (F & Lt). subst fill_lived. cbn [andb] in Hl.
      apply Z.ltb_ge in Hl. lia.
Qed.

Lemma cell_fill_leap_day_cases (start_date date : datetime)
      (fill_lived : bool) :
  valid date ->
  month start_date = 2 -> day start_date = 29 ->
  if fill_lived && (toordinal date <? monday_ordinal (today e))
  then cell_fill e start_date date fill_lived = Ok LIVED_COLOUR
  else exists x, cell_fill e start_date date fill_lived = Raise x.
Proof.
  intros Hv Hm Hd.
  destruct (fill_lived && _) eqn:L.
  - apply andb_true_iff in L. destruct L as [-> L]. apply Z.ltb_lt in L.
    apply cell_fill_lived; assumption.
  - apply cell_fill_leap_day; assumption.
Qed.

End Render.

(* ================================================================== *)
(** * The claims *)

(** C1 (the code departs from it).  The claim: every cell is classified
    by the four-step reference definition for the birth date [b].  In a
    run, [gen_calendar] hands the Monday it backed up to, not the birth
    date, to [draw_grid], which keeps it as [start_date]; the BIRTHDAY
    week is therefore the week of the anniversary of that Monday.  For
    the birth date 15 March 1990 (a Thursday, anchored to 12 March) the
    row of 1993 begins on Monday 8 March: the program fills the week of
    8 March as BIRTHDAY, where the reference says DEFAULT, and leaves the
    week of 15 March white, where the reference says BIRTHDAY. *)
Theorem birthday_week_follows_anchor :
  exists pg,
    main env_2024 args_1990 w0
    = (Ok tt, mkWorld pg [PdfBytes pg] [] "it_IT") /\
    parse_date (arg_date args_1990) = Ok (mkdt 1990 3 15) /\
    back_up_to_monday (mkdt 1990 3 15) = Ok (mkdt 1990 3 12) /\
    nth_error (row_labels pg) 3 = Some (mkdt 1993 3 8) /\
    add_weeks (mkdt 1993 3 8) 1 = Ok (mkdt 1993 3 15) /\
    grid_square pg 3 0 = Some BIRTHDAY_COLOUR /\
    reference_state (today env_2024) (mkdt 1990 3 15) (mkdt 1993 3 8) false
    = DEFAULT /\
    grid_square pg 3 1 = Some WHITE /\
    reference_state (today env_2024) (mkdt 1990 3 15) (mkdt 1993 3 15) false
    = BIRTHDAY.
Proof. eexists. vm_compute. repeat split. Qed.

(** C2 (the code departs from it).  The claim: the document goes to the
    named file unless [--stdout] is given.  No run writes a file;
    [gen_calendar] does not look at the file name it is given, and
    without [--stdout] (here with the file name [out.txt], for which
    [main] computes [out.pdf]) the document is written to the standard
    output all the same. *)
Theorem pdf_always_goes_to_stdout :
  (forall (e : env) (a : args) (w : world),
      files (snd (main e a w)) = files w) /\
  (forall (e : env) (start_date : datetime) (title : string)
          (filename1 filename2 : option string) (years : Z)
          (fill_lived : bool),
      gen_calendar e start_date title filename1 years fill_lived
      = gen_calendar e start_date title filename2 years fill_lived) /\
  arg_stdout args_out = false /\
  (fst (PyStr.splitext (arg_filename args_out)) ++ ".pdf")%string = "out.pdf" /\
  exists pg,
    main env_2024 args_out w0 = (Ok tt, mkWorld pg [PdfBytes pg] [] "it_IT").
Proof.
  split; [intros e a w; apply preserves_files_main|].
  split; [reflexivity|].
  split; [reflexivity|]. split; [reflexivity|].
  eexists. vm_compute. reflexivity.
Qed.

(** C3 (the code departs from it).  The claim: every cell gets exactly
    one of the four states.  For the birth date 29 February 1988, a
    Monday, with [fill_lived] off, the chain of [draw_row] raises on the
    first cell while it builds 29 February 1989: the cell gets no state
    and the run ends with an error message and no document. *)
Theorem leap_day_cell_has_no_state :
  parse_date (arg_date args_leap) = Ok (mkdt 1988 2 29) /\
  back_up_to_monday (mkdt 1988 2 29) = Ok (mkdt 1988 2 29) /\
  arg_fill_lived args_leap = false /\
  cell_fill env_2024 (mkdt 1988 2 29) (mkdt 1988 2 29) false
  = Raise (ValueError "day is out of range for month") /\
  fst (main env_2024 args_leap w0) = Ok tt /\
  stdout (snd (main env_2024 args_leap w0))
  = [PrintLine "Error: day is out of range for month"].
Proof. vm_compute. repeat split. Qed.

(** C4.  For every start date that [parse_date] returns, backing up to
    the last Monday returns a date [a] that is a Monday, is on or before
    the start date and less than 7 days before it; and whatever the
    title (within the limit), file name, number of years and
    [fill_lived] are, [gen_calendar] draws the grid from [a]: the first
    row label drawn is [a]. *)
Theorem anchor_is_monday_on_or_before (text : string) (start_date : datetime) :
  parse_date text = Ok start_date ->
  exists a,
    back_up_to_monday start_date = Ok a /\ valid a /\
    weekday a = 0 /\
    leb a start_date = true /\
    toordinal a <= toordinal start_date < toordinal a + 7 /\
    (forall end_, add_days a 7 = Ok end_ -> ltb start_date end_ = true) /\
    (forall (e : env) (title : string) (filename : option string) (years : Z)
            (fill_lived : bool) (w : world),
        (String.length title <= MAX_TITLE_SIZE)%nat ->
        gen_calendar e start_date title filename years fill_lived w
        = bind (draw_grid e a years fill_lived)
               (fun _ => bind (emit ShowPage)
                  (fun _ => bind getvalue
                     (fun bytes => write_stdout (PdfBytes bytes))))
               (mkWorld [FillBackground; ShowText (Str title)]
                        (stdout w) (files w) (lc_time w)) /\
        (1 <= years ->
         hd_error (row_labels
                     (page (snd (gen_calendar e start_date title filename
                                   years fill_lived w))))
         = Some a)).
Proof.
  intros Hp. pose proof (parse_date_valid _ _ Hp) as Hv.
  destruct (back_up_to_monday_spec start_date Hv) as (a & Ea & Va & Oa).
  pose proof (weekday_range start_date) as Hw.
  exists a. split; [assumption|]. split; [assumption|].
  split; [eapply weekday_monday_ordinal; eassumption|].
  assert (toordinal a <= toordinal start_date < toordinal a + 7) as Hr
      by (rewrite Oa; unfold monday_ordinal; lia).
  split; [rewrite leb_toordinal by assumption; apply Z.leb_le; lia|].
  split; [assumption|]. split.
  - intros end_ He. apply add_days_inv in He. destruct He as (_ & Ve & Oe).
    rewrite ltb_toordinal by assumption. apply Z.ltb_lt. lia.
  - intros e title filename years fill_lived w Hlen. split.
    + apply gen_calendar_run; assumption.
    + intros Hy.
      destruct (gen_calendar_first_label e start_date title filename years
                  fill_lived w Hv Hlen Hy) as (a' & Ea' & H).
      congruence.
Qed.

Lemma anchor_is_monday_on_or_before_witness :
  parse_date "15/03/1990" = Ok (mkdt 1990 3 15) /\
  exists a,
    back_up_to_monday (mkdt 1990 3 15) = Ok a /\ a = mkdt 1990 3 12 /\
    weekday a = 0.
Proof.
  assert (parse_date "15/03/1990" = Ok (mkdt 1990 3 15)) as Hp
      by (vm_compute; reflexivity).
  split; [exact Hp|].
  destruct (anchor_is_monday_on_or_before "15/03/1990" (mkdt 1990 3 15) Hp)
    as (a & Ea & _ & Wa & _).
  exists a. split; [exact Ea|]. split; [|exact Wa].
  vm_compute in Ea. congruence.
Defined.

(** C5.  [main] clamps the requested years to 1..88 and the page it
    writes has that many rows, for every requested integer: no request
    is an error.  The run is one that the date arithmetic lets finish:
    the locale is available, the date parses, the title is within the
    limit, the current date is a date, the birth year is at most 9900 and
    the Monday backed up to is not a 29 February. *)
Theorem rows_are_clamped_years (e : env) (a : args) (w : world)
        (start_date : datetime) :
  locale_available e (arg_locale a) = true ->
  parse_date (arg_date a) = Ok start_date ->
  (String.length (arg_title a) <= MAX_TITLE_SIZE)%nat ->
  valid (today e) -> year start_date <= 9900 ->
  anchor_is_leap_day start_date = false ->
  exists pg,
    main e a w
    = (Ok tt, mkWorld pg (stdout w ++ [PdfBytes pg]) (files w) (arg_locale a)) /\
    Z.of_nat (List.length (row_labels pg)) = Z.max 1 (Z.min 88 (arg_years a)).
Proof.
  intros Hloc Hp Hlen Ht Hy Hl.
  destruct (main_ok e Ht a w start_date Hloc Hp Hlen Hy Hl)
    as (pg & anchor & E & _ & R & _).
  exists pg. split; assumption.
Qed.

Lemma rows_are_clamped_years_witness :
  (exists pg,
      main env_2024 (args_years 200) w0
      = (Ok tt, mkWorld pg [PdfBytes pg] [] "it_IT") /\
      Z.of_nat (List.length (row_labels pg)) = 88) /\
  (exists pg,
      main env_2024 (args_years 0) w0
      = (Ok tt, mkWorld pg [PdfBytes pg] [] "it_IT") /\
      Z.of_nat (List.length (row_labels pg)) = 1).
Proof.
  assert (parse_date "15/03/1990" = Ok (mkdt 1990 3 15)) as Hp
      by (vm_compute; reflexivity).
  assert (valid (today env_2024)) as Ht by valid_date.
  assert (anchor_is_leap_day (mkdt 1990 3 15) = false) as Hl
      by (vm_compute; reflexivity).
  split.
  - exact (rows_are_clamped_years env_2024 (args_years 200) w0 (mkdt 1990 3 15)
             eq_refl Hp ltac:(vm_compute; lia) Ht ltac:(cbn [year]; lia) Hl).
  - exact (rows_are_clamped_years env_2024 (args_years 0) w0 (mkdt 1990 3 15)
             eq_refl Hp ltac:(vm_compute; lia) Ht ltac:(cbn [year]; lia) Hl).
Defined.

(** C6.  [gen_calendar] raises the title error exactly when the title
    has more than 30 characters; it does so before anything is drawn or
    written, the state being left as it was; and with a title of at most
    30 characters a run that the date arithmetic lets finish (see C5)
    returns. *)
Theorem title_limit (e : env) (start_date : datetime) (title : string)
        (filename : option string) (years : Z) (fill_lived : bool)
        (w : world) :
  (fst (gen_calendar e start_date title filename years fill_lived w)
   = Raise TITLE_ERROR
   <-> (MAX_TITLE_SIZE < String.length title)%nat) /\
  ((MAX_TITLE_SIZE < String.length title)%nat ->
   gen_calendar e start_date title filename years fill_lived w
   = (Raise TITLE_ERROR, w)) /\
  ((String.length title <= MAX_TITLE_SIZE)%nat ->
   valid (today e) -> valid start_date -> year start_date <= 9900 ->
   anchor_is_leap_day start_date = false -> 0 <= years <= 88 ->
   fst (gen_calendar e start_date title filename years fill_lived w) = Ok tt).
Proof.
  split; [|split].
  - split.
    + intros H.
      destruct (gen_calendar e start_date title filename years fill_lived w)
        as [r w'] eqn:E. cbn [fst] in H. subst r.
      apply gen_calendar_raises in E. destruct E as [[_ L] | [D _]];
        [assumption|]. exfalso. exact (title_error_not_date_error D).
    + intros L. rewrite gen_calendar_title_too_long by assumption.
      reflexivity.
  - apply gen_calendar_title_too_long.
  - intros Hlen Ht Hv Hy Hl Hyears.
    destruct (gen_calendar_ok e Ht start_date title filename years fill_lived
                w Hv Hy Hl Hlen Hyears) as (pg & a & E & _).
    rewrite E. reflexivity.
Qed.

Lemma title_limit_witness :
  String.length TITLE_30 = 30%nat /\
  fst (gen_calendar env_2024 (mkdt 1990 3 15) TITLE_30 None 80 false w0)
  = Ok tt /\
  String.length TITLE_31 = 31%nat /\
  gen_calendar env_2024 (mkdt 1990 3 15) TITLE_31 None 80 false w0
  = (Raise TITLE_ERROR, w0).
Proof.
  split; [reflexivity|]. split.
  - apply (title_limit env_2024 (mkdt 1990 3 15) TITLE_30 None 80 false w0).
    + vm_compute. lia.
    + valid_date.
    + valid_date.
    + cbn [year]. lia.
    + vm_compute. reflexivity.
    + lia.
  - split; [reflexivity|].
    apply (title_limit env_2024 (mkdt 1990 3 15) TITLE_31 None 80 false w0).
    vm_compute. lia.
Defined.

(** C7.  [parse_date] returns what [strptime] returns for dd/mm/yyyy when
    that succeeds, else what it returns for dd-mm-yyyy when that
    succeeds, and raises the format error, and no other, exactly when
    [strptime] fails for both.  A pattern matches a text when [strptime]
    returns a date for it. *)
Theorem parse_date_first_match (date : string) :
  (forall dt, strptime date "%d/%m/%Y" = Ok dt -> parse_date date = Ok dt) /\
  (forall dt, is_ok (strptime date "%d/%m/%Y") = false ->
              strptime date "%d-%m-%Y" = Ok dt -> parse_date date = Ok dt) /\
  (parse_date date = Raise FORMAT_ERROR <->
   is_ok (strptime date "%d/%m/%Y") = false /\
   is_ok (strptime date "%d-%m-%Y") = false) /\
  (forall x, parse_date date = Raise x -> x = FORMAT_ERROR).
Proof.
  rewrite parse_date_eq.
  destruct (strptime date "%d/%m/%Y") as [x1 | d1];
    destruct (strptime date "%d-%m-%Y") as [x2 | d2]; cbn [is_ok];
    repeat split; intros; try discriminate; try congruence;
    try tauto;
    match goal with H : _ /\ _ |- _ => destruct H; discriminate end.
Qed.

Lemma parse_date_first_match_witness :
  parse_date "15/03/1990" = Ok (mkdt 1990 3 15) /\
  parse_date "15-03-1990" = Ok (mkdt 1990 3 15) /\
  parse_date "1990-03-15" = Raise FORMAT_ERROR.
Proof.
  split; [|split].
  - apply (proj1 (parse_date_first_match "15/03/1990")).
    vm_compute. reflexivity.
  - apply (proj1 (proj2 (parse_date_first_match "15-03-1990"))).
    + vm_compute. reflexivity.
    + vm_compute. reflexivity.
  - apply (proj1 (proj2 (proj2 (parse_date_first_match "1990-03-15")))).
    split; vm_compute; reflexivity.
Defined.

(** C8 (the code departs from it).  The claim: the text is trimmed before
    it is matched.  [parse_date] computes the trimmed text and then
    matches the text as given: " 15/03/1990 " is refused with the format
    error, though its trimmed form parses to 15 March 1990. *)
Theorem parse_date_ignores_stripped :
  parse_date " 15/03/1990 " = Raise FORMAT_ERROR /\
  PyStr.strip " 15/03/1990 " = "15/03/1990" /\
  parse_date (PyStr.strip " 15/03/1990 ") = Ok (mkdt 1990 3 15).
Proof. vm_compute. auto. Qed.

(** C9.  Every date, written as dd/mm/yyyy or as dd-mm-yyyy (two, two and
    four digits, zero-padded), is parsed back to itself. *)
Theorem parse_format_roundtrip (dt : datetime) :
  valid dt ->
  parse_date (format_date "/" dt) = Ok dt /\
  parse_date (format_date "-" dt) = Ok dt.
Proof. apply parse_date_format. Qed.

Lemma parse_format_roundtrip_witness :
  valid (mkdt 2000 2 29) /\
  format_date "/" (mkdt 2000 2 29) = "29/02/2000" /\
  parse_date "29/02/2000" = Ok (mkdt 2000 2 29) /\
  format_date "-" (mkdt 2000 2 29) = "29-02-2000" /\
  parse_date "29-02-2000" = Ok (mkdt 2000 2 29).
Proof.
  assert (valid (mkdt 2000 2 29)) as Hv by valid_date.
  destruct (parse_format_roundtrip (mkdt 2000 2 29) Hv) as [H1 H2].
  split; [exact Hv|]. split; [reflexivity|]. split; [exact H1|].
  split; [reflexivity|exact H2].
Defined.

(** C10 as stated fails: with [fill_lived] on, a week in the past is
    LIVED before any anniversary is built, also when [start_date] is a
    29 February and the year after the cell's (here 1989) is not a leap
    year. *)
Lemma lived_week_hides_leap_day :
  parse_date "29/02/1988" = Ok (mkdt 1988 2 29) /\
  is_leap 1988 = true /\ is_leap 1989 = false /\
  cell_fill env_2024 (mkdt 1988 2 29) (mkdt 1988 2 29) true
  = Ok LIVED_COLOUR.
Proof. vm_compute. auto. Qed.

(** C10, amended.  [parse_date] accepts 29 February of a leap year.  When
    the [start_date] handed to the classifier is a 29 February, a cell is
    LIVED if [fill_lived] is on and its week is in the past, and
    classifying any other cell raises.  A run whose Monday backed up to
    is a 29 February raises, having written nothing to the standard
    output, unless [fill_lived] is on and the last week of the grid is in
    the past. *)
Theorem leap_day_start_raises (e : env) :
  valid (today e) ->
  (forall y, 1 <= y <= 9999 -> is_leap y = true ->
             parse_date (format_date "/" (mkdt y 2 29)) = Ok (mkdt y 2 29)) /\
  (forall (start_date date : datetime) (fill_lived : bool),
      valid date -> month start_date = 2 -> day start_date = 29 ->
      if fill_lived && (toordinal date <? monday_ordinal (today e))
      then cell_fill e start_date date fill_lived = Ok LIVED_COLOUR
      else exists x, cell_fill e start_date date fill_lived = Raise x) /\
  (forall (start_date a : datetime) (title : string)
          (filename : option string) (years : Z) (fill_lived : bool)
          (w : world),
      valid start_date -> 1 <= years ->
      back_up_to_monday start_date = Ok a -> month a = 2 -> day a = 29 ->
      fill_lived && (toordinal a + 7 * (52 * years - 1)
                     <? monday_ordinal (today e)) = false ->
      exists x w',
        gen_calendar e start_date title filename years fill_lived w
        = (Raise x, w') /\ stdout w' = stdout w).
Proof.
  intros Ht. split; [|split].
  - intros y Hy L. apply parse_date_format. apply valid_leap_day; assumption.
  - intros start_date date fill_lived Hv Hm Hd.
    apply cell_fill_leap_day_cases; assumption.
  - intros start_date a title filename years fill_lived w Hv Hy Ea Hm Hd Hl.
    eapply gen_calendar_leap_day_aborts; eassumption.
Qed.

Lemma leap_day_start_raises_witness :
  valid (today env_2024) /\
  parse_date "29/02/1988" = Ok (mkdt 1988 2 29) /\
  (exists x, cell_fill env_2024 (mkdt 1988 2 29) (mkdt 2024 2 26) true
             = Raise x) /\
  cell_fill env_2024 (mkdt 1988 2 29) (mkdt 1988 2 29) true = Ok LIVED_COLOUR /\
  (exists x w',
      gen_calendar env_2024 (mkdt 1988 2 29) DEFAULT_TITLE None 80 true w0
      = (Raise x, w') /\ stdout w' = stdout w0).
Proof.
  assert (valid (today env_2024)) as Ht by valid_date.
  destruct (leap_day_start_raises env_2024 Ht) as (P & C & G).
  split; [exact Ht|]. split; [|split; [|split]].
  - exact (P 1988 ltac:(lia) eq_refl).
  - exact (C (mkdt 1988 2 29) (mkdt 2024 2 26) true ltac:(valid_date)
             eq_refl eq_refl).
  - exact (C (mkdt 1988 2 29) (mkdt 1988 2 29) true ltac:(valid_date)
             eq_refl eq_refl).
  - exact (G (mkdt 1988 2 29) (mkdt 1988 2 29) DEFAULT_TITLE None 80 true w0
             ltac:(valid_date) ltac:(lia) eq_refl eq_refl eq_refl eq_refl).
Defined.

(* ================================================================== *)
(** * Further properties of the program *)

(* ================================================================== *)
(** ** The week of a day *)

Lemma toordinal_mkdt (y m d : Z) : toordinal (mkdt y m d) = ymd2ord y m d.
Proof. reflexivity. Qed.

Lemma year_mono (a b : datetime) :
  valid a -> valid b -> toordinal a <= toordinal b -> year a <= year b.
Proof.
  intros Va Vb H.
  destruct (Z_le_gt_dec (year a) (year b)); [assumption|].
  pose proof (toordinal_year_bound b (year b) Vb ltac:(lia)) as U.
  destruct Va as (_ & Hm & Hd).
  pose proof (ymd2ord_lower (year a) (month a) (day a) Hm ltac:(lia)) as L.
  fold (toordinal a) in L.
  pose proof (days_before_year_le (year b + 1) (year a) ltac:(lia)). lia.
Qed.

(** A date less than a week after [now] is of the year of [now] or of
    the next. *)
Lemma year_within_week (now t : datetime) :
  valid now -> valid t ->
  toordinal now <= toordinal t < toordinal now + 7 ->
  year t = year now \/ year t = year now + 1.
Proof.
  intros Vn Vt H.
  pose proof (year_mono now t Vn Vt ltac:(lia)) as L.
  pose proof (toordinal_year_bound now (year now) Vn ltac:(lia)) as U.
  pose proof (days_before_year_succ (year now + 1)) as Sy.
  assert (year t <= year now + 1).
  { apply year_le_of_ordinal; [assumption|].
    destruct (is_leap (year now + 1)); cbn [b2z] in Sy; lia. }
  lia.
Qed.

Lemma is_current_week_true_iff (now : datetime) (m d : Z) (b : bool) :
  valid now -> is_current_week now m d = Ok b ->
  (b = true <->
   toordinal now <= ymd2ord (year now) m d < toordinal now + 7 \/
   toordinal now <= ymd2ord (year now + 1) m d < toordinal now + 7).
Proof.
  intros Hv H. pose proof H as H'.
  apply is_current_week_inv in H; [|assumption]. subst b.
  unfold is_current_week in H'.
  destruct (add_weeks now 1); [discriminate|]. cbn [rbind] in H'.
  destruct (PyDatetime.new (year now) m d) eqn:E1; [discriminate|].
  cbn [rbind] in H'.
  destruct (PyDatetime.new (year now + 1) m d) eqn:E2; [discriminate|].
  unfold span_contains. rewrite E1, E2. cbn [is_ok andb].
  rewrite orb_true_iff, !andb_true_iff, !Z.leb_le, !Z.ltb_lt. tauto.
Qed.

Lemma is_current_week_finds (now t : datetime) (b : bool) :
  valid now -> valid t ->
  toordinal now <= toordinal t < toordinal now + 7 ->
  is_current_week now (month t) (day t) = Ok b -> b = true.
Proof.
  intros Vn Vt H E.
  apply (is_current_week_true_iff now _ _ b Vn E).
  destruct (year_within_week now t Vn Vt H) as [Y | Y]; rewrite <- Y;
    fold (toordinal t); [left | right]; assumption.
Qed.

Lemma is_current_week_returns (now : datetime) (m d : Z) :
  valid now ->
  (is_ok (is_current_week now m d) = true <->
   toordinal now + 7 <= MAXORDINAL /\
   valid (mkdt (year now) m d) /\ valid (mkdt (year now + 1) m d)).
Proof.
  intros Hv. pose proof (toordinal_range now Hv) as Hr.
  unfold is_current_week, add_weeks, add_days.
  destruct (Z.ltb_spec 0 (toordinal now + 7 * 1)); [|lia].
  destruct (Z.leb_spec (toordinal now + 7 * 1) MAXORDINAL); cbn [andb rbind is_ok].
  - destruct (PyDatetime.new (year now) m d) as [x1|d1] eqn:E1; cbn [rbind is_ok].
    + split; [discriminate|]. intros (_ & V1 & _).
      apply new_ok in V1. congruence.
    + apply new_inv in E1. destruct E1 as (-> & V1).
      destruct (PyDatetime.new (year now + 1) m d) as [x2|d2] eqn:E2;
        cbn [rbind is_ok].
      * split; [discriminate|]. intros (_ & _ & V2).
        apply new_ok in V2. congruence.
      * apply new_inv in E2. destruct E2 as (-> & V2).
        split; [intros _|reflexivity]. split; [lia | split; assumption].
  - split; [discriminate|]. lia.
Qed.

Lemma state_colour_inj (s1 s2 : cell_state) :
  state_colour s1 = state_colour s2 -> s1 = s2.
Proof. destruct s1, s2; try reflexivity; discriminate. Qed.

Lemma cell_fill_lived_iff (e : env) (start_date date : datetime)
      (fill_lived : bool) :
  valid (today e) -> valid date ->
  (cell_fill e start_date date fill_lived = Ok LIVED_COLOUR <->
   fill_lived = true /\ toordinal date < monday_ordinal (today e)).
Proof.
  intros Ht Hd. split.
  - intros H. apply cell_fill_reference in H; try assumption.
    change LIVED_COLOUR with (state_colour LIVED) in H.
    apply state_colour_inj in H. unfold reference_state in H.
    destruct (fill_lived && _) eqn:L.
    + apply andb_true_iff in L. destruct L as [L1 L2].
      apply Z.ltb_lt in L2. auto.
    + repeat match type of H with
             | _ = (if ?b then _ else _) => destruct b
             end; discriminate.
  - intros [-> L]. apply cell_fill_lived; assumption.
Qed.

Lemma bind_ext_head {A B} (m1 m2 : M A) (k : A -> M B) (w : world) :
  m1 w = m2 w -> bind m1 k w = bind m2 k w.
Proof. intros H. unfold bind. rewrite H. reflexivity. Qed.

Lemma bind_ext_tail {A B} (m : M A) (k1 k2 : A -> M B) (w : world) :
  (forall a w', k1 a w' = k2 a w') -> bind m k1 w = bind m k2 w.
Proof.
  intros H. unfold bind. destruct (m w) as [[x | a] w']; [reflexivity|].
  apply H.
Qed.

Lemma cell_fill_off_env (e1 e2 : env) (start_date date : datetime) :
  cell_fill e1 start_date date false = cell_fill e2 start_date date false.
Proof. reflexivity. Qed.

Lemma draw_row_loop_off_env (e1 e2 : env) (sd : datetime) (n : nat) :
  forall d w, draw_row_loop e1 n sd d false w = draw_row_loop e2 n sd d false w.
Proof.
  induction n as [|n IH]; intros d w; [reflexivity|].
  cbn [draw_row_loop]. unfold bind, lift.
  rewrite (cell_fill_off_env e1 e2).
  destruct (cell_fill e2 sd d false); [reflexivity|].
  destruct (draw_square a w) as [[x|[]] w1]; [reflexivity|].
  destruct (add_weeks d 1); [reflexivity|]. apply IH.
Qed.

Lemma draw_grid_loop_off_env (e1 e2 : env) (sd : datetime) (n : nat) :
  forall d w,
    draw_grid_loop e1 n sd d false w = draw_grid_loop e2 n sd d false w.
Proof.
  induction n as [|n IH]; intros d w; [reflexivity|].
  cbn [draw_grid_loop]. unfold bind, draw_row.
  destruct (emit _ w) as [[x|[]] w1]; [reflexivity|].
  rewrite (draw_row_loop_off_env e1 e2).
  destruct (draw_row_loop e2 NUM_COLUMNS sd d false w1) as [[x|[]] w2];
    [reflexivity|].
  destruct (lift (add_weeks d 52) w2) as [[x|d'] w3]; [reflexivity|]. apply IH.
Qed.

Lemma gen_calendar_anchor_raises (e : env) (start_date : datetime)
      (title : string) (filename : option string) (years : Z)
      (fill_lived : bool) (w : world) (x : exn) :
  (String.length title <= MAX_TITLE_SIZE)%nat ->
  back_up_to_monday start_date = Raise x ->
  gen_calendar e start_date title filename years fill_lived w
  = (Raise x, mkWorld [FillBackground; ShowText (Str title)]
                      (stdout w) (files w) (lc_time w)).
Proof.
  intros Hlen Ea. unfold gen_calendar.
  replace (MAX_TITLE_SIZE <? String.length title)%nat with false
    by (symmetry; apply Nat.ltb_ge; assumption).
  unfold bind at 1 2 3 4. unfold lift, new_surface, emit.
  cbn [page stdout files lc_time app]. rewrite Ea. reflexivity.
Qed.

Lemma gen_calendar_off_env (e1 e2 : env) (start_date : datetime)
      (title : string) (filename : option string) (years : Z) (w : world) :
  gen_calendar e1 start_date title filename years false w
  = gen_calendar e2 start_date title filename years false w.
Proof.
  destruct (Nat.ltb_spec MAX_TITLE_SIZE (String.length title)) as [L | L].
  - rewrite !gen_calendar_title_too_long by assumption. reflexivity.
  - destruct (back_up_to_monday start_date) as [x | a] eqn:Ea.
    + rewrite !(gen_calendar_anchor_raises _ start_date) with (x := x)
        by assumption.
      reflexivity.
    + rewrite !(gen_calendar_run _ start_date a) by assumption.
      apply bind_ext_head. unfold draw_grid.
      do 4 (apply bind_ext_tail; intros _ ?).
      apply draw_grid_loop_off_env.
Qed.

(* ================================================================== *)
(** ** The page of a run that returns *)

Lemma bind_inv_ok {A B} (m : M A) (k : A -> M B) (w w' : world) (b : B) :
  bind m k w = (Ok b, w') ->
  exists a w1, m w = (Ok a, w1) /\ k a w1 = (Ok b, w').
Proof.
  unfold bind. destruct (m w) as [[x | a] w1]; [discriminate|].
  intros H. exists a, w1. split; [reflexivity | assumption].
Qed.

Lemma lift_inv_ok {A} (r : result A) (w w' : world) (a : A) :
  lift r w = (Ok a, w') -> r = Ok a /\ w' = w.
Proof. unfold lift. intros [= -> ->]. auto. Qed.

Lemma draw_row_loop_inv (e : env) (sd : datetime) (fl : bool) (n : nat) :
  forall (d : datetime) (w w' : world),
    valid d -> draw_row_loop e n sd d fl w = (Ok tt, w') ->
    exists fills,
      w' = with_page w (map DrawSquare fills) /\ List.length fills = n /\
      forall (k : nat) (c : colour),
        nth_error fills k = Some c ->
        cell_fill e sd (fromordinal (toordinal d + 7 * Z.of_nat k)) fl = Ok c.
Proof.
  induction n as [|n IH]; intros d w w' Hv H.
  - injection H as <-. exists []. rewrite with_page_nil.
    repeat split. intros [|k] c; discriminate.
  - cbn [draw_row_loop] in H.
    apply bind_inv_ok in H. destruct H as (c0 & w1 & H1 & H).
    apply lift_inv_ok in H1. destruct H1 as [Ec ->].
    apply bind_inv_ok in H. destruct H as ([] & w2 & H2 & H).
    unfold draw_square in H2. rewrite emit_run in H2. injection H2 as <-.
    apply bind_inv_ok in H. destruct H as (d' & w3 & H3 & H).
    apply lift_inv_ok in H3. destruct H3 as [Ed ->].
    apply add_days_inv in Ed. destruct Ed as (_ & Vd & Od).
    destruct (IH d' _ w' Vd H) as (fills & -> & L & F).
    exists (c0 :: fills). split; [|split].
    + rewrite with_page_app. reflexivity.
    + cbn. congruence.
    + intros [|k] c Hk.
      * cbn in Hk. injection Hk as <-.
        replace (toordinal d + 7 * Z.of_nat 0) with (toordinal d) by lia.
        rewrite fromordinal_toordinal by assumption. assumption.
      * cbn [nth_error] in Hk. apply F in Hk.
        replace (toordinal d + 7 * Z.of_nat (S k))
          with (toordinal d' + 7 * Z.of_nat k) by lia.
        assumption.
Qed.

Lemma draw_grid_loop_inv (e : env) (sd : datetime) (fl : bool) (n : nat) :
  forall (d : datetime) (w w' : world),
    valid d -> draw_grid_loop e n sd d fl w = (Ok tt, w') ->
    exists ops,
      w' = with_page w ops /\
      row_labels ops
      = map (fun i => fromordinal (toordinal d + 364 * Z.of_nat i)) (seq 0 n) /\
      List.length (squares ops) = (52 * n)%nat /\
      toordinal d + 364 * Z.of_nat n <= MAXORDINAL /\
      forall (r c : nat) (col : colour),
        (c < 52)%nat ->
        nth_error (squares ops) (52 * r + c) = Some col ->
        cell_fill e sd
          (fromordinal (toordinal d + 364 * Z.of_nat r + 7 * Z.of_nat c)) fl
        = Ok col.
Proof.
  induction n as [|n IH]; intros d w w' Hv H.
  - injection H as <-. exists []. rewrite with_page_nil.
    pose proof (toordinal_range d Hv) as Hr.
    split; [reflexivity|]. split; [reflexivity|]. split; [reflexivity|].
    split; [lia|].
    intros r c col _ Hk. destruct (52 * r + c)%nat; discriminate.
  - cbn [draw_grid_loop] in H.
    apply bind_inv_ok in H. destruct H as ([] & w1 & H1 & H).
    rewrite emit_run in H1. injection H1 as <-.
    apply bind_inv_ok in H. destruct H as ([] & w2 & H2 & H).
    unfold draw_row, NUM_COLUMNS in H2.
    apply draw_row_loop_inv in H2; [|assumption].
    destruct H2 as (fills & -> & Lf & Ff).
    apply bind_inv_ok in H. destruct H as (d' & w3 & H3 & H).
    apply lift_inv_ok in H3. destruct H3 as [Ed ->].
    apply add_days_inv in Ed. destruct Ed as (_ & Vd & Od).
    destruct (IH d' _ w' Vd H) as (ops & -> & Lo & So & Mo & Fo).
    exists (ShowText (DateLabel d) :: map DrawSquare fills ++ ops).
    split; [|split; [|split; [|split]]].
    + rewrite !with_page_app. reflexivity.
    + cbn [row_labels seq map].
      rewrite row_labels_app, row_labels_squares, Lo. cbn [app].
      replace (toordinal d + 364 * Z.of_nat 0) with (toordinal d) by lia.
      rewrite fromordinal_toordinal by assumption. f_equal.
      rewrite <- seq_shift, map_map. apply map_ext. intros i.
      f_equal. lia.
    + cbn [squares]. rewrite squares_app, squares_map, List.length_app. lia.
    + lia.
    + intros r c col Hc Hk. cbn [squares] in Hk.
      rewrite squares_app, squares_map in Hk.
      destruct r as [|r].
      * rewrite nth_error_app1 in Hk by lia.
        replace (52 * 0 + c)%nat with c in Hk by lia.
        apply Ff in Hk.
        replace (toordinal d + 364 * Z.of_nat 0 + 7 * Z.of_nat c)
          with (toordinal d + 7 * Z.of_nat c) by lia.
        assumption.
      * rewrite nth_error_app2 in Hk by lia.
        replace (52 * S r + c - List.length fills)%nat
          with (52 * r + c)%nat in Hk by lia.
        apply Fo in Hk; [|assumption].
        replace (toordinal d + 364 * Z.of_nat (S r) + 7 * Z.of_nat c)
          with (toordinal d' + 364 * Z.of_nat r + 7 * Z.of_nat c) by lia.
        assumption.
Qed.

Lemma nth_error_skip3 {A} (x y z : A) (l : list A) (n : nat) :
  nth_error ([x; y; z] ++ l) (3 + n) = nth_error l n.
Proof. reflexivity. Qed.

(** The page of a run that returns. *)
Lemma gen_calendar_page (e : env) (start_date : datetime) (title : string)
      (filename : option string) (years : Z) (fill_lived : bool)
      (w w' : world) :
  valid start_date ->
  gen_calendar e start_date title filename years fill_lived w = (Ok tt, w') ->
  exists a,
    back_up_to_monday start_date = Ok a /\ valid a /\
    toordinal a = monday_ordinal start_date /\
    row_labels (page w')
    = map (fun r => cell_date a r 0) (seq 0 (Z.to_nat years)) /\
    List.length (squares (page w')) = (3 + 52 * Z.to_nat years)%nat /\
    toordinal a + 364 * Z.of_nat (Z.to_nat years) <= MAXORDINAL /\
    forall (r c : nat) (col : colour),
      (c < 52)%nat ->
      grid_square (page w') r c = Some col ->
      cell_fill e a (cell_date a r c) fill_lived = Ok col.
Proof.
  intros Hv H.
  destruct (back_up_to_monday_spec start_date Hv) as (a & Ea & Va & Oa).
  exists a. split; [assumption|]. split; [assumption|].
  split; [assumption|].
  destruct (Nat.ltb_spec MAX_TITLE_SIZE (String.length title)) as [L | L].
  { rewrite gen_calendar_title_too_long in H by assumption. discriminate. }
  rewrite (gen_calendar_run e start_date a) in H by assumption.
  apply bind_inv_ok in H. destruct H as ([] & w2 & Hg & H).
  destruct (draw_grid_run e a years fill_lived
              (mkWorld [FillBackground; ShowText (Str title)]
                       (stdout w) (files w) (lc_time w)))
    as (hs & Lh & Sh & Eg).
  rewrite Eg in Hg. apply draw_grid_loop_inv in Hg; [|assumption].
  destruct Hg as (ops & -> & Lo & So & Mo & Fo).
  assert (page w'
          = [FillBackground; ShowText (Str title)] ++ (KEY_OPS ++ hs) ++ ops
            ++ [ShowPage]) as Ep.
  { unfold bind, emit, getvalue, write_stdout, with_page in H.
    cbn [page stdout files lc_time] in H. injection H as <-.
    cbn [page]. rewrite <- !app_assoc. reflexivity. }
  assert (row_labels ([FillBackground; ShowText (Str title)] ++ KEY_OPS ++ hs)
          = []) as Lp by (rewrite !row_labels_app, Lh; reflexivity).
  assert (squares ([FillBackground; ShowText (Str title)] ++ KEY_OPS ++ hs)
          = [BIRTHDAY_COLOUR; NEWYEAR_COLOUR; LIVED_COLOUR]) as Sp
      by (rewrite !squares_app, Sh; reflexivity).
  rewrite Ep, app_assoc. split; [|split; [|split]].
  - rewrite row_labels_app, Lp, row_labels_app, Lo. cbn [app row_labels].
    rewrite app_nil_r. apply map_ext. intros r. unfold cell_date.
    f_equal. lia.
  - rewrite squares_app, Sp, squares_app, !List.length_app, So.
    cbn [List.length squares]. lia.
  - assumption.
  - intros r c col Hc Hk. unfold grid_square in Hk.
    rewrite squares_app, Sp, squares_app in Hk. cbn [squares] in Hk.
    rewrite app_nil_r in Hk.
    replace (3 + 52 * r + c)%nat with (3 + (52 * r + c))%nat in Hk by lia.
    rewrite nth_error_skip3 in Hk.
    apply Fo in Hk; [|assumption]. unfold cell_date. assumption.
Qed.

(* ================================================================== *)
(** ** What a run writes *)

Lemma drawing_frame_lc_time : drawing_frame lc_time.
Proof. intros pg out fs lc pg'. reflexivity. Qed.

(** What a render does to the output, the files and the locale. *)
Lemma gen_calendar_io (e : env) (start_date : datetime) (title : string)
      (filename : option string) (years : Z) (fill_lived : bool) (w : world) :
  exists r w',
    gen_calendar e start_date title filename years fill_lived w = (r, w') /\
    files w' = files w /\ lc_time w' = lc_time w /\
    match r with
    | Ok _ => stdout w' = stdout w ++ [PdfBytes (page w')]
    | Raise _ => stdout w' = stdout w
    end.
Proof.
  destruct (Nat.ltb_spec MAX_TITLE_SIZE (String.length title)) as [L | L].
  { rewrite gen_calendar_title_too_long by assumption.
    eexists _, _. split; [reflexivity|]. auto. }
  destruct (back_up_to_monday start_date) as [x | a] eqn:Ea.
  { rewrite (gen_calendar_anchor_raises e start_date) with (x := x)
      by assumption.
    eexists _, _. split; [reflexivity|]. auto. }
  rewrite (gen_calendar_run e start_date a) by assumption.
  set (w1 := mkWorld _ _ _ _).
  pose proof (preserves_draw_grid stdout e a years fill_lived
                drawing_frame_stdout w1) as Hs.
  pose proof (preserves_draw_grid files e a years fill_lived
                drawing_frame_files w1) as Hf.
  pose proof (preserves_draw_grid lc_time e a years fill_lived
                drawing_frame_lc_time w1) as Hl.
  destruct (draw_grid e a years fill_lived w1) as [[x | []] w2] eqn:Eg;
    cbn [snd] in Hs, Hf, Hl.
  - rewrite (bind_raise _ _ _ _ _ Eg).
    eexists _, _. split; [reflexivity|]. auto.
  - unfold bind at 1. rewrite Eg.
    eexists _, _. split; [reflexivity|].
    cbn [files lc_time stdout page]. rewrite Hs, Hf, Hl. auto.
Qed.

Lemma parse_date_raises (date : string) (x : exn) :
  parse_date date = Raise x -> x = FORMAT_ERROR.
Proof.
  rewrite parse_date_eq.
  destruct (strptime date "%d/%m/%Y"); [|discriminate].
  destruct (strptime date "%d-%m-%Y"); [|discriminate].
  intros [= <-]. reflexivity.
Qed.

Lemma main_run (e : env) (a : args) (w : world) :
  if locale_available e (arg_locale a)
  then exists out pg,
      main e a w
      = (Ok tt, mkWorld pg (stdout w ++ [out]) (files w) (arg_locale a)) /\
      match parse_date (arg_date a) with
      | Raise _ =>
          out = PrintLine ("Error: " ++ exn_message FORMAT_ERROR) /\
          pg = page w
      | Ok start_date =>
          match fst (gen_calendar e start_date (arg_title a) None
                       (Z.max 1 (Z.min 88 (arg_years a))) (arg_fill_lived a)
                       (mkWorld (page w) (stdout w) (files w) (arg_locale a)))
          with
          | Ok _ => out = PdfBytes pg
          | Raise x => out = PrintLine ("Error: " ++ exn_message x)
          end
      end
  else main e a w
       = (Raise (LocaleError "unsupported locale setting"), w).
Proof.
  destruct (locale_available e (arg_locale a)) eqn:Hloc.
  - unfold main. unfold bind at 1. unfold setlocale. rewrite Hloc.
    set (w1 := mkWorld (page w) (stdout w) (files w) (arg_locale a)).
    unfold bind at 1. unfold try_except at 1. unfold bind at 1. unfold lift.
    destruct (parse_date (arg_date a)) as [x | start_date] eqn:Hp.
    + apply parse_date_raises in Hp. subst x.
      eexists _, _. split; [reflexivity|]. split; reflexivity.
    + cbn [ret].
      set (fn := if arg_stdout a then None else _).
      assert (gen_calendar e start_date (arg_title a) None
                (Z.max 1 (Z.min 88 (arg_years a))) (arg_fill_lived a) w1
              = gen_calendar e start_date (arg_title a) fn
                  (Z.max 1 (Z.min 88 (arg_years a))) (arg_fill_lived a) w1)
        as -> by reflexivity.
      destruct (gen_calendar_io e start_date (arg_title a) fn
                  (Z.max 1 (Z.min 88 (arg_years a))) (arg_fill_lived a) w1)
        as (r & w' & Eg & Hf & Hl & Hs).
      unfold try_except. rewrite Eg. cbn [fst].
      destruct r as [x | []].
      * eexists _, _. split; [|reflexivity].
        unfold print_error, write_stdout. rewrite Hs, Hf, Hl. reflexivity.
      * eexists _, (page w'). split; [|reflexivity].
        destruct w' as [pg' out' fs' lc']. cbn [page stdout files lc_time] in *.
        subst. reflexivity.
  - unfold main. unfold bind at 1. unfold setlocale. rewrite Hloc. reflexivity.
Qed.

(* ================================================================== *)
(** ** Texts that are and are not dates *)

(** one step of the search, also when the rest of the pattern fails *)
Ltac regex_search :=
  first
    [ rewrite match_items_no_alt
    | rewrite match_items_alt_miss by reflexivity
    | erewrite match_items_alt_back
        by (reflexivity || (apply match_items_lit_ne; reflexivity)
            || (rewrite match_items_lit; eassumption))
    | erewrite match_items_alt_hit;
      [reflexivity | reflexivity | rewrite match_items_lit; eassumption] ].

Ltac literal_text :=
  repeat match goal with
    | |- context [pad2 ?k] =>
        let v := eval vm_compute in (pad2 k) in change (pad2 k) with v
    | |- context [unpadded ?k] =>
        let v := eval vm_compute in (unpadded k) in change (unpadded k) with v
    end; cbn [String.append].

Lemma match_day_any (sep : ascii) (tail : list item) (rest : string) (d : Z) :
  0 <= d <= 99 -> sep = "/"%char \/ sep = "-"%char ->
  match_items (re_d :: ILit sep :: tail) (pad2 d ++ String sep rest)
  = if (1 <=? d) && (d <=? 31)
    then capture "d" (pad2 d) (match_items tail rest) else None.
Proof.
  intros Hd Hs. unfold re_d, capture.
  destruct (match_items tail rest) as [[caps r]|] eqn:Ht;
    small_cases d 0 99; destruct Hs as [-> | ->]; literal_text;
    repeat regex_search; reflexivity.
Qed.

Lemma match_month_any (sep : ascii) (tail : list item) (rest : string)
      (m : Z) :
  0 <= m <= 99 -> sep = "/"%char \/ sep = "-"%char ->
  match_items (re_m :: ILit sep :: tail) (pad2 m ++ String sep rest)
  = if (1 <=? m) && (m <=? 12)
    then capture "m" (pad2 m) (match_items tail rest) else None.
Proof.
  intros Hd Hs. unfold re_m, capture.
  destruct (match_items tail rest) as [[caps r]|] eqn:Ht;
    small_cases m 0 99; destruct Hs as [-> | ->]; literal_text;
    repeat regex_search; reflexivity.
Qed.

Lemma match_day_unpadded (sep : ascii) (tail : list item) (rest r : string)
      (caps : list (ascii * string)) (d : Z) :
  1 <= d <= 31 -> sep = "/"%char \/ sep = "-"%char ->
  match_items tail rest = Some (caps, r) ->
  match_items (re_d :: ILit sep :: tail) (unpadded d ++ String sep rest)
  = Some (("d"%char, unpadded d) :: caps, r).
Proof.
  intros Hd Hs Ht. unfold re_d.
  small_cases d 1 31; destruct Hs as [-> | ->]; literal_text;
    repeat regex_search; reflexivity.
Qed.

Lemma match_month_unpadded (sep : ascii) (tail : list item) (rest r : string)
      (caps : list (ascii * string)) (m : Z) :
  1 <= m <= 12 -> sep = "/"%char \/ sep = "-"%char ->
  match_items tail rest = Some (caps, r) ->
  match_items (re_m :: ILit sep :: tail) (unpadded m ++ String sep rest)
  = Some (("m"%char, unpadded m) :: caps, r).
Proof.
  intros Hd Hs Ht. unfold re_m.
  small_cases m 1 12; destruct Hs as [-> | ->]; literal_text;
    repeat regex_search; reflexivity.
Qed.

(** a pattern with one separator does not match a text with the other *)
Lemma match_day_other_sep (sep sep' : ascii) (tail : list item)
      (rest : string) (d : Z) :
  0 <= d <= 99 ->
  sep = "/"%char /\ sep' = "-"%char \/ sep = "-"%char /\ sep' = "/"%char ->
  match_items (re_d :: ILit sep' :: tail) (pad2 d ++ String sep rest) = None.
Proof.
  intros Hd Hs. unfold re_d.
  small_cases d 0 99; destruct Hs as [[-> ->] | [-> ->]]; literal_text;
    repeat regex_search; reflexivity.
Qed.

Lemma match_day_unpadded_other_sep (sep sep' : ascii) (tail : list item)
      (rest : string) (d : Z) :
  1 <= d <= 31 ->
  sep = "/"%char /\ sep' = "-"%char \/ sep = "-"%char /\ sep' = "/"%char ->
  match_items (re_d :: ILit sep' :: tail) (unpadded d ++ String sep rest)
  = None.
Proof.
  intros Hd Hs. unfold re_d.
  small_cases d 1 31; destruct Hs as [[-> ->] | [-> ->]]; literal_text;
    repeat regex_search; reflexivity.
Qed.

Lemma match_year_then (y : Z) (s : string) :
  0 <= y <= 9999 ->
  match_items [re_Y] (pad4 y ++ s) = Some ([("Y"%char, pad4 y)], s).
Proof.
  intros H. unfold pad4, re_Y.
  destruct (isdigit_digit_char (y / 1000)) as (D3 & _);
    [Z.div_mod_to_equations; lia|].
  destruct (isdigit_digit_char (y / 100 mod 10)) as (D2 & _);
    [Z.div_mod_to_equations; lia|].
  destruct (isdigit_digit_char (y / 10 mod 10)) as (D1 & _);
    [Z.div_mod_to_equations; lia|].
  destruct (isdigit_digit_char (y mod 10)) as (D0 & _);
    [Z.div_mod_to_equations; lia|].
  cbn [String.append match_items match_alt cclass_matches].
  rewrite D3, D2, D1, D0. reflexivity.
Qed.

(** four digits are wanted for the year: two do not match *)
Lemma match_year_two_digits (yy : Z) : match_items [re_Y] (pad2 yy) = None.
Proof.
  unfold pad2, re_Y. cbn [match_items match_alt cclass_matches].
  destruct (PyStr.isdigit _); [|reflexivity].
  destruct (PyStr.isdigit _); reflexivity.
Qed.

Lemma pattern_of (sep : ascii) (fmt : string) :
  sep = "/"%char /\ fmt = "%d/%m/%Y" \/ sep = "-"%char /\ fmt = "%d-%m-%Y" ->
  pattern fmt = Ok [re_d; ILit sep; re_m; ILit sep; re_Y] /\
  (sep = "/"%char \/ sep = "-"%char).
Proof. intros [[-> ->] | [-> ->]]; split; auto. Qed.

(** [strptime] on a text of two, two and four digits with the separator
    of the format: the date of the fields if there is one. *)
Lemma strptime_fields (sep : ascii) (fmt : string) (y m d : Z) :
  0 <= y <= 9999 -> 0 <= m <= 99 -> 0 <= d <= 99 ->
  sep = "/"%char /\ fmt = "%d/%m/%Y" \/ sep = "-"%char /\ fmt = "%d-%m-%Y" ->
  is_ok (strptime (format_date sep (mkdt y m d)) fmt)
  = is_ok (PyDatetime.new y m d) /\
  forall dt, strptime (format_date sep (mkdt y m d)) fmt = Ok dt ->
             dt = mkdt y m d.
Proof.
  intros Hy Hm Hd Hs. destruct (pattern_of sep fmt Hs) as (P & Hs').
  unfold strptime. rewrite P. cbn [rbind]. unfold format_date.
  cbn [year month day].
  rewrite match_day_any by assumption.
  rewrite match_month_any by assumption.
  rewrite match_year by assumption.
  destruct (Z.leb_spec 1 d), (Z.leb_spec d 31), (Z.leb_spec 1 m),
    (Z.leb_spec m 12); cbn [andb capture is_ok].
  1: { unfold group_int. cbn [group Ascii.eqb Bool.eqb andb].
       rewrite int_pad4, int_pad2, int_pad2 by lia. cbn [rbind].
       split; [reflexivity|]. intros dt Hdt. apply new_inv in Hdt. tauto. }
  all: split; [|discriminate].
  all: unfold PyDatetime.new, check_date_fields.
  all: pose proof (days_in_month_le_31 y m) as B.
  all: repeat match goal with
         | |- context [negb ?b] =>
             let E := fresh in destruct b eqn:E; cbn [negb is_ok]; try reflexivity
         end.
  all: exfalso;
    repeat match goal with
      | H : (_ && _) = true |- _ => apply andb_true_iff in H; destruct H
      | H : (_ <=? _) = true |- _ => apply Z.leb_le in H
      end; unfold MINYEAR, MAXYEAR in *; try lia.
Qed.

Lemma strptime_other_sep (sep sep' : ascii) (fmt' : string) (y m d : Z)
      (s : string) :
  0 <= d <= 99 ->
  sep = "/"%char /\ sep' = "-"%char /\ fmt' = "%d-%m-%Y" \/
  sep = "-"%char /\ sep' = "/"%char /\ fmt' = "%d/%m/%Y" ->
  exists x, strptime (format_date sep (mkdt y m d) ++ s) fmt' = Raise x.
Proof.
  intros Hd Hs. unfold strptime.
  assert (pattern fmt' = Ok [re_d; ILit sep'; re_m; ILit sep'; re_Y]) as ->
      by (destruct Hs as [(_ & -> & ->) | (_ & -> & ->)]; reflexivity).
  cbn [rbind].
  assert ((format_date sep (mkdt y m d) ++ s)%string
          = (pad2 d ++ String sep (pad2 m ++ String sep (pad4 y ++ s)))%string)
    as -> by reflexivity.
  rewrite (match_day_other_sep sep sep') by tauto.
  eexists. reflexivity.
Qed.

Lemma parse_date_fields (sep : ascii) (y m d : Z) :
  0 <= y <= 9999 -> 0 <= m <= 99 -> 0 <= d <= 99 ->
  sep = "/"%char \/ sep = "-"%char ->
  parse_date (format_date sep (mkdt y m d))
  = match PyDatetime.new y m d with
    | Ok dt => Ok dt
    | Raise _ => Raise FORMAT_ERROR
    end.
Proof.
  intros Hy Hm Hd Hs. rewrite parse_date_eq.
  assert (forall s : string, (s ++ "")%string = s) as app_empty.
  { induction s as [|c s IH]; cbn; congruence. }
  destruct Hs as [-> | ->].
  - destruct (strptime_fields "/" "%d/%m/%Y" y m d Hy Hm Hd ltac:(auto))
      as [E F].
    destruct (strptime_other_sep "/" "-" "%d-%m-%Y" y m d "" Hd ltac:(auto))
      as (x & X). rewrite app_empty in X. rewrite X.
    destruct (strptime _ "%d/%m/%Y") as [x1 | dt];
      destruct (PyDatetime.new y m d) as [x2 | dt2] eqn:N; try discriminate.
    + reflexivity.
    + rewrite (F dt eq_refl). apply new_inv in N. destruct N as [-> _].
      reflexivity.
  - destruct (strptime_fields "-" "%d-%m-%Y" y m d Hy Hm Hd ltac:(auto))
      as [E F].
    destruct (strptime_other_sep "-" "/" "%d/%m/%Y" y m d "" Hd ltac:(auto))
      as (x & X). rewrite app_empty in X. rewrite X.
    destruct (strptime _ "%d-%m-%Y") as [x1 | dt];
      destruct (PyDatetime.new y m d) as [x2 | dt2] eqn:N; try discriminate.
    + reflexivity.
    + rewrite (F dt eq_refl). apply new_inv in N. destruct N as [-> _].
      reflexivity.
Qed.

Lemma parse_date_trailing (sep : ascii) (dt : datetime) (c : ascii)
      (s : string) :
  valid dt -> sep = "/"%char \/ sep = "-"%char ->
  parse_date (format_date sep dt ++ String c s) = Raise FORMAT_ERROR.
Proof.
  intros Hv Hs. pose proof Hv as (Hy & Hm & Hd).
  pose proof (days_in_month_le_31 (year dt) _ Hm) as H31.
  unfold MINYEAR, MAXYEAR in *.
  assert (forall fmt,
             sep = "/"%char /\ fmt = "%d/%m/%Y" \/
             sep = "-"%char /\ fmt = "%d-%m-%Y" ->
             exists x, strptime (format_date sep dt ++ String c s) fmt
                       = Raise x) as Same.
  { intros fmt Hf. destruct (pattern_of sep fmt Hf) as (P & _).
    unfold strptime. rewrite P. cbn [rbind].
    assert ((format_date sep dt ++ String c s)%string
            = (pad2 (day dt)
                ++ String sep (pad2 (month dt)
                                 ++ String sep (pad4 (year dt) ++ String c s)))
                %string) as -> by reflexivity.
    erewrite match_day; [| lia | assumption |].
    2: { apply match_month; [lia | assumption |].
         apply match_year_then. lia. }
    eexists. reflexivity. }
  assert (exists sep' fmt',
             (sep = "/"%char /\ sep' = "-"%char /\ fmt' = "%d-%m-%Y" \/
              sep = "-"%char /\ sep' = "/"%char /\ fmt' = "%d/%m/%Y")) as Oth.
  { destruct Hs as [-> | ->]; eexists _, _; [left | right]; eauto. }
  destruct Oth as (sep' & fmt' & Ho).
  destruct dt as [y m d]. cbn [year month day] in *.
  destruct (strptime_other_sep sep sep' fmt' y m d (String c s)
              ltac:(lia) Ho) as (x' & X').
  rewrite parse_date_eq.
  destruct Ho as [(-> & -> & ->) | (-> & -> & ->)].
  - destruct (Same "%d/%m/%Y" ltac:(auto)) as (x & X).
    rewrite X, X'. reflexivity.
  - destruct (Same "%d-%m-%Y" ltac:(auto)) as (x & X).
    rewrite X, X'. reflexivity.
Qed.

Lemma int_unpadded (n : Z) : 0 <= n <= 99 -> PyStr.int (unpadded n) = Ok n.
Proof.
  intros H. unfold unpadded. destruct (Z.ltb_spec n 10).
  - destruct (isdigit_digit_char n ltac:(lia)) as (D & V & S).
    unfold PyStr.int, PyStr.strip. cbn [PyStr.lstrip]. rewrite S.
    cbn [PyStr.rstrip]. rewrite S. cbn [PyStr.int_digits]. rewrite D, V.
    reflexivity.
  - apply int_pad2. assumption.
Qed.

Lemma strptime_unpadded (sep : ascii) (fmt : string) (dt : datetime) :
  valid dt ->
  sep = "/"%char /\ fmt = "%d/%m/%Y" \/ sep = "-"%char /\ fmt = "%d-%m-%Y" ->
  strptime (unpadded (day dt)
              ++ String sep (unpadded (month dt)
                               ++ String sep (pad4 (year dt)))) fmt
  = Ok dt.
Proof.
  intros Hv Hs. pose proof Hv as (Hy & Hm & Hd).
  pose proof (days_in_month_le_31 (year dt) _ Hm) as H31.
  unfold MINYEAR, MAXYEAR in *.
  destruct (pattern_of sep fmt Hs) as (P & Hs').
  unfold strptime. rewrite P. cbn [rbind].
  erewrite match_day_unpadded; [| lia | assumption |].
  2: { apply match_month_unpadded; [lia | assumption |].
       apply match_year. lia. }
  unfold group_int. cbn [group Ascii.eqb Bool.eqb andb].
  rewrite int_pad4, int_unpadded, int_unpadded by lia. cbn [rbind].
  destruct dt as [y m d]. apply new_ok. assumption.
Qed.

Lemma parse_date_unpadded (sep : ascii) (dt : datetime) :
  valid dt -> sep = "/"%char \/ sep = "-"%char ->
  parse_date (unpadded (day dt)
                ++ String sep (unpadded (month dt)
                                 ++ String sep (pad4 (year dt))))
  = Ok dt.
Proof.
  intros Hv Hs. pose proof Hv as (Hy & Hm & Hd).
  pose proof (days_in_month_le_31 (year dt) _ Hm) as H31.
  rewrite parse_date_eq. destruct Hs as [-> | ->].
  - rewrite (strptime_unpadded "/" "%d/%m/%Y" dt Hv) by auto. reflexivity.
  - assert (exists x,
               strptime (unpadded (day dt)
                           ++ String "-" (unpadded (month dt)
                                            ++ String "-" (pad4 (year dt))))
                        "%d/%m/%Y" = Raise x) as (x & ->).
    { unfold strptime.
      change (pattern "%d/%m/%Y")
        with (Ok [re_d; ILit "/"; re_m; ILit "/"; re_Y]).
      cbn [rbind].
      rewrite (match_day_unpadded_other_sep "-" "/") by (auto || lia).
      eexists. reflexivity. }
    rewrite (strptime_unpadded "-" "%d-%m-%Y" dt Hv) by auto. reflexivity.
Qed.

Lemma parse_date_two_digit_year (sep : ascii) (d m yy : Z) :
  0 <= d <= 99 -> 0 <= m <= 99 -> sep = "/"%char \/ sep = "-"%char ->
  parse_date (pad2 d ++ String sep (pad2 m ++ String sep (pad2 yy)))
  = Raise FORMAT_ERROR.
Proof.
  intros Hd Hm Hs.
  assert (forall sep',
             sep' = "/"%char \/ sep' = "-"%char ->
             match_items [re_d; ILit sep'; re_m; ILit sep'; re_Y]
               (pad2 d ++ String sep (pad2 m ++ String sep (pad2 yy)))
             = None) as N.
  { intros sep' Hs'.
    destruct (Ascii.eqb_spec sep sep') as [<- | Ne].
    - rewrite match_day_any, match_month_any, match_year_two_digits
        by assumption.
      destruct (_ && _); [|reflexivity]. destruct (_ && _); reflexivity.
    - apply match_day_other_sep; [assumption|].
      destruct Hs as [-> | ->], Hs' as [-> | ->]; auto; congruence. }
  rewrite parse_date_eq. unfold strptime.
  change (pattern "%d/%m/%Y") with (Ok [re_d; ILit "/"; re_m; ILit "/"; re_Y]).
  change (pattern "%d-%m-%Y") with (Ok [re_d; ILit "-"; re_m; ILit "-"; re_Y]).
  cbn [rbind]. rewrite !N by auto. reflexivity.
Qed.

(* ================================================================== *)
(** ** Anniversaries in a row of 52 weeks *)

(** From one year to the next the same month and day is 365 or 366 days
    later. *)
Lemma anniversary_step (y m d : Z) :
  365 <= ymd2ord (y + 1) m d - ymd2ord y m d <= 366.
Proof.
  unfold ymd2ord, days_before_month. rewrite days_before_year_succ.
  pose proof (is_leap_succ y) as L.
  destruct (is_leap y), (is_leap (y + 1)), (m >? 2);
    cbn [andb b2z]; try lia; specialize (L eq_refl); discriminate.
Qed.

Lemma anniversary_after (y m d : Z) (k : nat) :
  365 * Z.of_nat k <= ymd2ord (y + Z.of_nat k) m d - ymd2ord y m d
  <= 366 * Z.of_nat k.
Proof.
  induction k as [|k IH].
  - replace (y + Z.of_nat 0) with y by lia. lia.
  - pose proof (anniversary_step (y + Z.of_nat k) m d) as St.
    replace (y + Z.of_nat (S k)) with (y + Z.of_nat k + 1) by lia. lia.
Qed.

Lemma anniversary_gap (y1 y2 m d : Z) :
  y1 < y2 -> 365 <= ymd2ord y2 m d - ymd2ord y1 m d.
Proof.
  intros H. pose proof (anniversary_after y1 m d (Z.to_nat (y2 - y1))) as A.
  rewrite Z2Nat.id in A by lia. replace (y1 + (y2 - y1)) with y2 in A by lia.
  lia.
Qed.

(** In a row of 52 weeks that contains the anniversary of year [Y], the
    week of the anniversary is the one week for which [is_current_week]
    answers yes. *)
Lemma row_birthday (d : datetime) (m dd Y : Z) :
  valid d -> toordinal d + 364 <= SAFE_ORDINAL + 7 -> every_year m dd ->
  MINYEAR <= Y <= MAXYEAR ->
  toordinal d <= ymd2ord Y m dd < toordinal d + 364 ->
  forall c : Z,
    0 <= c < 52 ->
    is_current_week (fromordinal (toordinal d + 7 * c)) m dd
    = Ok (c =? (ymd2ord Y m dd - toordinal d) / 7).
Proof.
  intros Hv Hs He HY HA c Hc.
  pose proof (toordinal_range d Hv) as Hr.
  set (dc := fromordinal (toordinal d + 7 * c)).
  assert (valid dc) as Vc
      by (apply fromordinal_valid; unfold SAFE_ORDINAL, MAXORDINAL in *; lia).
  assert (toordinal dc = toordinal d + 7 * c) as Oc
      by (apply toordinal_fromordinal; lia).
  destruct (is_current_week_ok dc m dd Vc ltac:(lia) He) as (b & Eb).
  rewrite Eb. f_equal.
  pose proof (is_current_week_true_iff dc m dd b Vc Eb) as Hb.
  destruct (Z.eqb_spec c ((ymd2ord Y m dd - toordinal d) / 7)) as [Ec | Nc].
  - assert (valid (mkdt Y m dd)) as Vt
        by (apply new_ok, new_every_year; assumption).
    apply (is_current_week_finds dc (mkdt Y m dd) b Vc Vt); [|exact Eb].
    rewrite toordinal_mkdt, Oc.
    Z.div_mod_to_equations. lia.
  - destruct b; [exfalso|reflexivity].
    destruct Hb as [Hb _]. specialize (Hb eq_refl). rewrite Oc in Hb.
    assert (forall y', toordinal d + 7 * c <= ymd2ord y' m dd
                                 < toordinal d + 7 * c + 7 -> False) as No.
    { intros y' Hy'.
      destruct (Z.lt_trichotomy y' Y) as [L | [E | G]].
      - pose proof (anniversary_gap y' Y m dd L). lia.
      - subst y'. apply Nc. Z.div_mod_to_equations. lia.
      - pose proof (anniversary_gap Y y' m dd G). lia. }
    destruct Hb as [Hb | Hb]; eapply No; eassumption.
Qed.

(** With [fill_lived] off a week is BIRTHDAY exactly when
    [is_current_week] answers yes for the birthday. *)
Lemma cell_fill_off (e : env) (sd d : datetime) (b : bool) :
  is_current_week d (month sd) (day sd) = Ok b ->
  forall col, cell_fill e sd d false = Ok col ->
              (col = BIRTHDAY_COLOUR <-> b = true).
Proof.
  intros Eb col. unfold cell_fill. cbn [rbind]. rewrite Eb. cbn [rbind].
  destruct b.
  - intros [= <-]. tauto.
  - destruct (is_current_week d 1 1) as [|b2]; [discriminate|]. cbn [rbind].
    destruct b2; intros [= <-]; split; discriminate.
Qed.

Lemma row_holds_anniversary (a : datetime) (r : nat) :
  (r < 182)%nat ->
  toordinal a + 364 * Z.of_nat r
  <= ymd2ord (year a + Z.of_nat r) (month a) (day a)
  < toordinal a + 364 * Z.of_nat r + 364.
Proof.
  intros Hr. pose proof (anniversary_after (year a) (month a) (day a) r) as HA.
  unfold toordinal. lia.
Qed.

Lemma row_start (a : datetime) (r : nat) :
  valid a -> toordinal a + 364 * Z.of_nat r <= MAXORDINAL ->
  valid (fromordinal (toordinal a + 364 * Z.of_nat r)) /\
  toordinal (fromordinal (toordinal a + 364 * Z.of_nat r))
  = toordinal a + 364 * Z.of_nat r.
Proof.
  intros Va Hm. pose proof (toordinal_range a Va) as Ra. split.
  - apply fromordinal_valid. lia.
  - apply toordinal_fromordinal. lia.
Qed.

Lemma row_birthday_at (a : datetime) (r : nat) :
  valid a -> every_year (month a) (day a) ->
  toordinal a + 364 * Z.of_nat r + 364 <= SAFE_ORDINAL + 7 ->
  year a + Z.of_nat r <= MAXYEAR -> (r < 182)%nat ->
  forall c : nat, (c < 52)%nat ->
    is_current_week (cell_date a r c) (month a) (day a)
    = Ok (Z.of_nat c =? (ymd2ord (year a + Z.of_nat r) (month a) (day a)
                         - (toordinal a + 364 * Z.of_nat r)) / 7).
Proof.
  intros Va He Hs HY Hr c Hc.
  assert (toordinal a + 364 * Z.of_nat r <= MAXORDINAL) as Hm
      by (revert Hs; unfold SAFE_ORDINAL, MAXORDINAL; lia).
  destruct (row_start a r Va Hm) as [Vr Or].
  assert (MINYEAR <= year a + Z.of_nat r <= MAXYEAR) as HY'.
  { split; [|exact HY]. destruct Va as [Vy _]. unfold MINYEAR in *. lia. }
  pose proof (row_holds_anniversary a r Hr) as HA.
  rewrite <- Or in HA, Hs.
  pose proof (row_birthday _ (month a) (day a) (year a + Z.of_nat r)
                Vr Hs He HY' HA (Z.of_nat c) ltac:(lia)) as RB.
  rewrite Or in RB. exact RB.
Qed.

Lemma anchor_bounds (start_date a : datetime) :
  valid start_date -> year start_date <= 9900 -> valid a ->
  toordinal a = monday_ordinal start_date ->
  year a <= 9900 /\ toordinal a <= 3615900.
Proof.
  intros Hv Hy Va Oa.
  pose proof (monday_ordinal_range _ Hv) as Hm.
  pose proof (toordinal_year_bound _ 9900 Hv Hy) as Hb.
  assert (days_before_year (9900 + 1) = 3615900) as E by reflexivity.
  rewrite E in Hb.
  pose proof (year_mono a start_date Va Hv ltac:(lia)) as Ya.
  split; lia.
Qed.

Lemma grid_square_some (p : list cairo_op) (years : Z) (r c : nat) :
  List.length (squares p) = (3 + 52 * Z.to_nat years)%nat ->
  Z.of_nat r < years -> (c < 52)%nat ->
  exists col, grid_square p r c = Some col.
Proof.
  intros Ls Hr Hc. unfold grid_square.
  destruct (nth_error (squares p) (3 + 52 * r + c)) as [col|] eqn:N; [eauto|].
  apply nth_error_None in N. lia.
Qed.

Lemma birthday_once_a_row (e : env) (start_date : datetime) (title : string)
      (filename : option string) (years : Z) (w w' : world) (r : nat) :
  valid start_date -> year start_date <= 9900 ->
  anchor_is_leap_day start_date = false -> 0 <= years <= 88 ->
  gen_calendar e start_date title filename years false w = (Ok tt, w') ->
  (Z.of_nat r < years) ->
  exists c0 : nat, (c0 < 52)%nat /\
    forall c : nat, (c < 52)%nat ->
      (grid_square (page w') r c = Some BIRTHDAY_COLOUR <-> c = c0).
Proof.
  intros Hv Hy Hl Hyears H Hr.
  destruct (gen_calendar_page e start_date title filename years false w w' Hv H)
    as (a & Ea & Va & Oa & _ & Ls & _ & Fc).
  assert (leap_day a = false) as La.
  { revert Hl. unfold anchor_is_leap_day. rewrite Ea. exact (fun x => x). }
  pose proof (every_year_of_valid a Va La) as He.
  destruct (anchor_bounds start_date a Hv Hy Va Oa) as [Ya Ba].
  assert (toordinal a + 364 * Z.of_nat r + 364 <= SAFE_ORDINAL + 7) as Hs
      by (unfold SAFE_ORDINAL; lia).
  assert (year a + Z.of_nat r <= MAXYEAR) as HY by (unfold MAXYEAR; lia).
  pose proof (row_birthday_at a r Va He Hs HY ltac:(lia)) as RB.
  pose proof (row_holds_anniversary a r ltac:(lia)) as HA.
  remember ((ymd2ord (year a + Z.of_nat r) (month a) (day a)
             - (toordinal a + 364 * Z.of_nat r)) / 7) as z0 eqn:Ez.
  assert (0 <= z0 < 52) as Hz0 by (subst z0; Z.div_mod_to_equations; lia).
  exists (Z.to_nat z0). split; [lia|].
  intros c Hc.
  destruct (grid_square_some (page w') years r c Ls Hr Hc) as (col & Ecol).
  pose proof (cell_fill_off e a _ _ (RB c Hc) col (Fc r c col Hc Ecol)) as Hcol.
  rewrite Ecol. split.
  - intros [= E]. apply Hcol in E. apply Z.eqb_eq in E. lia.
  - intros ->. f_equal. apply Hcol. apply Z.eqb_eq. lia.
Qed.

Lemma cell_date_ok (a : datetime) (n r c : nat) :
  valid a -> toordinal a + 364 * Z.of_nat n <= MAXORDINAL ->
  (r < n)%nat -> (c < 52)%nat ->
  valid (cell_date a r c) /\
  toordinal (cell_date a r c)
  = toordinal a + 364 * Z.of_nat r + 7 * Z.of_nat c.
Proof.
  intros Va Hm Hr Hc. pose proof (toordinal_range a Va) as Ra.
  unfold cell_date. split.
  - apply fromordinal_valid. lia.
  - apply toordinal_fromordinal. lia.
Qed.

Lemma weekday_shift (a l : datetime) (k : Z) :
  weekday a = 0 -> toordinal l = toordinal a + 7 * k -> weekday l = 0.
Proof.
  unfold weekday. intros Ha ->. Z.div_mod_to_equations. lia.
Qed.

Lemma cell_fill_off_inv (e : env) (sd d : datetime) (col : colour) :
  cell_fill e sd d false = Ok col ->
  exists b, is_current_week d (month sd) (day sd) = Ok b /\
            (col = BIRTHDAY_COLOUR <-> b = true).
Proof.
  intros H.
  destruct (is_current_week d (month sd) (day sd)) as [x | b] eqn:Eb.
  - unfold cell_fill in H. cbn [rbind] in H. rewrite Eb in H. discriminate.
  - exists b. split; [reflexivity|]. exact (cell_fill_off e sd d b Eb col H).
Qed.

Lemma cell_fill_not_lived (e : env) (sd d : datetime) (fill_lived : bool) :
  valid (today e) -> valid d ->
  fill_lived && (toordinal d <? monday_ordinal (today e)) = false ->
  cell_fill e sd d fill_lived = cell_fill e sd d false.
Proof.
  intros Ht Hd L. destruct fill_lived; [|reflexivity]. cbn [andb] in L.
  unfold cell_fill. rewrite (is_week_in_past_eq e Ht d Hd), L. reflexivity.
Qed.

Lemma back_up_same_week (s1 s2 : datetime) :
  valid s1 -> valid s2 -> monday_ordinal s1 = monday_ordinal s2 ->
  back_up_to_monday s1 = back_up_to_monday s2.
Proof.
  intros V1 V2 H.
  destruct (back_up_to_monday_spec s1 V1) as (a1 & E1 & Va1 & O1).
  destruct (back_up_to_monday_spec s2 V2) as (a2 & E2 & Va2 & O2).
  rewrite E1, E2. f_equal. apply toordinal_inj; try assumption. congruence.
Qed.

Lemma gen_calendar_no_rows (e : env) (start_date a : datetime)
      (title : string) (filename : option string) (years : Z)
      (fill_lived : bool) (w : world) :
  (String.length title <= MAX_TITLE_SIZE)%nat ->
  back_up_to_monday start_date = Ok a -> years <= 0 ->
  exists pg,
    gen_calendar e start_date title filename years fill_lived w
    = (Ok tt, mkWorld pg (stdout w ++ [PdfBytes pg]) (files w) (lc_time w)) /\
    row_labels pg = [] /\
    squares pg = [BIRTHDAY_COLOUR; NEWYEAR_COLOUR; LIVED_COLOUR].
Proof.
  intros Hlen Ea Hy.
  rewrite (gen_calendar_run e start_date a) by assumption.
  set (w1 := mkWorld _ _ _ _).
  destruct (draw_grid_run e a years fill_lived w1) as (hs & Lh & Sh & Eg).
  replace (Z.to_nat years) with O in Eg by lia. cbn [draw_grid_loop] in Eg.
  unfold bind at 1. rewrite Eg.
  eexists. split; [reflexivity|].
  cbn [page with_page w1]. split.
  - rewrite !row_labels_app, Lh. reflexivity.
  - rewrite !squares_app, Sh. reflexivity.
Qed.

(* ================================================================== *)
(** ** The layout of the page and the marks of a row *)

Lemma draw_headers_numbers (n : nat) :
  forall (i : Z) (w : world),
    draw_headers n i w
    = (Ok tt,
       with_page w (map (fun k => ShowText (Number (i + Z.of_nat k + 1)))
                        (seq 0 n))).
Proof.
  induction n as [|n IH]; intros i w.
  - cbn. rewrite with_page_nil. reflexivity.
  - cbn [draw_headers]. unfold bind. rewrite emit_run, IH, with_page_app.
    cbn [seq map app]. rewrite <- seq_shift, map_map.
    replace (i + Z.of_nat 0 + 1) with (i + 1) by lia.
    do 3 f_equal. apply map_ext. intros k. do 2 f_equal. lia.
Qed.

Lemma draw_grid_prefix (e : env) (date : datetime) (years : Z)
      (fill_lived : bool) (w : world) :
  draw_grid e date years fill_lived w
  = draw_grid_loop e (Z.to_nat years) date date fill_lived
                   (with_page w (KEY_OPS ++ HEADER_OPS)).
Proof.
  unfold KEY_OPS, HEADER_OPS.
  unfold draw_grid, draw_key_item, draw_square, bind.
  repeat rewrite emit_run. repeat rewrite with_page_app. cbn [app].
  rewrite draw_headers_numbers, with_page_app. reflexivity.
Qed.

Lemma gen_calendar_layout (e : env) (start_date : datetime) (title : string)
      (filename : option string) (years : Z) (fill_lived : bool)
      (w w' : world) :
  valid start_date ->
  gen_calendar e start_date title filename years fill_lived w = (Ok tt, w') ->
  exists rows,
    page w'
    = [FillBackground; ShowText (Str title)] ++ KEY_OPS ++ HEADER_OPS
      ++ rows ++ [ShowPage].
Proof.
  intros Hv H.
  destruct (back_up_to_monday_spec start_date Hv) as (a & Ea & Va & Oa).
  destruct (Nat.ltb_spec MAX_TITLE_SIZE (String.length title)) as [L | L].
  { rewrite gen_calendar_title_too_long in H by assumption. discriminate. }
  rewrite (gen_calendar_run e start_date a) in H by assumption.
  apply bind_inv_ok in H. destruct H as ([] & w2 & Hg & H).
  rewrite draw_grid_prefix in Hg.
  apply draw_grid_loop_inv in Hg; [|assumption].
  destruct Hg as (ops & -> & _).
  exists ops.
  unfold bind, emit, getvalue, write_stdout, with_page in H.
  cbn [page stdout files lc_time] in H. injection H as <-.
  cbn [page]. rewrite <- ?app_assoc. reflexivity.
Qed.

Lemma cell_fill_birthday_inv (e : env) (sd d : datetime) (fill_lived : bool) :
  cell_fill e sd d fill_lived = Ok BIRTHDAY_COLOUR ->
  is_current_week d (month sd) (day sd) = Ok true.
Proof.
  unfold cell_fill.
  destruct (if fill_lived then is_week_in_past e d else Ok false)
    as [x | lived]; [discriminate|]. cbn [rbind].
  destruct lived; [discriminate|].
  destruct (is_current_week d (month sd) (day sd)) as [x | b];
    [discriminate|]. cbn [rbind].
  destruct b; [reflexivity|].
  destruct (is_current_week d 1 1) as [x | b2]; [discriminate|]. cbn [rbind].
  destruct b2; discriminate.
Qed.

Lemma cell_fill_newyear_inv (e : env) (sd d : datetime) (fill_lived : bool) :
  cell_fill e sd d fill_lived = Ok NEWYEAR_COLOUR ->
  is_current_week d 1 1 = Ok true /\
  is_current_week d (month sd) (day sd) = Ok false.
Proof.
  unfold cell_fill.
  destruct (if fill_lived then is_week_in_past e d else Ok false)
    as [x | lived]; [discriminate|]. cbn [rbind].
  destruct lived; [discriminate|].
  destruct (is_current_week d (month sd) (day sd)) as [x | b];
    [discriminate|]. cbn [rbind].
  destruct b; [discriminate|].
  destruct (is_current_week d 1 1) as [x | b2]; [discriminate|]. cbn [rbind].
  destruct b2; [split; reflexivity | discriminate].
Qed.

(** Two weeks less than 52 weeks apart do not both hold the same day of
    the year. *)
Lemma week_of_day_unique (d1 d2 : datetime) (m dd : Z) :
  valid d1 -> valid d2 ->
  toordinal d1 + 7 <= toordinal d2 -> toordinal d2 + 7 <= toordinal d1 + 364 ->
  is_current_week d1 m dd = Ok true -> is_current_week d2 m dd = Ok true ->
  False.
Proof.
  intros V1 V2 L U E1 E2.
  assert (exists y1, toordinal d1 <= ymd2ord y1 m dd < toordinal d1 + 7)
    as (y1 & H1).
  { destruct (proj1 (is_current_week_true_iff d1 m dd true V1 E1) eq_refl);
      eauto. }
  assert (exists y2, toordinal d2 <= ymd2ord y2 m dd < toordinal d2 + 7)
    as (y2 & H2).
  { destruct (proj1 (is_current_week_true_iff d2 m dd true V2 E2) eq_refl);
      eauto. }
  destruct (Z.lt_trichotomy y1 y2) as [Lt | [Eq | Gt]].
  - pose proof (anniversary_gap y1 y2 m dd Lt). lia.
  - subst y2. lia.
  - pose proof (anniversary_gap y2 y1 m dd Gt). lia.
Qed.

Lemma one_mark_a_row (e : env) (start_date : datetime) (title : string)
      (filename : option string) (years : Z) (fill_lived : bool)
      (w w' : world) (r c1 c2 : nat) (col : colour) :
  valid start_date ->
  gen_calendar e start_date title filename years fill_lived w = (Ok tt, w') ->
  col = BIRTHDAY_COLOUR \/ col = NEWYEAR_COLOUR ->
  (c1 < c2)%nat -> (c2 < 52)%nat ->
  grid_square (page w') r c1 = Some col ->
  grid_square (page w') r c2 = Some col -> False.
Proof.
  intros Hv H Hcol L12 L2 G1 G2.
  destruct (gen_calendar_page e start_date title filename years fill_lived
              w w' Hv H) as (a & Ea & Va & Oa & _ & Ls & Hm & Fc).
  assert (r < Z.to_nat years)%nat as Hr.
  { assert (nth_error (squares (page w')) (3 + 52 * r + c2) <> None) as N
        by (unfold grid_square in G2; congruence).
    apply nth_error_Some in N. lia. }
  destruct (cell_date_ok a (Z.to_nat years) r c1 Va Hm Hr ltac:(lia))
    as [V1 O1].
  destruct (cell_date_ok a (Z.to_nat years) r c2 Va Hm Hr ltac:(lia))
    as [V2 O2].
  pose proof (Fc r c1 col ltac:(lia) G1) as F1.
  pose proof (Fc r c2 col ltac:(lia) G2) as F2.
  destruct Hcol as [-> | ->].
  - apply cell_fill_birthday_inv in F1, F2.
    apply (week_of_day_unique _ _ _ _ V1 V2 ltac:(lia) ltac:(lia) F1 F2).
  - apply cell_fill_newyear_inv in F1, F2.
    destruct F1 as [F1 _], F2 as [F2 _].
    apply (week_of_day_unique _ _ _ _ V1 V2 ltac:(lia) ltac:(lia) F1 F2).
Qed.

Lemma lived_squares (e : env) (start_date : datetime) (title : string)
      (filename : option string) (years : Z) (fill_lived : bool)
      (w w' : world) (r c : nat) :
  valid (today e) -> valid start_date ->
  gen_calendar e start_date title filename years fill_lived w = (Ok tt, w') ->
  Z.of_nat r < years -> (c < 52)%nat ->
  (grid_square (page w') r c = Some LIVED_COLOUR <->
   fill_lived = true /\
   monday_ordinal start_date + 7 * (52 * Z.of_nat r + Z.of_nat c)
   < monday_ordinal (today e)).
Proof.
  intros Ht Hv H Hr Hc.
  destruct (gen_calendar_page e start_date title filename years fill_lived
              w w' Hv H) as (a & Ea & Va & Oa & _ & Ls & Hm & Fc).
  destruct (cell_date_ok a (Z.to_nat years) r c Va Hm ltac:(lia) Hc)
    as [Vc Oc].
  destruct (grid_square_some (page w') years r c Ls Hr Hc) as (col & Ecol).
  pose proof (Fc r c col Hc Ecol) as Ef.
  pose proof (cell_fill_lived_iff e a (cell_date a r c) fill_lived Ht Vc) as I.
  rewrite Oc, Oa in I. rewrite Ecol. split.
  - intros [= ->]. destruct (proj1 I Ef) as [F P]. split; [exact F | lia].
  - intros [F P]. f_equal.
    assert (cell_fill e a (cell_date a r c) fill_lived = Ok LIVED_COLOUR) as El
        by (apply I; split; [exact F | lia]).
    congruence.
Qed.

(* ================================================================== *)
(** ** The properties *)

(** X1.  When [is_current_week] returns, it returns [True] exactly when
    some date with the given month and day falls in the seven days that
    start at [now]. *)
Theorem current_week_holds_the_day (now : datetime) (m d : Z) (b : bool) :
  valid now -> is_current_week now m d = Ok b ->
  (b = true <->
   exists t, valid t /\ month t = m /\ day t = d /\
             toordinal now <= toordinal t < toordinal now + 7).
Proof.
  intros Hv E. split.
  - intros Hb.
    assert (is_ok (is_current_week now m d) = true) as R
        by (rewrite E; reflexivity).
    apply (is_current_week_returns now m d Hv) in R.
    destruct R as (_ & V1 & V2).
    apply (is_current_week_true_iff now m d b Hv E) in Hb.
    destruct Hb as [Hb | Hb].
    + exists (mkdt (year now) m d). rewrite toordinal_mkdt. auto.
    + exists (mkdt (year now + 1) m d). rewrite toordinal_mkdt. auto.
  - intros (t & Vt & <- & <- & Ht).
    exact (is_current_week_finds now t b Hv Vt Ht E).
Qed.

Lemma current_week_holds_the_day_witness :
  is_current_week (mkdt 1993 3 8) 3 12 = Ok true /\
  exists t, valid t /\ month t = 3 /\ day t = 12 /\
            toordinal (mkdt 1993 3 8) <= toordinal t
            < toordinal (mkdt 1993 3 8) + 7.
Proof.
  assert (is_current_week (mkdt 1993 3 8) 3 12 = Ok true) as E
      by (vm_compute; reflexivity).
  split; [exact E|].
  apply (current_week_holds_the_day (mkdt 1993 3 8) 3 12 true
           ltac:(valid_date) E).
  reflexivity.
Defined.

(** X2.  [is_current_week] returns exactly when the week of [now] ends
    within the range of dates and the month and day make a date both in
    the year of [now] and in the year after; so it raises for every
    [now] in the year 9999. *)
Theorem current_week_returns_iff (now : datetime) (m d : Z) :
  valid now ->
  (is_ok (is_current_week now m d) = true <->
   toordinal now + 7 <= MAXORDINAL /\
   valid (mkdt (year now) m d) /\ valid (mkdt (year now + 1) m d)) /\
  (year now = MAXYEAR -> is_ok (is_current_week now m d) = false).
Proof.
  intros Hv. pose proof (is_current_week_returns now m d Hv) as R.
  split; [exact R|]. intros Hy.
  destruct (is_ok (is_current_week now m d)); [|reflexivity].
  destruct R as [R _]. destruct (R eq_refl) as (_ & _ & (Hy' & _)).
  cbn [year] in Hy'. lia.
Qed.

Lemma current_week_returns_iff_witness :
  is_ok (is_current_week (mkdt 1993 3 8) 2 29) = false /\
  is_ok (is_current_week (mkdt 9999 1 4) 1 6) = false.
Proof.
  split.
  - reflexivity.
  - apply (current_week_returns_iff (mkdt 9999 1 4) 1 6 ltac:(valid_date)).
    reflexivity.
Defined.

(** X3.  With a current date that is a date, [is_week_in_past] never
    raises: it returns [True] exactly for the dates before the Monday of
    the current week, hence [False] for the current date and every later
    one. *)
Theorem past_is_before_this_monday (e : env) (date : datetime) :
  valid (today e) -> valid date ->
  exists b,
    is_week_in_past e date = Ok b /\
    (b = true <-> toordinal date < toordinal (today e) - weekday (today e)) /\
    (toordinal (today e) <= toordinal date -> b = false).
Proof.
  intros Ht Hd. rewrite (is_week_in_past_eq e Ht date Hd).
  eexists. split; [reflexivity|]. unfold monday_ordinal.
  pose proof (weekday_range (today e)) as W. split.
  - apply Z.ltb_lt.
  - intros L. apply Z.ltb_ge. lia.
Qed.

Lemma past_is_before_this_monday_witness :
  exists b,
    is_week_in_past env_2024 (mkdt 2023 12 31) = Ok b /\
    (b = true <->
     toordinal (mkdt 2023 12 31)
     < toordinal (today env_2024) - weekday (today env_2024)) /\
    (toordinal (today env_2024) <= toordinal (mkdt 2023 12 31) -> b = false).
Proof.
  exact (past_is_before_this_monday env_2024 (mkdt 2023 12 31)
           ltac:(valid_date) ltac:(valid_date)).
Defined.

(** X4.  The chain of [draw_row] gives a week the LIVED fill exactly when
    [fill_lived] is on and the week starts before the Monday of the
    current week; without the option no week is LIVED. *)
Theorem lived_needs_option_and_past (e : env) (start_date date : datetime)
        (fill_lived : bool) :
  valid (today e) -> valid date ->
  (cell_fill e start_date date fill_lived = Ok LIVED_COLOUR <->
   fill_lived = true /\ toordinal date < monday_ordinal (today e)).
Proof. apply cell_fill_lived_iff. Qed.

Lemma lived_needs_option_and_past_witness :
  cell_fill env_2024 (mkdt 1990 3 12) (mkdt 1993 3 8) true = Ok LIVED_COLOUR /\
  cell_fill env_2024 (mkdt 1990 3 12) (mkdt 1993 3 8) false
  <> Ok LIVED_COLOUR.
Proof.
  pose proof (lived_needs_option_and_past env_2024 (mkdt 1990 3 12)
                (mkdt 1993 3 8)) as H.
  split.
  - apply (H true ltac:(valid_date) ltac:(valid_date)).
    split; [reflexivity | vm_compute; reflexivity].
  - intros E. apply (H false ltac:(valid_date) ltac:(valid_date)) in E.
    destruct E as [E _]. discriminate E.
Defined.

(** X5.  With [fill_lived] off, [gen_calendar] does not depend on the
    current date: the same page, the same output and the same exceptions
    in any two environments. *)
Theorem calendar_without_fill_ignores_today (e1 e2 : env)
        (start_date : datetime) (title : string) (filename : option string)
        (years : Z) (w : world) :
  gen_calendar e1 start_date title filename years false w
  = gen_calendar e2 start_date title filename years false w.
Proof. apply gen_calendar_off_env. Qed.

(** X6.  In a run of [gen_calendar] that returns, with at least one row,
    the first square of the grid is LIVED when [fill_lived] is on and the
    week of the start date is before the current week, and BIRTHDAY
    otherwise. *)
Theorem first_square_is_birthday_or_lived (e : env) (start_date : datetime)
        (title : string) (filename : option string) (years : Z)
        (fill_lived : bool) (w w' : world) :
  valid (today e) -> valid start_date -> 1 <= years ->
  gen_calendar e start_date title filename years fill_lived w = (Ok tt, w') ->
  grid_square (page w') 0 0
  = Some (if fill_lived
             && (monday_ordinal start_date <? monday_ordinal (today e))
          then LIVED_COLOUR else BIRTHDAY_COLOUR).
Proof.
  intros Ht Hv Hy H.
  destruct (gen_calendar_page e start_date title filename years fill_lived
              w w' Hv H) as (a & Ea & Va & Oa & _ & Ls & _ & Fc).
  destruct (grid_square_some (page w') years 0 0 Ls ltac:(lia) ltac:(lia))
    as (col & Ecol).
  pose proof (Fc 0%nat 0%nat col ltac:(lia) Ecol) as Ef.
  assert (cell_date a 0 0 = a) as Ed.
  { unfold cell_date.
    replace (toordinal a + 364 * Z.of_nat 0 + 7 * Z.of_nat 0)
      with (toordinal a) by lia.
    apply fromordinal_toordinal. assumption. }
  rewrite Ed in Ef. rewrite Ecol, <- Oa. f_equal.
  destruct (fill_lived && (toordinal a <? monday_ordinal (today e))) eqn:L.
  - apply andb_true_iff in L. destruct L as [-> L]. apply Z.ltb_lt in L.
    rewrite (cell_fill_lived e Ht a a Va L) in Ef. congruence.
  - rewrite (cell_fill_not_lived e a a fill_lived Ht Va L) in Ef.
    apply cell_fill_off_inv in Ef. destruct Ef as (b & Eb & Hb).
    apply Hb. apply (is_current_week_finds a a b Va Va); [lia | exact Eb].
Qed.

Lemma first_square_is_birthday_or_lived_witness :
  grid_square
    (page (snd (gen_calendar env_2024 (mkdt 1990 3 15) DEFAULT_TITLE None 1
                  false w0))) 0 0
  = Some BIRTHDAY_COLOUR.
Proof.
  apply (first_square_is_birthday_or_lived env_2024 (mkdt 1990 3 15)
           DEFAULT_TITLE None 1 false w0).
  - valid_date.
  - valid_date.
  - lia.
  - vm_compute. reflexivity.
Defined.

(** X7.  In a run of [gen_calendar] that returns there is one row label
    for each year, every label is a Monday, and the label of row [r] is
    52 weeks times [r] after the Monday of the week of the start date. *)
Theorem row_labels_are_mondays (e : env) (start_date : datetime)
        (title : string) (filename : option string) (years : Z)
        (fill_lived : bool) (w w' : world) :
  valid start_date ->
  gen_calendar e start_date title filename years fill_lived w = (Ok tt, w') ->
  List.length (row_labels (page w')) = Z.to_nat years /\
  forall (r : nat) (l : datetime),
    nth_error (row_labels (page w')) r = Some l ->
    valid l /\ weekday l = 0 /\
    toordinal l = monday_ordinal start_date + 364 * Z.of_nat r.
Proof.
  intros Hv H.
  destruct (gen_calendar_page e start_date title filename years fill_lived
              w w' Hv H) as (a & Ea & Va & Oa & Lr & _ & Hm & _).
  rewrite Lr. split; [rewrite List.length_map, List.length_seq; reflexivity|].
  intros r l Hl.
  assert (r < Z.to_nat years)%nat as Hr.
  { assert (nth_error (map (fun r => cell_date a r 0)
                           (seq 0 (Z.to_nat years))) r <> None) as N
        by congruence.
    apply nth_error_Some in N.
    rewrite List.length_map, List.length_seq in N. exact N. }
  rewrite nth_error_map, nth_error_seq in Hl.
  replace (r <? Z.to_nat years)%nat with true in Hl
    by (symmetry; apply Nat.ltb_lt; assumption).
  cbn in Hl. injection Hl as <-.
  destruct (cell_date_ok a (Z.to_nat years) r 0 Va Hm Hr ltac:(lia))
    as [Vc Oc].
  split; [assumption|]. split.
  - apply (weekday_shift a _ (52 * Z.of_nat r)).
    + eapply weekday_monday_ordinal. eassumption.
    + rewrite Oc. lia.
  - rewrite Oc, Oa. lia.
Qed.

Lemma row_labels_are_mondays_witness :
  List.length
    (row_labels
       (page (snd (gen_calendar env_2024 (mkdt 1990 3 15) DEFAULT_TITLE None 2
                     false w0))))
  = 2%nat.
Proof.
  apply (row_labels_are_mondays env_2024 (mkdt 1990 3 15) DEFAULT_TITLE None 2
           false w0).
  - valid_date.
  - vm_compute. reflexivity.
Defined.

(** X8.  In a run of [gen_calendar] that returns, the page has the three
    squares of the key and 52 squares for each year; the square in row
    [r] and column [c] is the week that starts 52 weeks times [r] plus
    [c] weeks after the Monday backed up to, and its fill is what the
    chain of [draw_row] gives for that week, with the Monday as
    [start_date]. *)
Theorem grid_squares_are_the_weeks (e : env) (start_date : datetime)
        (title : string) (filename : option string) (years : Z)
        (fill_lived : bool) (w w' : world) :
  valid start_date ->
  gen_calendar e start_date title filename years fill_lived w = (Ok tt, w') ->
  exists a,
    back_up_to_monday start_date = Ok a /\
    List.length (squares (page w')) = (3 + 52 * Z.to_nat years)%nat /\
    forall r c : nat,
      Z.of_nat r < years -> (c < 52)%nat ->
      valid (cell_date a r c) /\
      toordinal (cell_date a r c)
      = toordinal a + 364 * Z.of_nat r + 7 * Z.of_nat c /\
      exists col,
        grid_square (page w') r c = Some col /\
        cell_fill e a (cell_date a r c) fill_lived = Ok col.
Proof.
  intros Hv H.
  destruct (gen_calendar_page e start_date title filename years fill_lived
              w w' Hv H) as (a & Ea & Va & Oa & _ & Ls & Hm & Fc).
  exists a. split; [assumption|]. split; [assumption|].
  intros r c Hr Hc.
  destruct (cell_date_ok a (Z.to_nat years) r c Va Hm ltac:(lia) Hc)
    as [Vc Oc].
  split; [assumption|]. split; [assumption|].
  destruct (grid_square_some (page w') years r c Ls Hr Hc) as (col & Ecol).
  exists col. split; [assumption|]. apply Fc; assumption.
Qed.

Lemma grid_squares_are_the_weeks_witness :
  exists a,
    back_up_to_monday (mkdt 1990 3 15) = Ok a /\
    List.length
      (squares
         (page (snd (gen_calendar env_2024 (mkdt 1990 3 15) DEFAULT_TITLE None
                       1 false w0))))
    = 55%nat.
Proof.
  destruct (grid_squares_are_the_weeks env_2024 (mkdt 1990 3 15) DEFAULT_TITLE
              None 1 false w0 _ ltac:(valid_date)
              ltac:(vm_compute; reflexivity)) as (a & Ea & L & _).
  exists a. split; [exact Ea | exact L].
Defined.

(** X9.  [gen_calendar] writes all or nothing: whatever it is given, it
    leaves the files and the locale as they were; when it returns it has
    written the finished page, once, to the standard output; when it
    raises it has written nothing. *)
Theorem render_writes_all_or_nothing (e : env) (start_date : datetime)
        (title : string) (filename : option string) (years : Z)
        (fill_lived : bool) (w : world) :
  exists r w',
    gen_calendar e start_date title filename years fill_lived w = (r, w') /\
    files w' = files w /\ lc_time w' = lc_time w /\
    match r with
    | Ok _ => stdout w' = stdout w ++ [PdfBytes (page w')]
    | Raise _ => stdout w' = stdout w
    end.
Proof. apply gen_calendar_io. Qed.

(** X10.  [main] raises only when the locale is not available, and then
    before anything is written.  Otherwise it returns, having set the
    locale and written exactly one thing to the standard output: the
    format error message when the date does not parse, else the document
    when the render returns, else the message of the exception of the
    render. *)
Theorem main_prints_document_or_error (e : env) (a : args) (w : world) :
  if locale_available e (arg_locale a)
  then exists out pg,
      main e a w
      = (Ok tt, mkWorld pg (stdout w ++ [out]) (files w) (arg_locale a)) /\
      match parse_date (arg_date a) with
      | Raise _ =>
          out = PrintLine ("Error: " ++ exn_message FORMAT_ERROR) /\
          pg = page w
      | Ok start_date =>
          match fst (gen_calendar e start_date (arg_title a) None
                       (Z.max 1 (Z.min 88 (arg_years a))) (arg_fill_lived a)
                       (mkWorld (page w) (stdout w) (files w) (arg_locale a)))
          with
          | Ok _ => out = PdfBytes pg
          | Raise x => out = PrintLine ("Error: " ++ exn_message x)
          end
      end
  else main e a w
       = (Raise (LocaleError "unsupported locale setting"), w).
Proof. apply main_run. Qed.

(** X11.  A text of two digits, a separator, two digits, the same
    separator and four digits is parsed to the date of its day, month and
    year when there is such a date, and refused with the format error
    when there is none (a day 31 in February, a month 13, the year
    0000). *)
Theorem parse_date_accepts_dates_only (sep : ascii) (y m d : Z) :
  0 <= y <= 9999 -> 0 <= m <= 99 -> 0 <= d <= 99 ->
  sep = "/"%char \/ sep = "-"%char ->
  parse_date (format_date sep (mkdt y m d))
  = match PyDatetime.new y m d with
    | Ok dt => Ok dt
    | Raise _ => Raise FORMAT_ERROR
    end.
Proof. apply parse_date_fields. Qed.

Lemma parse_date_accepts_dates_only_witness :
  format_date "/" (mkdt 1990 2 31) = "31/02/1990" /\
  parse_date "31/02/1990" = Raise FORMAT_ERROR /\
  format_date "-" (mkdt 0 1 1) = "01-01-0000" /\
  parse_date "01-01-0000" = Raise FORMAT_ERROR.
Proof.
  split; [reflexivity|]. split; [|split; [reflexivity|]].
  - exact (parse_date_accepts_dates_only "/" 1990 2 31 ltac:(lia) ltac:(lia)
             ltac:(lia) (or_introl eq_refl)).
  - exact (parse_date_accepts_dates_only "-" 0 1 1 ltac:(lia) ltac:(lia)
             ltac:(lia) (or_intror eq_refl)).
Defined.

(** X12.  Text after the date is refused: a date written in one of the
    accepted patterns and followed by at least one more character raises
    the format error. *)
Theorem parse_date_refuses_trailing_text (sep : ascii) (dt : datetime)
        (c : ascii) (s : string) :
  valid dt -> sep = "/"%char \/ sep = "-"%char ->
  parse_date (format_date sep dt ++ String c s) = Raise FORMAT_ERROR.
Proof. apply parse_date_trailing. Qed.

Lemma parse_date_refuses_trailing_text_witness :
  parse_date "15/03/1990 " = Raise FORMAT_ERROR.
Proof.
  exact (parse_date_refuses_trailing_text "/" (mkdt 1990 3 15) " " ""
           ltac:(valid_date) (or_introl eq_refl)).
Defined.

(** X13.  The day and the month need no leading zero: every date written
    with its day and month as plain numbers and its year in four digits
    is parsed to itself. *)
Theorem parse_date_accepts_unpadded (sep : ascii) (dt : datetime) :
  valid dt -> sep = "/"%char \/ sep = "-"%char ->
  parse_date (unpadded (day dt)
                ++ String sep (unpadded (month dt)
                                 ++ String sep (pad4 (year dt))))
  = Ok dt.
Proof. apply parse_date_unpadded. Qed.

Lemma parse_date_accepts_unpadded_witness :
  parse_date "5/3/1990" = Ok (mkdt 1990 3 5).
Proof.
  exact (parse_date_accepts_unpadded "/" (mkdt 1990 3 5) ltac:(valid_date)
           (or_introl eq_refl)).
Defined.

(** X14.  A year of two digits is refused, whatever the day and the
    month are. *)
Theorem parse_date_refuses_short_year (sep : ascii) (d m yy : Z) :
  0 <= d <= 99 -> 0 <= m <= 99 -> 0 <= yy <= 99 ->
  sep = "/"%char \/ sep = "-"%char ->
  parse_date (pad2 d ++ String sep (pad2 m ++ String sep (pad2 yy)))
  = Raise FORMAT_ERROR.
Proof. intros Hd Hm _ Hs. apply parse_date_two_digit_year; assumption. Qed.

Lemma parse_date_refuses_short_year_witness :
  parse_date "15/03/90" = Raise FORMAT_ERROR.
Proof.
  exact (parse_date_refuses_short_year "/" 15 3 90 ltac:(lia) ltac:(lia)
           ltac:(lia) (or_introl eq_refl)).
Defined.

(** X15.  [gen_calendar] uses the start date only through the Monday of
    its week: two start dates of the same week give the same run. *)
Theorem same_week_same_calendar (e : env) (s1 s2 : datetime)
        (title : string) (filename : option string) (years : Z)
        (fill_lived : bool) (w : world) :
  valid s1 -> valid s2 ->
  toordinal s1 - weekday s1 = toordinal s2 - weekday s2 ->
  gen_calendar e s1 title filename years fill_lived w
  = gen_calendar e s2 title filename years fill_lived w.
Proof.
  intros V1 V2 H.
  pose proof (back_up_same_week s1 s2 V1 V2 H) as B.
  destruct (Nat.ltb_spec MAX_TITLE_SIZE (String.length title)) as [L | L].
  - rewrite !gen_calendar_title_too_long by assumption. reflexivity.
  - destruct (back_up_to_monday_spec s1 V1) as (a & E1 & _).
    rewrite (gen_calendar_run e s1 a) by assumption.
    rewrite (gen_calendar_run e s2 a) by congruence.
    reflexivity.
Qed.

Lemma same_week_same_calendar_witness :
  gen_calendar env_2024 (mkdt 1990 3 15) DEFAULT_TITLE None 1 false w0
  = gen_calendar env_2024 (mkdt 1990 3 18) DEFAULT_TITLE None 1 false w0.
Proof.
  apply (same_week_same_calendar env_2024 (mkdt 1990 3 15) (mkdt 1990 3 18)).
  - valid_date.
  - valid_date.
  - vm_compute. reflexivity.
Defined.

(** X16.  With [fill_lived] off, every row of a run that returns has
    exactly one BIRTHDAY square (for a start year up to 9900, a Monday
    backed up to that is no 29 February, and at most 88 rows). *)
Theorem one_birthday_square_a_row (e : env) (start_date : datetime)
        (title : string) (filename : option string) (years : Z)
        (w w' : world) (r : nat) :
  valid start_date -> year start_date <= 9900 ->
  anchor_is_leap_day start_date = false -> 0 <= years <= 88 ->
  gen_calendar e start_date title filename years false w = (Ok tt, w') ->
  Z.of_nat r < years ->
  exists c0 : nat, (c0 < 52)%nat /\
    forall c : nat, (c < 52)%nat ->
      (grid_square (page w') r c = Some BIRTHDAY_COLOUR <-> c = c0).
Proof. apply birthday_once_a_row. Qed.

Lemma one_birthday_square_a_row_witness :
  exists c0 : nat, (c0 < 52)%nat /\
    forall c : nat, (c < 52)%nat ->
      (grid_square
         (page (snd (gen_calendar env_2024 (mkdt 1990 3 15) DEFAULT_TITLE None
                       2 false w0))) 1 c
       = Some BIRTHDAY_COLOUR <-> c = c0).
Proof.
  apply (one_birthday_square_a_row env_2024 (mkdt 1990 3 15) DEFAULT_TITLE
           None 2 w0).
  - valid_date.
  - cbn [year]. lia.
  - vm_compute. reflexivity.
  - lia.
  - vm_compute. reflexivity.
  - cbn. lia.
Defined.

(** X17.  Called with a number of years of zero or less, [gen_calendar]
    draws no row: it returns, for every start date, with a page that has
    the three squares of the key and no row label. *)
Theorem no_rows_without_years (e : env) (start_date : datetime)
        (title : string) (filename : option string) (years : Z)
        (fill_lived : bool) (w : world) :
  valid start_date -> (String.length title <= MAX_TITLE_SIZE)%nat ->
  years <= 0 ->
  exists pg,
    gen_calendar e start_date title filename years fill_lived w
    = (Ok tt, mkWorld pg (stdout w ++ [PdfBytes pg]) (files w) (lc_time w)) /\
    row_labels pg = [] /\
    squares pg = [BIRTHDAY_COLOUR; NEWYEAR_COLOUR; LIVED_COLOUR].
Proof.
  intros Hv Hlen Hy.
  destruct (back_up_to_monday_spec start_date Hv) as (a & Ea & _).
  exact (gen_calendar_no_rows e start_date a title filename years fill_lived w
           Hlen Ea Hy).
Qed.

Lemma no_rows_without_years_witness :
  exists pg,
    gen_calendar env_2024 (mkdt 1988 2 29) DEFAULT_TITLE None (-3) false w0
    = (Ok tt, mkWorld pg [PdfBytes pg] [] "C") /\
    row_labels pg = [] /\
    squares pg = [BIRTHDAY_COLOUR; NEWYEAR_COLOUR; LIVED_COLOUR].
Proof.
  exact (no_rows_without_years env_2024 (mkdt 1988 2 29) DEFAULT_TITLE None
           (-3) false w0 ltac:(valid_date) ltac:(vm_compute; lia) ltac:(lia)).
Defined.

(** X18.  The page of a run of [gen_calendar] that returns begins with
    the background, the title as it was given, the key (the BIRTHDAY, the
    NEWYEAR and the LIVED square, each with its label) and the numbers 1
    to 52 of the weeks, and ends with the call that shows the page. *)
Theorem page_begins_with_title_key_numbers (e : env) (start_date : datetime)
        (title : string) (filename : option string) (years : Z)
        (fill_lived : bool) (w w' : world) :
  valid start_date ->
  gen_calendar e start_date title filename years fill_lived w = (Ok tt, w') ->
  exists rows,
    page w'
    = [FillBackground; ShowText (Str title)] ++ KEY_OPS ++ HEADER_OPS
      ++ rows ++ [ShowPage].
Proof. apply gen_calendar_layout. Qed.

Lemma page_begins_with_title_key_numbers_witness :
  exists rows,
    page (snd (gen_calendar env_2024 (mkdt 1990 3 15) DEFAULT_TITLE None 1
                 false w0))
    = [FillBackground; ShowText (Str DEFAULT_TITLE)] ++ KEY_OPS ++ HEADER_OPS
      ++ rows ++ [ShowPage].
Proof.
  apply (page_begins_with_title_key_numbers env_2024 (mkdt 1990 3 15)
           DEFAULT_TITLE None 1 false w0).
  - valid_date.
  - vm_compute. reflexivity.
Defined.

(** X19.  In a run of [gen_calendar] that returns, with [fill_lived] on
    or off, no row has two BIRTHDAY squares and no row has two NEWYEAR
    squares. *)
Theorem no_row_marks_a_day_twice (e : env) (start_date : datetime)
        (title : string) (filename : option string) (years : Z)
        (fill_lived : bool) (w w' : world) (r c1 c2 : nat) (col : colour) :
  valid start_date ->
  gen_calendar e start_date title filename years fill_lived w = (Ok tt, w') ->
  col = BIRTHDAY_COLOUR \/ col = NEWYEAR_COLOUR ->
  (c1 < 52)%nat -> (c2 < 52)%nat ->
  grid_square (page w') r c1 = Some col ->
  grid_square (page w') r c2 = Some col -> c1 = c2.
Proof.
  intros Hv H Hcol L1 L2 G1 G2.
  destruct (Nat.lt_trichotomy c1 c2) as [Lt | [Eq | Gt]]; [|exact Eq|].
  - exfalso.
    exact (one_mark_a_row e start_date title filename years fill_lived w w'
             r c1 c2 col Hv H Hcol Lt L2 G1 G2).
  - exfalso.
    exact (one_mark_a_row e start_date title filename years fill_lived w w'
             r c2 c1 col Hv H Hcol Gt L1 G2 G1).
Qed.

Lemma no_row_marks_a_day_twice_witness :
  grid_square
    (page (snd (gen_calendar env_2024 (mkdt 1990 3 15) DEFAULT_TITLE None 1
                  false w0))) 0 42
  = Some NEWYEAR_COLOUR /\
  (42 = 42)%nat.
Proof.
  split; [vm_compute; reflexivity|].
  apply (no_row_marks_a_day_twice env_2024 (mkdt 1990 3 15) DEFAULT_TITLE None
           1 false w0
           (snd (gen_calendar env_2024 (mkdt 1990 3 15) DEFAULT_TITLE None 1
                   false w0))
           0 42 42 NEWYEAR_COLOUR).
  - valid_date.
  - vm_compute. reflexivity.
  - right. reflexivity.
  - lia.
  - lia.
  - vm_compute. reflexivity.
  - vm_compute. reflexivity.
Defined.

(** X20.  In a run of [gen_calendar] that returns, the LIVED squares are
    the weeks before the current week, when [fill_lived] is on, and none
    when it is off: the square in row [r] and column [c] is LIVED exactly
    when the option is on and its week, [52 r + c] weeks after the Monday
    of the week of the start date, starts before the Monday of the
    current week. *)
Theorem lived_squares_are_past_weeks (e : env) (start_date : datetime)
        (title : string) (filename : option string) (years : Z)
        (fill_lived : bool) (w w' : world) (r c : nat) :
  valid (today e) -> valid start_date ->
  gen_calendar e start_date title filename years fill_lived w = (Ok tt, w') ->
  Z.of_nat r < years -> (c < 52)%nat ->
  (grid_square (page w') r c = Some LIVED_COLOUR <->
   fill_lived = true /\
   monday_ordinal start_date + 7 * (52 * Z.of_nat r + Z.of_nat c)
   < monday_ordinal (today e)).
Proof. apply lived_squares. Qed.

Lemma lived_squares_are_past_weeks_witness :
  grid_square
    (page (snd (gen_calendar env_2024 (mkdt 1990 3 15) DEFAULT_TITLE None 1
                  true w0))) 0 51
  = Some LIVED_COLOUR.
Proof.
  apply (lived_squares_are_past_weeks env_2024 (mkdt 1990 3 15) DEFAULT_TITLE
           None 1 true w0).
  - valid_date.
  - valid_date.
  - vm_compute. reflexivity.
  - cbn. lia.
  - lia.
  - split; [reflexivity | vm_compute; reflexivity].
Defined.
